(** * Roof damage assessment toolbox: orchestration scripts

    A shallow embedding of the four scripts of the toolbox
    ([prepare_images.py], [export_training_data.py],
    [delineate_roof_damage.py], [calculate_accuracy.py]).

    The scripts sequence calls into the geoprocessing engine.  A run is
    embedded as the trace of engine calls and messages it issues, together
    with its outcome (normal return or a raised exception).  What the
    scripts read from the outside world (which paths exist, which rasters
    and feature classes a workspace lists, the spatial reference of a
    dataset, the fields of a table) is a [Catalog] passed to every [main].
    Engine calls are recorded with their tool name, their environment
    settings and their parameter block, as the wrappers of the scripts
    write them; a call is assumed to come back without raising. *)

From Stdlib Require Import String Ascii List ZArith QArith Lia Bool DecimalString.
From stdpp Require Import gmap strings.
Import ListNotations.

Close Scope Q_scope.
Open Scope Z_scope.
Open Scope string_scope.
Open Scope list_scope.

(** ** Strings of the Python runtime *)

(** The newline and the double quote, which string literals here do not
    hold. *)
Definition nl : string := String (ascii_of_nat 10) EmptyString.
Definition dq : string := String (ascii_of_nat 34) EmptyString.

(** [str(n)] for an [int]. *)
Definition str_of_Z (n : Z) : string := NilZero.string_of_int (Z.to_int n).

(** [x in l] for a list of [str]. *)
Definition py_in (x : string) (l : list string) : bool :=
  existsb (String.eqb x) l.

(** ** [os.path] (POSIX flavour) *)

Module OsPath.

(** [s.rfind(c)]: the highest index of [c] in [s], [-1] when absent. *)
Fixpoint rfind_from (c : ascii) (s : string) (i acc : Z) : Z :=
  match s with
  | EmptyString => acc
  | String a r => rfind_from c r (i + 1) (if Ascii.eqb a c then i else acc)
  end.

Definition rfind (c : ascii) (s : string) : Z := rfind_from c s 0 (-1).

(** [s[i:]] and [s[:i]] for [0 <= i]. *)
Definition slice_from (s : string) (i : Z) : string :=
  substring (Z.to_nat i) (String.length s - Z.to_nat i) s.

Definition slice_to (s : string) (i : Z) : string :=
  substring 0 (Z.to_nat i) s.

Definition sep : ascii := "/"%char.
Definition extsep : ascii := "."%char.

(** [basename(p)]: [i = p.rfind(sep) + 1; return p[i:]]. *)
Definition basename (p : string) : string :=
  slice_from p (rfind sep p + 1).

(** The [while filenameIndex < dotIndex] loop of [_splitext]: leading
    dots of the file name are skipped; [n] counts the iterations left. *)
Fixpoint splitext_scan (p : string) (n : nat) (filenameIndex dotIndex : Z)
  : string * string :=
  match n with
  | O => (p, "")
  | S n' =>
      if negb (String.eqb (substring (Z.to_nat filenameIndex) 1 p) ".")
      then (slice_to p dotIndex, slice_from p dotIndex)
      else splitext_scan p n' (filenameIndex + 1) dotIndex
  end.

Definition splitext (p : string) : string * string :=
  let sepIndex := rfind sep p in
  let dotIndex := rfind extsep p in
  if dotIndex >? sepIndex
  then splitext_scan p (Z.to_nat (dotIndex - (sepIndex + 1))) (sepIndex + 1) dotIndex
  else (p, "").

Definition startswith_sep (b : string) : bool :=
  match b with
  | String a _ => Ascii.eqb a sep
  | EmptyString => false
  end.

Fixpoint endswith_sep (a : string) : bool :=
  match a with
  | EmptyString => false
  | String c EmptyString => Ascii.eqb c sep
  | String _ r => endswith_sep r
  end.

(** [join(a, b)] for two components. *)
Definition join (a b : string) : string :=
  if startswith_sep b then b
  else if (String.eqb a "" || endswith_sep a)%bool then a ++ b
  else a ++ "/" ++ b.

Fixpoint all_sep (s : string) : bool :=
  match s with
  | EmptyString => true
  | String c r => (Ascii.eqb c sep && all_sep r)%bool
  end.

(** [s.rstrip(sep)]. *)
Fixpoint rstrip_sep (s : string) : string :=
  match s with
  | EmptyString => EmptyString
  | String c r =>
      let r' := rstrip_sep r in
      if (String.eqb r' "" && Ascii.eqb c sep)%bool then EmptyString
      else String c r'
  end.

(** [dirname(p)]: the head of the split, without its trailing
    separators unless it is the root. *)
Definition dirname (p : string) : string :=
  let head := slice_to p (rfind sep p + 1) in
  if (negb (String.eqb head "") && negb (all_sep head))%bool
  then rstrip_sep head else head.

End OsPath.

(** ** The geoprocessing engine as seen from the scripts *)

(** Values of a parameter block. *)
Inductive value : Type :=
| VStr (s : string)
| VList (l : list string)
| VBool (b : bool)
| VInt (z : Z)
| VNum (q : Q)
| VClassified (in_raster in_model_definition : string)
| VFieldMappings (s : string).

(** One call of an engine tool: its name, the settings of the
    [arcpy.EnvManager] block around it, and its keyword arguments. *)
Record gp_call : Type := GpCall {
  tool : string;
  env : list (string * value);
  args : list (string * value)
}.

(** What a script does that is visible from outside. *)
Inductive event : Type :=
| AddError (msg : string)
| AddWarning (msg : string)
| AddMessage (msg : string)
| Print (msg : string)
| SetProgressor (step_value : Z)
| SetProgressorLabel (label : string)
| SetProgressorPosition (position : option Z)
| SetEnv (name value : string)
| InsertRow (table : string) (class_name : string)
| Call (c : gp_call).

Inductive exn : Type :=
| FileNotFoundError (msg : string)
| ValueError (msg : string).

(** What a script reads from the outside world. *)
Record Catalog : Type := {
  path_exists : string -> bool;                 (* os.path.exists *)
  ListRasters : string -> list string;          (* with env.workspace set *)
  ListFeatureClasses : string -> list string;   (* with env.workspace set *)
  spatialreference_type : string -> string;     (* Describe(p).spatialreference.type *)
  spatialreference_string : string -> string;   (* ....exportToString() *)
  ListFields : string -> list string            (* names of arcpy.ListFields(p) *)
}.

(** *** A run: the events so far, and an exception or a value *)

Definition M (A : Type) : Type := (list event * (exn + A))%type.

Definition ret {A} (a : A) : M A := ([], inr a).

Definition bind {A B} (m : M A) (k : A -> M B) : M B :=
  match m with
  | (t, inl e) => (t, inl e)
  | (t, inr a) => let (t', r) := k a in (t ++ t', r)
  end.

Definition emit (e : event) : M unit := ([e], inr tt).
Definition call (c : gp_call) : M unit := emit (Call c).
Definition raise {A} (e : exn) : M A := ([], inl e).

Notation "x <- m ;; k" := (bind m (fun x => k))
  (at level 100, m at next level, right associativity).
Notation "m ;; k" := (bind m (fun _ => k))
  (at level 100, right associativity).

Definition trace {A} (m : M A) : list event := fst m.
Definition outcome {A} (m : M A) : exn + A := snd m.

(** [for x in items: body], with the local variables the body updates
    threaded through. *)
Fixpoint for_each {A S} (body : A -> S -> M S) (items : list A) (st : S) : M S :=
  match items with
  | [] => ret st
  | x :: xs => st' <- body x st ;; for_each body xs st'
  end.

(** The engine calls of a trace, in order. *)
Fixpoint gp_calls (t : list event) : list gp_call :=
  match t with
  | [] => []
  | Call c :: r => c :: gp_calls r
  | _ :: r => gp_calls r
  end.

(** The value a call passes for a keyword. *)
Fixpoint lookup_arg (name : string) (l : list (string * value)) : option value :=
  match l with
  | [] => None
  | (k, v) :: r => if String.eqb k name then Some v else lookup_arg name r
  end.

Definition arg (name : string) (c : gp_call) : option value := lookup_arg name (args c).

(** [get_workspace_extension], the same function in the four scripts. *)
Definition get_workspace_extension (workspace_path : string) : string :=
  let name_with_extension := OsPath.basename workspace_path in
  snd (OsPath.splitext name_with_extension).

(** The loop that opens every [main]:
    [for path in paths: if os.path.exists(path): continue; ...; raise]. *)
Fixpoint check_paths_exist (fs : Catalog) (paths : list string) : M unit :=
  match paths with
  | [] => ret tt
  | p :: rest =>
      if path_exists fs p then check_paths_exist fs rest
      else
        emit (AddError (p ++ " does not exist.")) ;;
        raise (FileNotFoundError (p ++ " does not exist."))
  end.

(** [if get_workspace_extension(p) != '.gdb': AddError(msg); raise ValueError(msg)]. *)
Definition check_gdb (p msg : string) : M unit :=
  if negb (String.eqb (get_workspace_extension p) ".gdb")
  then emit (AddError msg) ;; raise (ValueError msg)
  else ret tt.

(** ** prepare_images.py *)

Module PrepareImages.

Definition get_file_name (file_path : string) : string :=
  let name_with_extension := OsPath.basename file_path in
  fst (OsPath.splitext name_with_extension).

Definition get_spatial_ref_type (fs : Catalog) (data_path : string) : string :=
  spatialreference_type fs data_path.

Definition get_spatial_ref_string (fs : Catalog) (data_path : string) : string :=
  spatialreference_string fs data_path.

Definition raster_env : list (string * value) :=
  [("overwriteOutput", VBool true); ("pyramid", VStr "NONE");
   ("rasterStatistics", VStr "NONE"); ("resamplingMethod", VStr "CUBIC")].

Definition extract_rgb_bands (input_image_path output_layer_path : string) : gp_call :=
  {| tool := "arcpy.management.MakeRasterLayer";
     env := raster_env;
     args := [("in_raster", VStr input_image_path);
              ("out_rasterlayer", VStr output_layer_path);
              ("band_index", VStr "1;2;3")] |}.

Definition project_resample_image
  (input_image_path output_image_path spatial_ref_string : string) : gp_call :=
  {| tool := "arcpy.management.ProjectRaster";
     env := raster_env;
     args := [("in_raster", VStr input_image_path);
              ("out_raster", VStr output_image_path);
              ("out_coor_system", VStr spatial_ref_string);
              ("resampling_type", VStr "CUBIC");
              ("cell_size", VNum (5 # 100))] |}.

Definition resample_image (input_image_path output_image_path : string) : gp_call :=
  {| tool := "arcpy.management.Resample";
     env := raster_env;
     args := [("in_raster", VStr input_image_path);
              ("out_raster", VStr output_image_path);
              ("cell_size", VNum (5 # 100));
              ("resampling_type", VStr "CUBIC")] |}.

Definition clip_image
  (input_image_path output_image_path clipping_fclass_path : string) : gp_call :=
  {| tool := "arcpy.management.Clip";
     env := raster_env;
     args := [("in_raster", VStr input_image_path);
              ("out_raster", VStr output_image_path);
              ("in_template_dataset", VStr clipping_fclass_path);
              ("clipping_geometry", VStr "ClippingGeometry")] |}.

Definition export_image (input_image_path output_image_path : string) : gp_call :=
  {| tool := "arcpy.management.CopyRaster";
     env := [("overwriteOutput", VBool true);
             ("pyramid", VStr "PYRAMIDS -1 CUBIC LZ77 NO_SKIP");
             ("rasterStatistics", VStr "STATISTICS");
             ("resamplingMethod", VStr "CUBIC")];
     args := [("in_raster", VStr input_image_path);
              ("out_rasterdataset", VStr output_image_path);
              ("pixel_type", VStr "8_BIT_UNSIGNED")] |}.

(** The local variables the loop of [main] updates. *)
Record locals : Type := Locals {
  skipped_images : list string;
  images_remaining : Z
}.

Section Main.
Variable fs : Catalog.
Variables input_images_folder boundary_polygons_gdb output_images_gdb scratch_gdb : string.

Definition no_boundary_msg (image_name image : string) (remaining : Z) : string :=
  "A feature class named " ++ image_name ++ " does not exist in the image "
  ++ "boundary polygons file geodatabase. " ++ image ++ " has been skipped. "
  ++ str_of_Z remaining ++ " images remaining.".

Definition unknown_sr_msg (image : string) (remaining : Z) : string :=
  "The spatial reference of " ++ image ++ " is unknown and needs to be defined."
  ++ " The image has been skipped. " ++ str_of_Z remaining ++ " images remaining.".

(** The body of [for image in images]. *)
Definition prepare_image (boundary_fclasses : list string)
  (image : string) (st : locals) : M locals :=
  let image_name := get_file_name (OsPath.join input_images_folder image) in
  if negb (py_in image_name boundary_fclasses) then
    let st := {| skipped_images := skipped_images st ++ [image];
                 images_remaining := images_remaining st - 1 |} in
    emit (AddWarning (no_boundary_msg image_name image (images_remaining st))) ;;
    emit (Print (no_boundary_msg image_name image (images_remaining st))) ;;
    ret st
  else
    let image_sr_type :=
      get_spatial_ref_type fs (OsPath.join input_images_folder image) in
    if String.eqb image_sr_type "Unknown" then
      let st := {| skipped_images := skipped_images st ++ [image];
                   images_remaining := images_remaining st - 1 |} in
      emit (AddWarning (unknown_sr_msg image (images_remaining st))) ;;
      emit (Print (unknown_sr_msg image (images_remaining st))) ;;
      ret st
    else
      (if String.eqb image_sr_type "Geographic" then
         call (extract_rgb_bands
                 (OsPath.join input_images_folder image)
                 (OsPath.join scratch_gdb "temp_raster_layer")) ;;
         let boundary_sr_string :=
           get_spatial_ref_string fs (OsPath.join boundary_polygons_gdb image_name) in
         emit (SetProgressorLabel ("Projecting and resampling " ++ image)) ;;
         emit (Print ("Projecting and resampling " ++ image)) ;;
         call (project_resample_image
                 (OsPath.join scratch_gdb "temp_raster_layer")
                 (OsPath.join scratch_gdb "resampled")
                 boundary_sr_string) ;;
         emit (SetProgressorPosition None)
       else ret tt) ;;
      (if String.eqb image_sr_type "Projected" then
         emit (SetProgressorLabel ("Resampling " ++ image)) ;;
         emit (Print ("Projecting and resampling " ++ image)) ;;
         call (resample_image
                 (OsPath.join input_images_folder image)
                 (OsPath.join scratch_gdb "resampled")) ;;
         emit (SetProgressorPosition None)
       else ret tt) ;;
      emit (SetProgressorLabel ("Clipping " ++ image)) ;;
      emit (Print ("Clipping " ++ image)) ;;
      call (clip_image
              (OsPath.join scratch_gdb "resampled")
              (OsPath.join scratch_gdb "clipped")
              (OsPath.join boundary_polygons_gdb image_name)) ;;
      emit (SetProgressorPosition None) ;;
      emit (SetProgressorLabel ("Exporting " ++ image)) ;;
      emit (Print ("Exporting " ++ image)) ;;
      call (export_image
              (OsPath.join scratch_gdb "clipped")
              (OsPath.join output_images_gdb image_name)) ;;
      emit (SetProgressorPosition None) ;;
      let st := {| skipped_images := skipped_images st;
                   images_remaining := images_remaining st - 1 |} in
      emit (AddMessage ("Prepared " ++ image ++ ". "
                        ++ str_of_Z (images_remaining st) ++ " images remaining.")) ;;
      emit (Print ("Prepared " ++ image ++ ". "
                   ++ str_of_Z (images_remaining st) ++ " images remaining.")) ;;
      emit (SetProgressorPosition (Some 0)) ;;
      ret st.

(** [if len(skipped_images) > 0: ... for image in skipped_images: ...]. *)
Definition report_skipped (skipped : list string) : M unit :=
  if Z.gtb (Z.of_nat (List.length skipped)) 0 then
    emit (AddMessage (nl ++ "The following images were skipped:")) ;;
    emit (Print (nl ++ "The following images were skipped:")) ;;
    for_each (fun image (_ : unit) =>
                emit (AddMessage image) ;; emit (Print image)) skipped tt
  else ret tt.

Definition no_images_msg : string :=
  "The input images folder contains zero valid images. "
  ++ "Valid raster types include BMP, GIF, IMG, JP2, JPG, PNG, TIF, and GRID.".

Definition main : M unit :=
  check_paths_exist fs
    [input_images_folder; boundary_polygons_gdb; output_images_gdb; scratch_gdb] ;;
  check_gdb boundary_polygons_gdb
    "The boundary polygons path must correspond to a file geodatabase (.gdb)." ;;
  check_gdb output_images_gdb
    "The output images path must correspond to a file geodatabase (.gdb)." ;;
  check_gdb scratch_gdb
    "The scratch path must correspond to a file geodatabase (.gdb)." ;;
  emit (SetEnv "scratchWorkspace" scratch_gdb) ;;
  emit (SetEnv "workspace" input_images_folder) ;;
  let images := ListRasters fs input_images_folder in
  let images_remaining := Z.of_nat (List.length images) in
  (if Z.eqb images_remaining 0 then
     emit (AddError no_images_msg) ;;
     raise (FileNotFoundError no_images_msg)
   else ret tt) ;;
  emit (SetEnv "workspace" boundary_polygons_gdb) ;;
  let boundary_fclasses := ListFeatureClasses fs boundary_polygons_gdb in
  emit (SetProgressor 33) ;;
  st <- for_each (prepare_image boundary_fclasses) images
          {| skipped_images := [];
             images_remaining := images_remaining |} ;;
  emit (AddMessage (nl ++ "Exported prepared images to " ++ output_images_gdb)) ;;
  emit (Print (nl ++ "Exported prepared images to " ++ output_images_gdb)) ;;
  report_skipped (skipped_images st).

(** The paths [main] checks, and what it needs to reach its loop. *)
Definition workspaces : list string :=
  [input_images_folder; boundary_polygons_gdb; output_images_gdb; scratch_gdb].
Definition geodatabases : list string :=
  [boundary_polygons_gdb; output_images_gdb; scratch_gdb].

Definition ready : Prop :=
  Forall (fun p => path_exists fs p = true) workspaces
  /\ Forall (fun p => get_workspace_extension p = ".gdb") geodatabases.

(** The engine calls of one iteration; they do not depend on the
    counters. *)
Definition image_calls (image : string) : list gp_call :=
  gp_calls (trace (prepare_image (ListFeatureClasses fs boundary_polygons_gdb) image
                     {| skipped_images := []; images_remaining := 0 |})).

(** Whether the loop skips an image. *)
Definition skips (image : string) : bool :=
  (negb (py_in (get_file_name (OsPath.join input_images_folder image))
           (ListFeatureClasses fs boundary_polygons_gdb))
   || String.eqb (get_spatial_ref_type fs (OsPath.join input_images_folder image))
        "Unknown")%bool.

(** The calls the specification lists for an image that is not skipped,
    written out call by call.  [image_name] is the name of the image file
    without its extension. *)
Definition spec_clip_export (image : string) : list gp_call :=
  let image_name := get_file_name (OsPath.join input_images_folder image) in
  [{| tool := "arcpy.management.Clip";
      env := [("overwriteOutput", VBool true); ("pyramid", VStr "NONE");
              ("rasterStatistics", VStr "NONE"); ("resamplingMethod", VStr "CUBIC")];
      args := [("in_raster", VStr (OsPath.join scratch_gdb "resampled"));
               ("out_raster", VStr (OsPath.join scratch_gdb "clipped"));
               ("in_template_dataset",
                 VStr (OsPath.join boundary_polygons_gdb image_name));
               ("clipping_geometry", VStr "ClippingGeometry")] |};
   {| tool := "arcpy.management.CopyRaster";
      env := [("overwriteOutput", VBool true);
              ("pyramid", VStr "PYRAMIDS -1 CUBIC LZ77 NO_SKIP");
              ("rasterStatistics", VStr "STATISTICS");
              ("resamplingMethod", VStr "CUBIC")];
      args := [("in_raster", VStr (OsPath.join scratch_gdb "clipped"));
               ("out_rasterdataset", VStr (OsPath.join output_images_gdb image_name));
               ("pixel_type", VStr "8_BIT_UNSIGNED")] |}].

Definition spec_geographic_calls (image : string) : list gp_call :=
  let image_name := get_file_name (OsPath.join input_images_folder image) in
  [{| tool := "arcpy.management.MakeRasterLayer";
      env := [("overwriteOutput", VBool true); ("pyramid", VStr "NONE");
              ("rasterStatistics", VStr "NONE"); ("resamplingMethod", VStr "CUBIC")];
      args := [("in_raster", VStr (OsPath.join input_images_folder image));
               ("out_rasterlayer", VStr (OsPath.join scratch_gdb "temp_raster_layer"));
               ("band_index", VStr "1;2;3")] |};
   {| tool := "arcpy.management.ProjectRaster";
      env := [("overwriteOutput", VBool true); ("pyramid", VStr "NONE");
              ("rasterStatistics", VStr "NONE"); ("resamplingMethod", VStr "CUBIC")];
      args := [("in_raster", VStr (OsPath.join scratch_gdb "temp_raster_layer"));
               ("out_raster", VStr (OsPath.join scratch_gdb "resampled"));
               ("out_coor_system",
                 VStr (spatialreference_string fs
                         (OsPath.join boundary_polygons_gdb image_name)));
               ("resampling_type", VStr "CUBIC");
               ("cell_size", VNum (5 # 100))] |}]
  ++ spec_clip_export image.

Definition spec_projected_calls (image : string) : list gp_call :=
  [{| tool := "arcpy.management.Resample";
      env := [("overwriteOutput", VBool true); ("pyramid", VStr "NONE");
              ("rasterStatistics", VStr "NONE"); ("resamplingMethod", VStr "CUBIC")];
      args := [("in_raster", VStr (OsPath.join input_images_folder image));
               ("out_raster", VStr (OsPath.join scratch_gdb "resampled"));
               ("cell_size", VNum (5 # 100));
               ("resampling_type", VStr "CUBIC")] |}]
  ++ spec_clip_export image.

End Main.

(** *** Where the pixels of a raster come from

    The raster tools of this script read one raster and write one.  A
    store maps the path of a raster to the images its pixels were
    computed from; a tool whose input is not there fails. *)

Definition first_some {A} (a b : option A) : option A :=
  match a with Some x => Some x | None => b end.

Definition raster_io (c : gp_call) : option (string * string) :=
  match arg "in_raster" c,
        first_some (arg "out_rasterlayer" c)
          (first_some (arg "out_raster" c) (arg "out_rasterdataset" c)) with
  | Some (VStr i), Some (VStr o) => Some (i, o)
  | _, _ => None
  end.

Definition run_call (s : gmap string (list string)) (c : gp_call)
  : option (gmap string (list string)) :=
  match raster_io c with
  | Some (i, o) =>
      match s !! i with
      | Some sources => Some (<[o := sources]> s)
      | None => None
      end
  | None => None
  end.

Fixpoint run_calls (s : gmap string (list string)) (cs : list gp_call)
  : option (gmap string (list string)) :=
  match cs with
  | [] => Some s
  | c :: r =>
      match run_call s c with
      | Some s' => run_calls s' r
      | None => None
      end
  end.

End PrepareImages.

(** ** export_training_data.py *)

Module ExportTrainingData.

Definition export_training_data
  (input_image_path output_folder_path training_polygons_fclass_path
     image_boundary_fclass_path : string) : gp_call :=
  {| tool := "arcpy.ia.ExportTrainingDataForDeepLearning";
     env := [("parallelProcessingFactor", VStr "0")];
     args := [("in_raster", VStr input_image_path);
              ("out_folder", VStr output_folder_path);
              ("in_class_data", VStr training_polygons_fclass_path);
              ("image_chip_format", VStr "TIFF");
              ("tile_size_x", VInt 512);
              ("tile_size_y", VInt 512);
              ("stride_x", VInt 128);
              ("stride_y", VInt 128);
              ("output_nofeature_tiles", VBool false);
              ("metadata_format", VStr "Classified_Tiles");
              ("buffer_radius", VInt 0);
              ("in_mask_polygons", VStr image_boundary_fclass_path);
              ("rotation_angle", VInt 0);
              ("reference_system", VStr "MAP_SPACE");
              ("processing_mode", VStr "PROCESS_AS_MOSAICKED_IMAGE");
              ("min_polygon_overlap_ratio", VNum (5 # 10))] |}.

Record locals : Type := Locals {
  skipped_images : list string;
  images_remaining : Z
}.

Section Main.
Variable fs : Catalog.
Variables input_images_gdb training_polygons_gdb boundary_polygons_gdb
  output_data_folder : string.

Definition no_training_msg (image : string) (remaining : Z) : string :=
  "A feature class named " ++ image ++ " does not exist in the training "
  ++ "polygons file geodatabase. " ++ image ++ " has been skipped. "
  ++ str_of_Z remaining ++ " images remaining.".

Definition no_boundary_msg (image : string) (remaining : Z) : string :=
  "A feature class named " ++ image ++ " does not exist in the image "
  ++ "boundary polygons file geodatabase. " ++ image ++ " has been skipped. "
  ++ str_of_Z remaining ++ " images remaining.".

(** The body of [for image in images]. *)
Definition export_image (training_polygons_fclasses boundary_fclasses : list string)
  (image : string) (st : locals) : M locals :=
  if negb (py_in image training_polygons_fclasses) then
    emit (SetProgressorPosition None) ;;
    let st := {| skipped_images := skipped_images st ++ [image];
                 images_remaining := images_remaining st - 1 |} in
    emit (AddWarning (no_training_msg image (images_remaining st))) ;;
    emit (Print (no_training_msg image (images_remaining st))) ;;
    ret st
  else if negb (py_in image boundary_fclasses) then
    let st := {| skipped_images := skipped_images st ++ [image];
                 images_remaining := images_remaining st |} in
    emit (SetProgressorPosition None) ;;
    let st := {| skipped_images := skipped_images st;
                 images_remaining := images_remaining st - 1 |} in
    emit (AddWarning (no_boundary_msg image (images_remaining st))) ;;
    emit (Print (no_boundary_msg image (images_remaining st))) ;;
    ret st
  else
    emit (SetProgressorLabel ("Exporting training data from " ++ image)) ;;
    emit (Print ("Exporting training data from " ++ image)) ;;
    call (export_training_data
            (OsPath.join input_images_gdb image)
            output_data_folder
            (OsPath.join training_polygons_gdb image)
            (OsPath.join boundary_polygons_gdb image)) ;;
    emit (SetProgressorPosition None) ;;
    let st := {| skipped_images := skipped_images st;
                 images_remaining := images_remaining st - 1 |} in
    emit (AddMessage ("Exported training data from " ++ image ++ ". "
                      ++ str_of_Z (images_remaining st) ++ " images remaining.")) ;;
    emit (Print ("Exported training data from " ++ image ++ ". "
                 ++ str_of_Z (images_remaining st) ++ " images remaining.")) ;;
    ret st.

Definition report_skipped (skipped : list string) : M unit :=
  if Z.gtb (Z.of_nat (List.length skipped)) 0 then
    emit (AddMessage (nl ++ "The following images were skipped:")) ;;
    emit (Print (nl ++ "The following images were skipped:")) ;;
    for_each (fun image (_ : unit) =>
                emit (AddMessage image) ;; emit (Print image)) skipped tt
  else ret tt.

Definition main : M unit :=
  check_paths_exist fs
    [input_images_gdb; boundary_polygons_gdb; training_polygons_gdb;
     output_data_folder] ;;
  check_gdb input_images_gdb
    "The input images path must correspond to a file geodatabase (.gdb)." ;;
  check_gdb training_polygons_gdb
    "The training polygons path must correspond to a file geodatabase (.gdb)." ;;
  check_gdb boundary_polygons_gdb
    "The boundary polygons path must correspond to a file geodatabase (.gdb)." ;;
  emit (SetEnv "workspace" input_images_gdb) ;;
  let images := ListRasters fs input_images_gdb in
  let images_remaining := Z.of_nat (List.length images) in
  (if Z.eqb images_remaining 0 then
     emit (AddError "The input images file geodatabase contains zero rasters.") ;;
     raise (FileNotFoundError
              "The input images file geodatabase contains zero rasters.")
   else ret tt) ;;
  emit (SetEnv "workspace" training_polygons_gdb) ;;
  let training_polygons_fclasses := ListFeatureClasses fs training_polygons_gdb in
  emit (SetEnv "workspace" boundary_polygons_gdb) ;;
  let boundary_fclasses := ListFeatureClasses fs boundary_polygons_gdb in
  emit (SetProgressor (Z.quot 100 images_remaining)) ;;
  st <- for_each (export_image training_polygons_fclasses boundary_fclasses) images
          {| skipped_images := [];
             images_remaining := images_remaining |} ;;
  emit (AddMessage (nl ++ "Exported training data to " ++ output_data_folder)) ;;
  emit (Print (nl ++ "Exported training data to " ++ output_data_folder)) ;;
  report_skipped (skipped_images st).

Definition workspaces : list string :=
  [input_images_gdb; boundary_polygons_gdb; training_polygons_gdb; output_data_folder].
Definition geodatabases : list string :=
  [input_images_gdb; training_polygons_gdb; boundary_polygons_gdb].

Definition ready : Prop :=
  Forall (fun p => path_exists fs p = true) workspaces
  /\ Forall (fun p => get_workspace_extension p = ".gdb") geodatabases.

Definition image_calls (image : string) : list gp_call :=
  gp_calls (trace (export_image (ListFeatureClasses fs training_polygons_gdb)
                     (ListFeatureClasses fs boundary_polygons_gdb) image
                     {| skipped_images := []; images_remaining := 0 |})).

Definition skips (image : string) : bool :=
  (negb (py_in image (ListFeatureClasses fs training_polygons_gdb))
   || negb (py_in image (ListFeatureClasses fs boundary_polygons_gdb)))%bool.

End Main.

End ExportTrainingData.

(** ** delineate_roof_damage.py *)

Module DelineateRoofDamage.

Definition generate_classified_raster (input_image_path input_model_path : string)
  : gp_call :=
  {| tool := "arcpy.ia.ClassifyPixelsUsingDeepLearning";
     env := [("overwriteOutput", VBool true); ("processorType", VStr "GPU");
             ("gpuId", VInt 0)];
     args := [("in_raster", VStr input_image_path);
              ("in_model_definition", VStr input_model_path);
              ("arguments",
                VStr ("batch_size 4; padding 128; predict_background False; "
                      ++ "test_time_augmentation False"))] |}.

(** The raster object the classification returns. *)
Definition classified_raster (input_image_path input_model_path : string) : value :=
  VClassified input_image_path input_model_path.

Definition raster_to_fclass (input_raster_path : value) (output_fclass_path : string)
  : gp_call :=
  {| tool := "arcpy.conversion.RasterToPolygon";
     env := [("overwriteOutput", VBool true)];
     args := [("in_raster", input_raster_path);
              ("out_polygon_features", VStr output_fclass_path);
              ("simplify", VStr "NO_SIMPLIFY");
              ("raster_field", VStr "Class");
              ("create_multipart_features", VStr "SINGLE_OUTER_PART")] |}.

Definition delete_fclass_fields (input_fclass_path : string) : gp_call :=
  {| tool := "arcpy.management.DeleteField";
     env := [("overwriteOutput", VBool true)];
     args := [("in_table", VStr input_fclass_path);
              ("drop_field", VList ["Id"; "gridcode"]);
              ("method", VStr "DELETE_FIELDS")] |}.

Definition merge_fclasses (fclass_paths_list : list string) (output_fclass_path : string)
  : gp_call :=
  {| tool := "arcpy.management.Merge";
     env := [("overwriteOutput", VBool true)];
     args := [("inputs", VList fclass_paths_list);
              ("output", VStr output_fclass_path);
              ("add_source", VStr "NO_SOURCE_INFO");
              ("field_match_mode", VStr "AUTOMATIC")] |}.

(** [d[k] = v] on a dict, which keeps insertion order: the value of an
    existing key is replaced in place, a new key goes to the end. *)
Fixpoint dict_set (d : list (string * string)) (k v : string)
  : list (string * string) :=
  match d with
  | [] => [(k, v)]
  | (k', v') :: r =>
      if String.eqb k' k then (k', v) :: r else (k', v') :: dict_set r k v
  end.

(** [for path in paths: if path == '': continue; model_paths.append(path)]. *)
Fixpoint collect_model_paths (paths model_paths : list string) : list string :=
  match paths with
  | [] => model_paths
  | path :: rest =>
      if String.eqb path "" then collect_model_paths rest model_paths
      else collect_model_paths rest (model_paths ++ [path])
  end.

Section Main.
Variable fs : Catalog.
Variables input_images_gdb model_path_decking model_path_hole model_path_dual
  output_fclasses_gdb scratch_gdb : string.

(** The body of [for damage_class, model_path in model_dictionary.items()]. *)
Definition delineate_with_model (image : string) (item : string * string)
  (predicted_fclass_paths : list string) : M (list string) :=
  let (damage_class, model_path) := item in
  call (generate_classified_raster
          (OsPath.join input_images_gdb image) model_path) ;;
  let roof_damage_raster :=
    classified_raster (OsPath.join input_images_gdb image) model_path in
  call (raster_to_fclass roof_damage_raster
          (OsPath.join scratch_gdb (image ++ "_" ++ damage_class))) ;;
  call (delete_fclass_fields
          (OsPath.join scratch_gdb (image ++ "_" ++ damage_class))) ;;
  ret (predicted_fclass_paths
         ++ [OsPath.join scratch_gdb (image ++ "_" ++ damage_class)]).

(** The body of [for image in images]. *)
Definition delineate_image (model_dictionary : list (string * string))
  (image : string) (images_remaining : Z) : M Z :=
  emit (SetProgressorLabel ("Delineating roof damage in " ++ image)) ;;
  emit (Print ("Delineating roof damage in " ++ image)) ;;
  predicted_fclass_paths <-
    for_each (delineate_with_model image) model_dictionary [] ;;
  call (merge_fclasses predicted_fclass_paths
          (OsPath.join output_fclasses_gdb image)) ;;
  emit (SetProgressorPosition None) ;;
  let images_remaining := images_remaining - 1 in
  emit (AddMessage ("Delineated roof damage in " ++ image ++ ". "
                    ++ str_of_Z images_remaining ++ " images remaining.")) ;;
  emit (Print ("Delineated roof damage in " ++ image ++ ". "
               ++ str_of_Z images_remaining ++ " images remaining.")) ;;
  ret images_remaining.

Definition no_models_msg : string :=
  "There are zero input models. Input at least one model path "
  ++ "(.emd or .dlpk).".

Definition model_dictionary : list (string * string) :=
  let d := [] in
  let d := if negb (String.eqb model_path_decking "")
           then dict_set d "decking" model_path_decking else d in
  let d := if negb (String.eqb model_path_hole "")
           then dict_set d "hole" model_path_hole else d in
  let d := if negb (String.eqb model_path_dual "")
           then dict_set d "dual" model_path_dual else d in
  d.

Definition main : M unit :=
  check_paths_exist fs [input_images_gdb; output_fclasses_gdb; scratch_gdb] ;;
  let model_paths :=
    collect_model_paths [model_path_decking; model_path_hole; model_path_dual] [] in
  (if Z.eqb (Z.of_nat (List.length model_paths)) 0 then
     emit (AddError no_models_msg) ;;
     raise (FileNotFoundError no_models_msg)
   else ret tt) ;;
  check_paths_exist fs model_paths ;;
  check_gdb input_images_gdb
    "The input images path must correspond to a file geodatabase (.gdb)." ;;
  check_gdb output_fclasses_gdb
    "The output path must correspond to a file geodatabase (.gdb)." ;;
  check_gdb scratch_gdb
    "The scratch path must correspond to a file geodatabase (.gdb)." ;;
  emit (SetEnv "scratchWorkspace" scratch_gdb) ;;
  emit (SetEnv "workspace" input_images_gdb) ;;
  let images := ListRasters fs input_images_gdb in
  let images_remaining := Z.of_nat (List.length images) in
  (if Z.eqb images_remaining 0 then
     emit (AddError "The input images file geodatabase contains zero rasters.") ;;
     raise (FileNotFoundError
              "The input images file geodatabase contains zero rasters.")
   else ret tt) ;;
  emit (SetProgressor (Z.quot 100 images_remaining)) ;;
  _ <- for_each (delineate_image model_dictionary) images images_remaining ;;
  emit (AddMessage (nl ++ "Exported predicted polygons feature classes to "
                    ++ output_fclasses_gdb)) ;;
  emit (Print (nl ++ "Exported predicted polygons feature classes to "
               ++ output_fclasses_gdb)).

Definition workspaces : list string :=
  [input_images_gdb; output_fclasses_gdb; scratch_gdb].
Definition geodatabases : list string :=
  [input_images_gdb; output_fclasses_gdb; scratch_gdb].
Definition model_paths : list string :=
  collect_model_paths [model_path_decking; model_path_hole; model_path_dual] [].

Definition models_ready : Prop :=
  model_paths <> [] /\ Forall (fun p => path_exists fs p = true) model_paths.

Definition ready : Prop :=
  Forall (fun p => path_exists fs p = true) workspaces
  /\ models_ready
  /\ Forall (fun p => get_workspace_extension p = ".gdb") geodatabases.

(** The supplied models as the specification words them: the three parameters
    in the order decking, hole, dual, those with an empty path left
    out. *)
Definition spec_supplied_models : list (string * string) :=
  List.filter (fun item => negb (String.eqb (snd item) ""))
    [("decking", model_path_decking); ("hole", model_path_hole);
     ("dual", model_path_dual)].

(** The calls the specification lists for one image, written out call by
    call: for every supplied model the classification of the image, the
    conversion of the classified raster to the polygon feature class
    [image_class] of the scratch geodatabase and the deletion of the two
    fields; then the merge into the output feature class. *)
Definition spec_image_calls (image : string) : list gp_call :=
  flat_map
    (fun item =>
       [{| tool := "arcpy.ia.ClassifyPixelsUsingDeepLearning";
           env := [("overwriteOutput", VBool true); ("processorType", VStr "GPU");
                   ("gpuId", VInt 0)];
           args := [("in_raster", VStr (OsPath.join input_images_gdb image));
                    ("in_model_definition", VStr (snd item));
                    ("arguments",
                      VStr "batch_size 4; padding 128; predict_background False; test_time_augmentation False")] |};
        {| tool := "arcpy.conversion.RasterToPolygon";
           env := [("overwriteOutput", VBool true)];
           args := [("in_raster",
                      VClassified (OsPath.join input_images_gdb image) (snd item));
                    ("out_polygon_features",
                      VStr (OsPath.join scratch_gdb (image ++ "_" ++ fst item)));
                    ("simplify", VStr "NO_SIMPLIFY");
                    ("raster_field", VStr "Class");
                    ("create_multipart_features", VStr "SINGLE_OUTER_PART")] |};
        {| tool := "arcpy.management.DeleteField";
           env := [("overwriteOutput", VBool true)];
           args := [("in_table",
                      VStr (OsPath.join scratch_gdb (image ++ "_" ++ fst item)));
                    ("drop_field", VList ["Id"; "gridcode"]);
                    ("method", VStr "DELETE_FIELDS")] |}])
    spec_supplied_models
  ++ [{| tool := "arcpy.management.Merge";
         env := [("overwriteOutput", VBool true)];
         args := [("inputs",
                    VList (map (fun item =>
                                  OsPath.join scratch_gdb (image ++ "_" ++ fst item))
                             spec_supplied_models));
                  ("output", VStr (OsPath.join output_fclasses_gdb image));
                  ("add_source", VStr "NO_SOURCE_INFO");
                  ("field_match_mode", VStr "AUTOMATIC")] |}].

End Main.

End DelineateRoofDamage.

(** ** The Python of the field expressions

    CalculateField evaluates a Python expression on every row of a table,
    with [!name!] standing for the value of the field [name] in the row,
    and may be handed a code block defining functions the expression
    calls.  The scripts build these texts.  This module gives the fragment
    of Python they are written in: syntax trees, the text of a tree, and
    its evaluation. *)

Module Py.

Inductive val : Type :=
| Int (z : Z)
| Str (s : string).

(** [x == y]: values of different types are not equal. *)
Definition val_eqb (x y : val) : bool :=
  match x, y with
  | Int a, Int b => Z.eqb a b
  | Str a, Str b => String.eqb a b
  | _, _ => false
  end.

(** *** Functions of a code block *)

Inductive atom : Type :=
| Name (id : string)
| IntLit (z : Z)
| StrLit (s : string).

(** [lhs == rhs] *)
Record comparison : Type := Equals { lhs : atom; rhs : atom }.

(** [if c1 and c2 and ...: return result], or the same with [elif] *)
Record branch : Type := Branch { condition : list comparison; result : atom }.

(** [def name(params):] with a body made of an [if] / [elif] chain of
    returns, one per branch and at least one, closed by
    [else: return default]. *)
Record def : Type := Def {
  name : string;
  params : list string;
  branches : list branch;
  default : atom
}.

Definition render_atom (a : atom) : string :=
  match a with
  | Name id => id
  | IntLit z => str_of_Z z
  | StrLit s => dq ++ s ++ dq
  end.

Definition render_comparison (c : comparison) : string :=
  render_atom (lhs c) ++ " == " ++ render_atom (rhs c).

Definition render_condition (cs : list comparison) : string :=
  String.concat " and " (map render_comparison cs).

(** The chain of branches, each line starting with [indent]; the first
    keyword is [if], the following ones [elif]. *)
Fixpoint render_branches (indent keyword : string) (bs : list branch) : string :=
  match bs with
  | [] => ""
  | b :: rest =>
      indent ++ keyword ++ " " ++ render_condition (condition b) ++ ":" ++ nl
      ++ indent ++ "    return " ++ render_atom (result b) ++ nl
      ++ render_branches indent "elif" rest
  end.

(** The text of a definition whose body is indented by [indent]. *)
Definition render_def (indent : string) (d : def) : string :=
  "def " ++ name d ++ "(" ++ String.concat ", " (params d) ++ "):" ++ nl
  ++ render_branches indent "if" (branches d)
  ++ indent ++ "else:" ++ nl
  ++ indent ++ "    return " ++ render_atom (default d).

(** Evaluation.  [None] stands for an exception: a name that is not
    bound, a call that does not fit the definition. *)
Fixpoint lookup (id : string) (env : list (string * val)) : option val :=
  match env with
  | [] => None
  | (k, v) :: rest => if String.eqb k id then Some v else lookup id rest
  end.

Definition eval_atom (env : list (string * val)) (a : atom) : option val :=
  match a with
  | Name id => lookup id env
  | IntLit z => Some (Int z)
  | StrLit s => Some (Str s)
  end.

Definition eval_comparison (env : list (string * val)) (c : comparison) : option bool :=
  match eval_atom env (lhs c), eval_atom env (rhs c) with
  | Some x, Some y => Some (val_eqb x y)
  | _, _ => None
  end.

(** [and] evaluates its right operand only when the left one is true. *)
Fixpoint eval_condition (env : list (string * val)) (cs : list comparison)
  : option bool :=
  match cs with
  | [] => Some true
  | c :: rest =>
      match eval_comparison env c with
      | Some true => eval_condition env rest
      | Some false => Some false
      | None => None
      end
  end.

Fixpoint eval_branches (env : list (string * val)) (bs : list branch) (default : atom)
  : option val :=
  match bs with
  | [] => eval_atom env default
  | b :: rest =>
      match eval_condition env (condition b) with
      | Some true => eval_atom env (result b)
      | Some false => eval_branches env rest default
      | None => None
      end
  end.

(** No name occurs twice: Python refuses a definition with a repeated
    parameter. *)
Fixpoint distinct (names : list string) : bool :=
  match names with
  | [] => true
  | n :: rest => (negb (py_in n rest) && distinct rest)%bool
  end.

(** The call of a function on positional arguments. *)
Definition call_def (d : def) (arguments : list val) : option val :=
  if (Nat.eqb (List.length (params d)) (List.length arguments) && distinct (params d))%bool
  then eval_branches (combine (params d) arguments) (branches d) (default d)
  else None.

(** *** Expressions over the fields of a row *)

(** [callee(!f1!,!f2!,...)] *)
Record field_call : Type := FieldCall { callee : string; fields : list string }.

Definition render_field_call (e : field_call) : string :=
  callee e ++ "("
  ++ String.concat "," (map (fun f : string => ("!" ++ f ++ "!")%string) (fields e))
  ++ ")".

Fixpoint field_values (row : list (string * val)) (names : list string)
  : option (list val) :=
  match names with
  | [] => Some []
  | n :: rest =>
      match lookup n row, field_values row rest with
      | Some v, Some vs => Some (v :: vs)
      | _, _ => None
      end
  end.

(** The value CalculateField computes for one row, from the expression
    and the code block. *)
Definition calculate (code_block : def) (expression : field_call)
  (row : list (string * val)) : option val :=
  if String.eqb (callee expression) (name code_block) then
    match field_values row (fields expression) with
    | Some arguments => call_def code_block arguments
    | None => None
    end
  else None.

(** *** Arithmetic over the fields of a row *)

Inductive arith : Type :=
| Field (field_name : string)       (* !field_name! *)
| Num (z : Z)
| Add (a b : arith)                 (* a + b *)
| Mul (a b : arith)                 (* a * b *)
| Paren (a : arith).                (* (a) *)

Fixpoint render_arith (a : arith) : string :=
  match a with
  | Field n => "!" ++ n ++ "!"
  | Num z => str_of_Z z
  | Add a b => render_arith a ++ " + " ++ render_arith b
  | Mul a b => render_arith a ++ " * " ++ render_arith b
  | Paren a => "(" ++ render_arith a ++ ")"
  end.

(** Whether Python reads the text of a tree back as that tree: [*] binds
    tighter than [+], and both group to the left. *)
Definition is_atom (a : arith) : bool :=
  match a with
  | Field _ | Num _ | Paren _ => true
  | Add _ _ | Mul _ _ => false
  end.

Definition is_term (a : arith) : bool :=
  match a with
  | Add _ _ => false
  | _ => true
  end.

Fixpoint parses_as_written (a : arith) : bool :=
  match a with
  | Field _ | Num _ => true
  | Add a b => (parses_as_written a && parses_as_written b && is_term b)%bool
  | Mul a b => (parses_as_written a && is_term a && parses_as_written b && is_atom b)%bool
  | Paren a => parses_as_written a
  end.

(** ["format" % (dividend / divisor)] *)
Record quotient : Type := Quotient {
  format : string;
  dividend : arith;
  divisor : arith
}.

Definition render_quotient (q : quotient) : string :=
  dq ++ format q ++ dq ++ " % ("
  ++ render_arith (dividend q) ++ " / " ++ render_arith (divisor q) ++ ")".

Definition quotient_parses (q : quotient) : bool :=
  (parses_as_written (dividend q) && is_term (dividend q)
   && parses_as_written (divisor q) && is_atom (divisor q))%bool.

Inductive error : Type :=
| ZeroDivisionError
| UnknownField (field_name : string).

(** The fields hold whole numbers, which Python adds and multiplies
    exactly. *)
Fixpoint eval_arith (row : list (string * Z)) (a : arith) : error + Z :=
  match a with
  | Field n =>
      match List.find (fun kv => String.eqb (fst kv) n) row with
      | Some kv => inr (snd kv)
      | None => inl (UnknownField n)
      end
  | Num z => inr z
  | Add a b =>
      match eval_arith row a, eval_arith row b with
      | inr x, inr y => inr (x + y)
      | inl e, _ => inl e
      | _, inl e => inl e
      end
  | Mul a b =>
      match eval_arith row a, eval_arith row b with
      | inr x, inr y => inr (x * y)
      | inl e, _ => inl e
      | _, inl e => inl e
      end
  | Paren a => eval_arith row a
  end.

(** The division of the expression on one row: it raises
    ZeroDivisionError when the divisor is zero, and otherwise divides the
    first number by the second.  The quotient is a float, of which the
    expression stores the formatted text; the model keeps the two operands
    of the division and follows neither the rounding nor the text. *)
Definition eval_quotient (row : list (string * Z)) (q : quotient) : error + (Z * Z) :=
  match eval_arith row (dividend q) with
  | inl e => inl e
  | inr n =>
      match eval_arith row (divisor q) with
      | inl e => inl e
      | inr d => if Z.eqb d 0 then inl ZeroDivisionError else inr (n, d)
      end
  end.

End Py.

(** ** calculate_accuracy.py *)

Module CalculateAccuracy.

Definition overwrite : list (string * value) := [("overwriteOutput", VBool true)].

Definition dissolve_fclass_by_class
  (input_fclass_path output_fclass_path class_field_name : string) : gp_call :=
  {| tool := "arcpy.management.Dissolve";
     env := overwrite;
     args := [("in_features", VStr input_fclass_path);
              ("out_feature_class", VStr output_fclass_path);
              ("dissolve_field", VStr class_field_name);
              ("multi_part", VStr "MULTI_PART")] |}.

Definition create_layer_by_class
  (input_fclass_path output_layer_name class_field_name class_name : string)
  : gp_call :=
  {| tool := "arcpy.management.MakeFeatureLayer";
     env := overwrite;
     args := [("in_features", VStr input_fclass_path);
              ("out_layer", VStr output_layer_name);
              ("where_clause", VStr (class_field_name ++ " = '" ++ class_name ++ "'"))] |}.

Definition layer_to_fclass (input_layer_name output_fclass_path : string) : gp_call :=
  {| tool := "arcpy.management.CopyFeatures";
     env := overwrite;
     args := [("in_features", VStr input_layer_name);
              ("out_feature_class", VStr output_fclass_path)] |}.

Definition layer_to_raster
  (input_layer_name class_field_name snap_raster_path output_raster_path : string)
  : gp_call :=
  {| tool := "arcpy.conversion.PolygonToRaster";
     env := [("overwriteOutput", VBool true); ("snapRaster", VStr snap_raster_path)];
     args := [("in_features", VStr input_layer_name);
              ("value_field", VStr class_field_name);
              ("out_rasterdataset", VStr output_raster_path);
              ("cell_assignment", VStr "CELL_CENTER");
              ("cellsize", VStr snap_raster_path);
              ("build_rat", VStr "DO_NOT_BUILD")] |}.

Definition raster_to_fclass
  (input_raster_path class_field_name output_fclass_path : string) : gp_call :=
  {| tool := "arcpy.conversion.RasterToPolygon";
     env := overwrite;
     args := [("in_raster", VStr input_raster_path);
              ("out_polygon_features", VStr output_fclass_path);
              ("simplify", VStr "NO_SIMPLIFY");
              ("raster_field", VStr class_field_name);
              ("create_multipart_features", VStr "MULTIPLE_OUTER_PART")] |}.

Definition create_union_fclass
  (predicted_fclass_path reference_fclass_path output_fclass_path : string) : gp_call :=
  {| tool := "arcpy.analysis.Union";
     env := overwrite;
     args := [("in_features", VList [predicted_fclass_path; reference_fclass_path]);
              ("out_feature_class", VStr output_fclass_path);
              ("join_attributes", VStr "ONLY_FID");
              ("gaps", VStr "GAPS")] |}.

(** The expression and the code block handed to CalculateField for the
    Accuracy_Category field, as the f-strings build them. *)
Definition accuracy_category_expression
  (predicted_fclass_name reference_fclass_name : string) : string :=
  "accuracy_category(!FID_" ++ predicted_fclass_name ++ "!,!FID_"
  ++ reference_fclass_name ++ "!)".

Definition accuracy_category_code_block
  (predicted_fclass_name reference_fclass_name : string) : string :=
  "def accuracy_category(FID_" ++ predicted_fclass_name ++ ", FID_"
  ++ reference_fclass_name ++ "):" ++ nl
  ++ "                if FID_" ++ predicted_fclass_name ++ " == 1 and FID_"
  ++ reference_fclass_name ++ " == 1:" ++ nl
  ++ "                    return " ++ dq ++ "TP" ++ dq ++ nl
  ++ "                elif FID_" ++ predicted_fclass_name ++ " == 1 and FID_"
  ++ reference_fclass_name ++ " == -1:" ++ nl
  ++ "                    return " ++ dq ++ "FP" ++ dq ++ nl
  ++ "                elif FID_" ++ predicted_fclass_name ++ " == -1 and FID_"
  ++ reference_fclass_name ++ " == 1:" ++ nl
  ++ "                    return " ++ dq ++ "FN" ++ dq ++ nl
  ++ "                else:" ++ nl
  ++ "                    return " ++ dq ++ "None" ++ dq.

(** The same two texts as syntax trees: the call of the expression and
    the definition of the code block, whose body the f-string writes with
    an indentation of sixteen spaces. *)
Definition accuracy_category_call
  (predicted_fclass_name reference_fclass_name : string) : Py.field_call :=
  {| Py.callee := "accuracy_category";
     Py.fields := [("FID_" ++ predicted_fclass_name)%string;
                   ("FID_" ++ reference_fclass_name)%string] |}.

Definition accuracy_category_def
  (predicted_fclass_name reference_fclass_name : string) : Py.def :=
  let FID_predicted := Py.Name ("FID_" ++ predicted_fclass_name) in
  let FID_reference := Py.Name ("FID_" ++ reference_fclass_name) in
  {| Py.name := "accuracy_category";
     Py.params := [("FID_" ++ predicted_fclass_name)%string;
                   ("FID_" ++ reference_fclass_name)%string];
     Py.branches :=
       [{| Py.condition := [Py.Equals FID_predicted (Py.IntLit 1);
                            Py.Equals FID_reference (Py.IntLit 1)];
           Py.result := Py.StrLit "TP" |};
        {| Py.condition := [Py.Equals FID_predicted (Py.IntLit 1);
                            Py.Equals FID_reference (Py.IntLit (-1))];
           Py.result := Py.StrLit "FP" |};
        {| Py.condition := [Py.Equals FID_predicted (Py.IntLit (-1));
                            Py.Equals FID_reference (Py.IntLit 1)];
           Py.result := Py.StrLit "FN" |}];
     Py.default := Py.StrLit "None" |}.

Definition code_block_indent : string := "                ".

Definition calculate_accuracy_category_field
  (input_fclass_path predicted_fclass_name reference_fclass_name : string) : gp_call :=
  {| tool := "arcpy.management.CalculateField";
     env := overwrite;
     args := [("in_table", VStr input_fclass_path);
              ("field", VStr "Accuracy_Category");
              ("expression",
                VStr (accuracy_category_expression
                        predicted_fclass_name reference_fclass_name));
              ("expression_type", VStr "PYTHON3");
              ("code_block",
                VStr (accuracy_category_code_block
                        predicted_fclass_name reference_fclass_name));
              ("field_type", VStr "TEXT");
              ("enforce_domains", VStr "NO_ENFORCE_DOMAINS")] |}.

Definition create_pixels_per_category_table
  (input_fclass_path input_image_path output_table_path : string) : gp_call :=
  {| tool := "arcpy.ia.ZonalStatisticsAsTable";
     env := overwrite;
     args := [("in_zone_data", VStr input_fclass_path);
              ("zone_field", VStr "Accuracy_Category");
              ("in_value_raster", VStr input_image_path);
              ("out_table", VStr output_table_path);
              ("ignore_nodata", VStr "DATA");
              ("statistics_type", VStr "MAJORITY_VALUE_COUNT_PERCENT");
              ("process_as_multidimensional", VStr "CURRENT_SLICE")] |}.

Definition calculate_zone_code_field (input_table_path : string) : gp_call :=
  {| tool := "arcpy.management.CalculateField";
     env := overwrite;
     args := [("in_table", VStr input_table_path);
              ("field", VStr "ZONE_CODE");
              ("expression", VInt 1);
              ("expression_type", VStr "PYTHON3");
              ("field_type", VStr "SHORT");
              ("enforce_domains", VStr "NO_ENFORCE_DOMAINS")] |}.

Definition pivot_table (input_table_path output_table_path : string) : gp_call :=
  {| tool := "arcpy.management.PivotTable";
     env := overwrite;
     args := [("in_table", VStr input_table_path);
              ("fields", VStr "ZONE_CODE");
              ("pivot_field", VStr "Accuracy_Category");
              ("value_field", VStr "COUNT");
              ("out_table", VStr output_table_path)] |}.

Definition delete_zone_code_field (input_table_path : string) : gp_call :=
  {| tool := "arcpy.management.DeleteField";
     env := overwrite;
     args := [("in_table", VStr input_table_path);
              ("drop_field", VStr "ZONE_CODE");
              ("method", VStr "DELETE_FIELDS")] |}.

(** CalculateField with a text or numeric field and a fixed expression. *)
Definition calculate_field
  (input_table_path field : string) (expression : value) (field_type : string)
  : gp_call :=
  {| tool := "arcpy.management.CalculateField";
     env := overwrite;
     args := [("in_table", VStr input_table_path);
              ("field", VStr field);
              ("expression", expression);
              ("expression_type", VStr "PYTHON3");
              ("field_type", VStr field_type);
              ("enforce_domains", VStr "NO_ENFORCE_DOMAINS")] |}.

Definition calculate_image_field (input_table_path image_name : string) : gp_call :=
  calculate_field input_table_path "Image" (VStr (dq ++ image_name ++ dq)) "TEXT".

Definition calculate_class_field (input_table_path class_name : string) : gp_call :=
  calculate_field input_table_path "Class" (VStr (dq ++ class_name ++ dq)) "TEXT".

(** [for accuracy_category in ['TP', 'FP', 'FN']:
       if accuracy_category not in table_field_names: CalculateField(...)]. *)
Definition verify_accuracy_category_fields (fs : Catalog) (input_table_path : string)
  : M unit :=
  let table_field_names := ListFields fs input_table_path in
  for_each
    (fun accuracy_category (_ : unit) =>
       if negb (py_in accuracy_category table_field_names)
       then call (calculate_field input_table_path accuracy_category (VInt 0) "DOUBLE")
       else ret tt)
    ["TP"; "FP"; "FN"] tt.

Definition merge_accuracy_tables
  (input_table_paths : list string) (output_table_path : string) : gp_call :=
  {| tool := "arcpy.management.Merge";
     env := overwrite;
     args := [("inputs", VList input_table_paths);
              ("output", VStr output_table_path);
              ("add_source", VStr "NO_SOURCE_INFO");
              ("field_match_mode", VStr "AUTOMATIC")] |}.

(** The cursors of [add_summary_row] read and write the table; the run
    records the insertion. *)
Definition add_summary_row (input_table_path class_name : string) : M unit :=
  emit (InsertRow input_table_path class_name).

Definition calculate_union_field (input_table_path : string) : gp_call :=
  calculate_field input_table_path "Union" (VStr "!TP! + !FP! + !FN!") "LONG".

Definition precision_expression : string :=
  dq ++ "%.2f" ++ dq ++ " % (!TP! / (!TP! + !FP!))".
Definition recall_expression : string :=
  dq ++ "%.2f" ++ dq ++ " % (!TP! / (!TP! + !FN!))".
Definition f1_expression : string :=
  dq ++ "%.2f" ++ dq ++ " % ((2 * !TP!) / ((2 * !TP!) + !FP! + !FN!))".
Definition iou_expression : string :=
  dq ++ "%.2f" ++ dq ++ " % (!TP! / (!TP! + !FP! + !FN!))".

Definition calculate_precision_field (input_table_path : string) : gp_call :=
  calculate_field input_table_path "Precision" (VStr precision_expression) "TEXT".
Definition calculate_recall_field (input_table_path : string) : gp_call :=
  calculate_field input_table_path "Recall" (VStr recall_expression) "TEXT".
Definition calculate_f1_field (input_table_path : string) : gp_call :=
  calculate_field input_table_path "F1" (VStr f1_expression) "TEXT".
Definition calculate_iou_field (input_table_path : string) : gp_call :=
  calculate_field input_table_path "IoU" (VStr iou_expression) "TEXT".

Definition fieldmapping_string (input_table_path : string) : string :=
    nl
    ++ "    Image " ++ dq ++ "Image" ++ dq ++ " false true false 255 Text -1 -1,First,#," ++ input_table_path ++ ",Image,-1,-1;" ++ nl
    ++ "    Class " ++ dq ++ "Class" ++ dq ++ " false true false 255 Text -1 -1,First,#," ++ input_table_path ++ ",Class,-1,-1;" ++ nl
    ++ "    TP " ++ dq ++ "TP" ++ dq ++ " false true false -1 Long -1 -1,First,#," ++ input_table_path ++ ",TP,-1,-1;" ++ nl
    ++ "    FP " ++ dq ++ "FP" ++ dq ++ " false true false -1 Long -1 -1,First,#," ++ input_table_path ++ ",FP,-1,-1;" ++ nl
    ++ "    FN " ++ dq ++ "FN" ++ dq ++ " false true false -1 Long -1 -1,First,#," ++ input_table_path ++ ",FN,-1,-1;" ++ nl
    ++ "    Union " ++ dq ++ "Union" ++ dq ++ " false true false -1 Long -1 -1,First,#," ++ input_table_path ++ ",Union,-1,-1;" ++ nl
    ++ "    Precision " ++ dq ++ "Precision" ++ dq ++ " false true false -1 Double 5 2,First,#," ++ input_table_path ++ ",Precision,-1,-1;" ++ nl
    ++ "    Recall " ++ dq ++ "Recall" ++ dq ++ " false true false -1 Double 5 2,First,#," ++ input_table_path ++ ",Recall,-1,-1;" ++ nl
    ++ "    F1 " ++ dq ++ "F1" ++ dq ++ " false true false -1 Double 5 2,First,#," ++ input_table_path ++ ",F1,-1,-1;" ++ nl
    ++ "    IoU " ++ dq ++ "IoU" ++ dq ++ " false true false -1 Double 5 2,First,#," ++ input_table_path ++ ",IoU,-1,-1" ++ nl
    ++ "    ".

Definition improve_field_settings (input_table_path output_table_path : string)
  : gp_call :=
  {| tool := "arcpy.conversion.TableToTable";
     env := overwrite;
     args := [("in_rows", VStr input_table_path);
              ("out_path", VStr (OsPath.dirname output_table_path));
              ("out_name", VStr (OsPath.basename output_table_path));
              ("field_mapping", VFieldMappings (fieldmapping_string input_table_path))] |}.

(** The four expressions as syntax trees. *)
Definition precision_ratio : Py.quotient :=
  {| Py.format := "%.2f";
     Py.dividend := Py.Field "TP";
     Py.divisor := Py.Paren (Py.Add (Py.Field "TP") (Py.Field "FP")) |}.

Definition recall_ratio : Py.quotient :=
  {| Py.format := "%.2f";
     Py.dividend := Py.Field "TP";
     Py.divisor := Py.Paren (Py.Add (Py.Field "TP") (Py.Field "FN")) |}.

Definition f1_ratio : Py.quotient :=
  {| Py.format := "%.2f";
     Py.dividend := Py.Paren (Py.Mul (Py.Num 2) (Py.Field "TP"));
     Py.divisor :=
       Py.Paren (Py.Add (Py.Add (Py.Paren (Py.Mul (Py.Num 2) (Py.Field "TP")))
                           (Py.Field "FP"))
                   (Py.Field "FN")) |}.

Definition iou_ratio : Py.quotient :=
  {| Py.format := "%.2f";
     Py.dividend := Py.Field "TP";
     Py.divisor :=
       Py.Paren (Py.Add (Py.Add (Py.Field "TP") (Py.Field "FP")) (Py.Field "FN")) |}.

(** *** What the field expressions compute *)

(** A row of an accuracy table: the pixel counts of the three
    categories. *)
Record row : Type := Row { TP : Z; FP : Z; FN : Z }.

Definition row_fields (r : row) : list (string * Z) :=
  [("TP", TP r); ("FP", FP r); ("FN", FN r)].

(** CalculateField evaluates the expression on every row of the table, in
    order, and fails when it raises on one of them. *)
Fixpoint calculate_rows (q : Py.quotient) (table : list row)
  : Py.error + list (Z * Z) :=
  match table with
  | [] => inr []
  | r :: rest =>
      match Py.eval_quotient (row_fields r) q with
      | inl e => inl e
      | inr v =>
          match calculate_rows q rest with
          | inl e => inl e
          | inr vs => inr (v :: vs)
          end
      end
  end.

(** A feature of the union feature class: the FID it carries from each
    input ([-1] when the input does not cover it) and the image pixels
    inside it. *)
Record union_feature : Type := UnionFeature {
  FID_predicted : Z;
  FID_reference : Z;
  pixels : Z
}.

(** The two FID fields of a feature of the union of the feature classes
    [predicted_fclass_name] and [reference_fclass_name]. *)
Definition union_fields (predicted_fclass_name reference_fclass_name : string)
  (f : union_feature) : list (string * Py.val) :=
  [(("FID_" ++ predicted_fclass_name)%string, Py.Int (FID_predicted f));
   (("FID_" ++ reference_fclass_name)%string, Py.Int (FID_reference f))].

(** The value of the Accuracy_Category field of a feature: the expression
    evaluated with the code block. *)
Definition category_of (predicted_fclass_name reference_fclass_name : string)
  (f : union_feature) : option Py.val :=
  Py.calculate
    (accuracy_category_def predicted_fclass_name reference_fclass_name)
    (accuracy_category_call predicted_fclass_name reference_fclass_name)
    (union_fields predicted_fclass_name reference_fclass_name f).

(** The COUNT of the zonal statistics for one value of the zone field
    Accuracy_Category: the pixels of the features carrying that label.
    After the pivot this is the value of the field of that name. *)
Fixpoint pixels_per_category (predicted_fclass_name reference_fclass_name : string)
  (features : list union_feature) (category : string) : Z :=
  match features with
  | [] => 0
  | f :: rest =>
      (match category_of predicted_fclass_name reference_fclass_name f with
       | Some (Py.Str label) => if String.eqb label category then pixels f else 0
       | _ => 0
       end)
      + pixels_per_category predicted_fclass_name reference_fclass_name rest category
  end.

Record locals : Type := Locals {
  skipped_fclasses : list string;
  fclasses_remaining : Z
}.

Definition damage_classes : list string := ["Decking"; "Hole"].

Section Main.
Variable fs : Catalog.
Variables predicted_polygons_gdb reference_polygons_gdb prepared_test_images_gdb
  output_tables_gdb scratch_gdb : string.

Definition no_reference_msg (fclass_name : string) (remaining : Z) : string :=
  "A feature class named " ++ fclass_name ++ " does not exist in the reference "
  ++ "polygons file geodatabase. " ++ fclass_name ++ " has been skipped. "
  ++ str_of_Z remaining ++ " predicted polygons feature classes remaining.".

Definition no_image_msg (fclass_name : string) (remaining : Z) : string :=
  "An image named " ++ fclass_name ++ " does not exist in the prepared test "
  ++ "images file geodatabase. " ++ fclass_name ++ " has been skipped. "
  ++ str_of_Z remaining ++ " predicted polygons feature classes remaining.".

(** The path of the accuracy table of one damage class and image. *)
Definition accuracy_table (damage_class fclass_name : string) : string :=
  OsPath.join scratch_gdb ("accuracy_" ++ damage_class ++ "_" ++ fclass_name).

(** The body of [for damage_class in damage_classes] inside the loop
    over the feature classes. *)
Definition evaluate_class (fclass_name damage_class : string) (_ : unit) : M unit :=
  call (create_layer_by_class
          (OsPath.join scratch_gdb "predicted_polygons_dissolve")
          ("predicted_polygons_dissolve_" ++ damage_class)
          "Class" damage_class) ;;
  call (layer_to_fclass
          ("predicted_polygons_dissolve_" ++ damage_class)
          (OsPath.join scratch_gdb ("predicted_" ++ damage_class))) ;;
  call (create_layer_by_class
          (OsPath.join scratch_gdb "reference_polygons_dissolve")
          ("reference_polygons_dissolve_" ++ damage_class)
          "ClassName" damage_class) ;;
  call (layer_to_raster
          ("reference_polygons_dissolve_" ++ damage_class)
          "ClassName"
          (OsPath.join prepared_test_images_gdb fclass_name)
          (OsPath.join scratch_gdb ("reference_raster_" ++ damage_class))) ;;
  call (raster_to_fclass
          (OsPath.join scratch_gdb ("reference_raster_" ++ damage_class))
          "ClassName"
          (OsPath.join scratch_gdb ("reference_" ++ damage_class))) ;;
  call (create_union_fclass
          (OsPath.join scratch_gdb ("predicted_" ++ damage_class))
          (OsPath.join scratch_gdb ("reference_" ++ damage_class))
          (OsPath.join scratch_gdb ("union_" ++ damage_class))) ;;
  call (calculate_accuracy_category_field
          (OsPath.join scratch_gdb ("union_" ++ damage_class))
          ("predicted_" ++ damage_class)
          ("reference_" ++ damage_class)) ;;
  call (create_pixels_per_category_table
          (OsPath.join scratch_gdb ("union_" ++ damage_class))
          (OsPath.join prepared_test_images_gdb fclass_name)
          (OsPath.join scratch_gdb ("union_stats_" ++ damage_class))) ;;
  call (calculate_zone_code_field
          (OsPath.join scratch_gdb ("union_stats_" ++ damage_class))) ;;
  call (pivot_table
          (OsPath.join scratch_gdb ("union_stats_" ++ damage_class))
          (accuracy_table damage_class fclass_name)) ;;
  call (delete_zone_code_field (accuracy_table damage_class fclass_name)) ;;
  call (calculate_image_field (accuracy_table damage_class fclass_name) fclass_name) ;;
  call (calculate_class_field (accuracy_table damage_class fclass_name) damage_class) ;;
  verify_accuracy_category_fields fs (accuracy_table damage_class fclass_name).

(** The body of [for fclass_name in predicted_polygons_fclasses]. *)
Definition evaluate_fclass (reference_polygons_fclasses prepared_test_images : list string)
  (fclass_name : string) (st : locals) : M locals :=
  if negb (py_in fclass_name reference_polygons_fclasses) then
    emit (SetProgressorPosition None) ;;
    let st := {| skipped_fclasses := skipped_fclasses st ++ [fclass_name];
                 fclasses_remaining := fclasses_remaining st - 1 |} in
    emit (AddWarning (no_reference_msg fclass_name (fclasses_remaining st))) ;;
    emit (Print (no_reference_msg fclass_name (fclasses_remaining st))) ;;
    ret st
  else if negb (py_in fclass_name prepared_test_images) then
    emit (SetProgressorPosition None) ;;
    let st := {| skipped_fclasses := skipped_fclasses st ++ [fclass_name];
                 fclasses_remaining := fclasses_remaining st - 1 |} in
    emit (AddWarning (no_image_msg fclass_name (fclasses_remaining st))) ;;
    emit (Print (no_image_msg fclass_name (fclasses_remaining st))) ;;
    ret st
  else
    emit (SetProgressorLabel ("Calculating accuracy of " ++ fclass_name)) ;;
    emit (Print ("Calculating accuracy of " ++ fclass_name)) ;;
    call (dissolve_fclass_by_class
            (OsPath.join predicted_polygons_gdb fclass_name)
            (OsPath.join scratch_gdb "predicted_polygons_dissolve")
            "Class") ;;
    call (dissolve_fclass_by_class
            (OsPath.join reference_polygons_gdb fclass_name)
            (OsPath.join scratch_gdb "reference_polygons_dissolve")
            "ClassName") ;;
    for_each (evaluate_class fclass_name) damage_classes tt ;;
    emit (SetProgressorPosition None) ;;
    let st := {| skipped_fclasses := skipped_fclasses st;
                 fclasses_remaining := fclasses_remaining st - 1 |} in
    emit (AddMessage ("Calculated accuracy of " ++ fclass_name ++ ". "
                      ++ str_of_Z (fclasses_remaining st) ++ " predicted "
                      ++ "polygons feature classes remaining.")) ;;
    emit (Print ("Calculated accuracy of " ++ fclass_name ++ ". "
                 ++ str_of_Z (fclasses_remaining st) ++ " predicted "
                 ++ "polygons feature classes remaining.")) ;;
    ret st.

(** The body of the second [for damage_class in damage_classes]. *)
Definition export_class (predicted_polygons_fclasses : list string)
  (damage_class : string) (_ : unit) : M unit :=
  let accuracy_tables :=
    map (fun fclass_name => accuracy_table damage_class fclass_name)
      predicted_polygons_fclasses in
  call (merge_accuracy_tables accuracy_tables
          (OsPath.join scratch_gdb ("accuracy_" ++ damage_class))) ;;
  add_summary_row (OsPath.join scratch_gdb ("accuracy_" ++ damage_class))
    damage_class ;;
  call (calculate_union_field
          (OsPath.join scratch_gdb ("accuracy_" ++ damage_class))) ;;
  call (calculate_precision_field
          (OsPath.join scratch_gdb ("accuracy_" ++ damage_class))) ;;
  call (calculate_recall_field
          (OsPath.join scratch_gdb ("accuracy_" ++ damage_class))) ;;
  call (calculate_f1_field
          (OsPath.join scratch_gdb ("accuracy_" ++ damage_class))) ;;
  call (calculate_iou_field
          (OsPath.join scratch_gdb ("accuracy_" ++ damage_class))) ;;
  call (improve_field_settings
          (OsPath.join scratch_gdb ("accuracy_" ++ damage_class))
          (OsPath.join output_tables_gdb ("Accuracy_" ++ damage_class))).

Definition report_skipped (skipped : list string) : M unit :=
  if Z.gtb (Z.of_nat (List.length skipped)) 0 then
    emit (AddMessage
            (nl ++ "The following predicted polygons feature classes were skipped:")) ;;
    emit (Print
            (nl ++ "The following predicted polygons feature classes were skipped:")) ;;
    for_each (fun fclass (_ : unit) =>
                emit (AddMessage fclass) ;; emit (Print fclass)) skipped tt
  else ret tt.

Definition no_fclasses_msg : string :=
  "The predicted polygons file geodatabase contains zero feature classes.".

Definition main : M unit :=
  check_paths_exist fs
    [predicted_polygons_gdb; reference_polygons_gdb; prepared_test_images_gdb;
     output_tables_gdb; scratch_gdb] ;;
  check_gdb predicted_polygons_gdb
    "The predicted polygons path must correspond to a file geodatabase (.gdb)." ;;
  check_gdb reference_polygons_gdb
    "The reference polygons path must correspond to a file geodatabase (.gdb)." ;;
  check_gdb prepared_test_images_gdb
    "The prepared test images path must correspond to a file geodatabase (.gdb)." ;;
  check_gdb output_tables_gdb
    "The output accuracy tables path must correspond to a file geodatabase (.gdb)." ;;
  check_gdb scratch_gdb
    "The scratch path must correspond to a file geodatabase (.gdb)." ;;
  emit (SetEnv "scratchWorkspace" scratch_gdb) ;;
  emit (SetEnv "workspace" predicted_polygons_gdb) ;;
  let predicted_polygons_fclasses := ListFeatureClasses fs predicted_polygons_gdb in
  let fclasses_remaining := Z.of_nat (List.length predicted_polygons_fclasses) in
  (if Z.eqb fclasses_remaining 0 then
     emit (AddError no_fclasses_msg) ;;
     raise (FileNotFoundError no_fclasses_msg)
   else ret tt) ;;
  emit (SetEnv "workspace" reference_polygons_gdb) ;;
  let reference_polygons_fclasses := ListFeatureClasses fs reference_polygons_gdb in
  emit (SetEnv "workspace" prepared_test_images_gdb) ;;
  let prepared_test_images := ListRasters fs prepared_test_images_gdb in
  emit (SetProgressor (Z.quot 100 fclasses_remaining)) ;;
  st <- for_each (evaluate_fclass reference_polygons_fclasses prepared_test_images)
          predicted_polygons_fclasses
          {| skipped_fclasses := [];
             fclasses_remaining := fclasses_remaining |} ;;
  emit (SetProgressorLabel "Exporting accuracy results tables") ;;
  emit (Print "Exporting accuracy results tables") ;;
  for_each (export_class predicted_polygons_fclasses) damage_classes tt ;;
  emit (AddMessage (nl ++ "Exported accuracy results tables to " ++ output_tables_gdb)) ;;
  emit (Print (nl ++ "Exported accuracy results tables to " ++ output_tables_gdb)) ;;
  report_skipped (skipped_fclasses st).

Definition workspaces : list string :=
  [predicted_polygons_gdb; reference_polygons_gdb; prepared_test_images_gdb;
   output_tables_gdb; scratch_gdb].
Definition geodatabases : list string := workspaces.

Definition ready : Prop :=
  Forall (fun p => path_exists fs p = true) workspaces
  /\ Forall (fun p => get_workspace_extension p = ".gdb") geodatabases.

Definition fclass_calls (fclass_name : string) : list gp_call :=
  gp_calls (trace (evaluate_fclass (ListFeatureClasses fs reference_polygons_gdb)
                     (ListRasters fs prepared_test_images_gdb) fclass_name
                     {| skipped_fclasses := []; fclasses_remaining := 0 |})).

Definition skips (fclass_name : string) : bool :=
  (negb (py_in fclass_name (ListFeatureClasses fs reference_polygons_gdb))
   || negb (py_in fclass_name (ListRasters fs prepared_test_images_gdb)))%bool.

End Main.

(** The tables the PivotTable calls of a run write, and the input lists
    of its Merge calls. *)
Fixpoint pivot_outputs (cs : list gp_call) : list string :=
  match cs with
  | [] => []
  | c :: r =>
      match String.eqb (tool c) "arcpy.management.PivotTable", arg "out_table" c with
      | true, Some (VStr o) => o :: pivot_outputs r
      | _, _ => pivot_outputs r
      end
  end.

Fixpoint merge_inputs (cs : list gp_call) : list (list string) :=
  match cs with
  | [] => []
  | c :: r =>
      match String.eqb (tool c) "arcpy.management.Merge", arg "inputs" c with
      | true, Some (VList l) => l :: merge_inputs r
      | _, _ => merge_inputs r
      end
  end.

(** The field calculations of a list of calls that write one of the given
    fields: for each, the table, the field, the expression and the code
    block. *)
Record field_calculation : Type := FieldCalculation {
  calc_table : value;
  calc_field : string;
  calc_expression : value;
  calc_code_block : option value
}.

Fixpoint field_calculations (fields : list string) (cs : list gp_call)
  : list field_calculation :=
  match cs with
  | [] => []
  | c :: r =>
      match String.eqb (tool c) "arcpy.management.CalculateField",
            arg "in_table" c, arg "field" c, arg "expression" c with
      | true, Some t, Some (VStr f), Some e =>
          if py_in f fields
          then {| calc_table := t; calc_field := f; calc_expression := e;
                  calc_code_block := arg "code_block" c |}
               :: field_calculations fields r
          else field_calculations fields r
      | _, _, _, _ => field_calculations fields r
      end
  end.

(** The tables the TableToTable calls of a list of calls export: the
    input rows, the output workspace and the output name. *)
Fixpoint table_exports (cs : list gp_call) : list (value * value * value) :=
  match cs with
  | [] => []
  | c :: r =>
      match String.eqb (tool c) "arcpy.conversion.TableToTable",
            arg "in_rows" c, arg "out_path" c, arg "out_name" c with
      | true, Some i, Some p, Some n => (i, p, n) :: table_exports r
      | _, _, _, _ => table_exports r
      end
  end.

End CalculateAccuracy.

(** The report that closes the three scripts that can skip items, as a
    list of events: nothing for an empty list, else the header and one
    line per item, each sent to the tool messages and to the console. *)
Definition spec_report (header : string) (skipped : list string) : list event :=
  match skipped with
  | [] => []
  | _ :: _ =>
      [AddMessage header; Print header]
      ++ flat_map (fun item => [AddMessage item; Print item]) skipped
  end.

(** ** The datasets a call reads and writes *)

Module DataFlow.

(** The keywords under which the tools of [calculate_accuracy] take the
    datasets they read, and those under which they take the ones they
    write; a table calculated or trimmed in place is read. *)
Definition input_keys : list string :=
  ["in_features"; "in_raster"; "in_table"; "in_zone_data"; "in_value_raster";
   "cellsize"; "inputs"; "in_rows"].

Definition output_keys : list string :=
  ["out_feature_class"; "out_layer"; "out_rasterdataset"; "out_polygon_features";
   "out_table"; "output"].

Definition paths_of (v : value) : list string :=
  match v with
  | VStr s => [s]
  | VList l => l
  | _ => []
  end.

Definition paths_under (keys : list string) (l : list (string * value)) : list string :=
  flat_map (fun kv => if py_in (fst kv) keys then paths_of (snd kv) else []) l.

Definition reads (c : gp_call) : list string :=
  paths_under input_keys (args c) ++ paths_under ["snapRaster"] (env c).

Definition writes (c : gp_call) : list string :=
  paths_under output_keys (args c).

(** Every call reads only datasets that are available: those given at the
    start or written by an earlier call of the list. *)
Fixpoint well_sequenced (available : list string) (cs : list gp_call) : Prop :=
  match cs with
  | [] => True
  | c :: rest =>
      Forall (fun x => In x available) (reads c)
      /\ well_sequenced (writes c ++ available) rest
  end.

(** The same check as a function. *)
Fixpoint well_sequencedb (available : list string) (cs : list gp_call) : bool :=
  match cs with
  | [] => true
  | c :: rest =>
      (forallb (fun x => py_in x available) (reads c)
       && well_sequencedb (writes c ++ available) rest)%bool
  end.

(** What is available after a list of calls. *)
Fixpoint after (available : list string) (cs : list gp_call) : list string :=
  match cs with
  | [] => available
  | c :: rest => after (writes c ++ available) rest
  end.

End DataFlow.

(** ** Observations on a run *)

Definition is_warning (e : event) : bool :=
  match e with
  | AddWarning _ => true
  | _ => false
  end.

Definition is_progress_step (e : event) : bool :=
  match e with
  | SetProgressorPosition None => true
  | _ => false
  end.

(** How many events of a trace satisfy a test. *)
Definition count (p : event -> bool) (t : list event) : nat :=
  List.length (List.filter p t).

(** ** Characters of a path *)

(** [c in s] for a character. *)
Fixpoint contains_char (c : ascii) (s : string) : bool :=
  match s with
  | EmptyString => false
  | String a r => (Ascii.eqb a c || contains_char c r)%bool
  end.

(** ** Sample catalogs *)

Module Samples.

(** Every path exists but ["/missing"]; five images in the folder ["/in"],
    four of them with a boundary polygon. *)
Definition fs : Catalog := {|
  path_exists := fun p => negb (String.eqb p "/missing");
  ListRasters := fun w =>
    if String.eqb w "/in" then ["a.tif"; "b.tif"; "c.tif"; "d.tif"; "e.tif"]
    else if String.eqb w "/images.gdb" then ["a"; "b"; "c"]
    else [];
  ListFeatureClasses := fun w =>
    if String.eqb w "/boundary.gdb" then ["a"; "b"; "d"; "e"]
    else if String.eqb w "/training.gdb" then ["a"; "c"]
    else if String.eqb w "/predicted.gdb" then ["a"; "b"; "d"]
    else if String.eqb w "/reference.gdb" then ["a"; "d"]
    else [];
  spatialreference_type := fun p =>
    if String.eqb p "/in/a.tif" then "Projected"
    else if String.eqb p "/in/b.tif" then "Geographic"
    else if String.eqb p "/in/d.tif" then "Unknown"
    else "Vertical";
  spatialreference_string := fun _ => "PROJCS";
  ListFields := fun _ => ["OBJECTID"; "TP"]
|}.

(** The images of the folder ["/in"] before a run: each one holds its own
    pixels. *)
Definition folder_store : gmap string (list string) :=
  list_to_map
    (map (fun image => (OsPath.join "/in" image, [OsPath.join "/in" image]))
       (ListRasters fs "/in")).

End Samples.


Example ext1 : get_workspace_extension "/data/scratch.gdb" = ".gdb".
Proof. reflexivity. Qed.
Example fname1 : PrepareImages.get_file_name "/imgs/a.b.tif" = "a.b".
Proof. reflexivity. Qed.
Example join1 : OsPath.join "/data/scratch.gdb" "resampled" = "/data/scratch.gdb/resampled".
Proof. reflexivity. Qed.
Example str1 : str_of_Z 12 = "12".
Proof. reflexivity. Qed.

(** * Properties *)

(** ** Runs *)

Section Runs.
Context {A B : Type}.

Lemma bind_inr (m : M A) (k : A -> M B) (a : A) :
  outcome m = inr a -> bind m k = (trace m ++ trace (k a), outcome (k a)).
Proof.
  destruct m as [t [e | a']]; cbn; intros H; inversion H; subst.
  destruct (k a) as [t' r]; reflexivity.
Qed.

Lemma bind_inl (m : M A) (k : A -> M B) (e : exn) :
  outcome m = inl e -> bind m k = (trace m, inl e).
Proof.
  destruct m as [t [e' | a]]; cbn; intros H; inversion H; subst; reflexivity.
Qed.

Lemma trace_bind (m : M A) (k : A -> M B) (a : A) :
  outcome m = inr a -> trace (bind m k) = trace m ++ trace (k a).
Proof. intros H; rewrite (bind_inr _ _ _ H); reflexivity. Qed.

Lemma outcome_bind (m : M A) (k : A -> M B) (a : A) :
  outcome m = inr a -> outcome (bind m k) = outcome (k a).
Proof. intros H; rewrite (bind_inr _ _ _ H); reflexivity. Qed.

Lemma run_eq (m : M A) (t : list event) (r : exn + A) :
  trace m = t -> outcome m = r -> m = (t, r).
Proof. destruct m; cbn; intros -> ->; reflexivity. Qed.

End Runs.

Ltac pass_trace := rewrite (trace_bind _ _ tt) by reflexivity.
Ltac pass_outcome := rewrite (outcome_bind _ _ tt) by reflexivity.

Lemma gp_calls_app (t1 t2 : list event) :
  gp_calls (t1 ++ t2) = gp_calls t1 ++ gp_calls t2.
Proof.
  induction t1 as [| e t1 IH]; [reflexivity |].
  destruct e; cbn; rewrite ?IH; reflexivity.
Qed.

Lemma py_in_In (x : string) (l : list string) : py_in x l = true <-> In x l.
Proof.
  unfold py_in; rewrite existsb_exists; split.
  - intros (y & Hy & E); apply String.eqb_eq in E; subst; exact Hy.
  - intros H; exists x; split; [exact H | apply String.eqb_refl].
Qed.

(** A loop whose body always returns, returns; its trace is the bodies'
    traces in order, and a list the body only appends to grows by what
    each item adds. *)
Section Loops.
Context {A S : Type} (body : A -> S -> M S).
Hypothesis body_returns : forall x s, exists s', outcome (body x s) = inr s'.

Lemma for_each_returns (l : list A) (s : S) :
  exists s', outcome (for_each body l s) = inr s'.
Proof.
  revert s; induction l as [| x l IH]; intros s; cbn [for_each].
  - exists s; reflexivity.
  - destruct (body_returns x s) as [s1 H1].
    rewrite (bind_inr _ _ _ H1); cbn [outcome snd]. apply IH.
Qed.

Lemma for_each_cons (x : A) (l : list A) (s s1 : S) :
  outcome (body x s) = inr s1 ->
  for_each body (x :: l) s
  = (trace (body x s) ++ trace (for_each body l s1), outcome (for_each body l s1)).
Proof. intros H; cbn [for_each]; apply bind_inr; exact H. Qed.

Lemma for_each_calls (f : A -> list gp_call) :
  (forall x s, gp_calls (trace (body x s)) = f x) ->
  forall l s, gp_calls (trace (for_each body l s)) = flat_map f l.
Proof.
  intros Hf l; induction l as [| x l IH]; intros s; [reflexivity |].
  destruct (body_returns x s) as [s1 H1].
  rewrite (for_each_cons _ _ _ _ H1); cbn [trace fst flat_map].
  rewrite gp_calls_app, Hf. f_equal. apply IH.
Qed.

Lemma for_each_appends {B} (proj : S -> list B) (f : A -> list B) :
  (forall x s s', outcome (body x s) = inr s' -> proj s' = proj s ++ f x) ->
  forall l s s', outcome (for_each body l s) = inr s' ->
                 proj s' = proj s ++ flat_map f l.
Proof.
  intros Hf l; induction l as [| x l IH]; intros s s' H.
  - cbn in H; inversion H; subst; cbn; rewrite app_nil_r; reflexivity.
  - destruct (body_returns x s) as [s1 H1].
    rewrite (for_each_cons _ _ _ _ H1) in H; cbn [outcome snd] in H.
    rewrite (IH _ _ H), (Hf _ _ _ H1); cbn [flat_map].
    rewrite app_assoc; reflexivity.
Qed.

Lemma for_each_visits (l : list A) (s0 : S) (x : A) :
  In x l ->
  exists s, forall e, In e (trace (body x s)) -> In e (trace (for_each body l s0)).
Proof.
  revert s0; induction l as [| y l IH]; intros s0 Hin; [destruct Hin |].
  destruct (body_returns y s0) as [s1 H1].
  rewrite (for_each_cons _ _ _ _ H1); cbn [trace fst].
  destruct Hin as [-> | Hin].
  - exists s0; intros e He; apply in_or_app; left; exact He.
  - destruct (IH s1 Hin) as [s Hs]; exists s; intros e He.
    apply in_or_app; right; apply Hs; exact He.
Qed.

End Loops.

(** ** The checks that open every [main] *)

Lemma check_paths_exist_ok (fs : Catalog) (paths : list string) :
  Forall (fun p => path_exists fs p = true) paths ->
  check_paths_exist fs paths = ([], inr tt).
Proof.
  induction 1 as [| p rest Hp _ IH]; cbn [check_paths_exist]; [reflexivity |].
  rewrite Hp; exact IH.
Qed.

Lemma check_paths_exist_missing (fs : Catalog) (paths : list string) :
  Exists (fun p => path_exists fs p = false) paths ->
  exists p, In p paths /\ path_exists fs p = false
            /\ check_paths_exist fs paths
               = ([AddError (p ++ " does not exist.")],
                  inl (FileNotFoundError (p ++ " does not exist."))).
Proof.
  induction paths as [| q rest IH]; intros H; [inversion H |].
  cbn [check_paths_exist]. destruct (path_exists fs q) eqn:Eq.
  - inversion H as [? ? Hq | ? ? Hrest]; subst; [congruence |].
    destruct (IH Hrest) as (p & Hin & Hp & E).
    exists p; repeat split; [right; exact Hin | exact Hp | exact E].
  - exists q; repeat split; [left; reflexivity | exact Eq].
Qed.

Lemma check_gdb_ok (p msg : string) :
  get_workspace_extension p = ".gdb" -> check_gdb p msg = ([], inr tt).
Proof. intros H; unfold check_gdb; rewrite H; reflexivity. Qed.

Lemma check_gdb_bad (p msg : string) :
  get_workspace_extension p <> ".gdb" ->
  check_gdb p msg = ([AddError msg], inl (ValueError msg)).
Proof.
  intros H; unfold check_gdb.
  destruct (String.eqb_spec (get_workspace_extension p) ".gdb"); [contradiction |].
  reflexivity.
Qed.

(** The closing report of a script is [spec_report] of its skipped list. *)
Lemma report_lines_run (skipped : list string) :
  for_each (fun item (_ : unit) => emit (AddMessage item) ;; emit (Print item)) skipped tt
  = (flat_map (fun item => [AddMessage item; Print item]) skipped, inr tt).
Proof.
  induction skipped as [| x l IH]; [reflexivity |].
  cbn [for_each]. rewrite (bind_inr _ _ tt) by reflexivity.
  rewrite IH; reflexivity.
Qed.

Lemma prepare_report_skipped_run (skipped : list string) :
  PrepareImages.report_skipped skipped
  = (spec_report (nl ++ "The following images were skipped:") skipped, inr tt).
Proof.
  unfold PrepareImages.report_skipped, spec_report.
  destruct skipped as [| x l]; [reflexivity |].
  replace (Z.gtb (Z.of_nat (List.length (x :: l))) 0) with true
    by (symmetry; apply Z.gtb_lt; cbn [List.length]; lia).
  rewrite report_lines_run; reflexivity.
Qed.

Lemma export_report_skipped_run (skipped : list string) :
  ExportTrainingData.report_skipped skipped
  = (spec_report (nl ++ "The following images were skipped:") skipped, inr tt).
Proof.
  unfold ExportTrainingData.report_skipped, spec_report.
  destruct skipped as [| x l]; [reflexivity |].
  replace (Z.gtb (Z.of_nat (List.length (x :: l))) 0) with true
    by (symmetry; apply Z.gtb_lt; cbn [List.length]; lia).
  rewrite report_lines_run; reflexivity.
Qed.

Lemma accuracy_report_skipped_run (skipped : list string) :
  CalculateAccuracy.report_skipped skipped
  = (spec_report
       (nl ++ "The following predicted polygons feature classes were skipped:")
       skipped, inr tt).
Proof.
  unfold CalculateAccuracy.report_skipped, spec_report.
  destruct skipped as [| x l]; [reflexivity |].
  replace (Z.gtb (Z.of_nat (List.length (x :: l))) 0) with true
    by (symmetry; apply Z.gtb_lt; cbn [List.length]; lia).
  rewrite report_lines_run; reflexivity.
Qed.

(** ** prepare_images: the loop body *)

Ltac split_ifs :=
  repeat match goal with
         | |- context [if ?b then _ else _] => destruct b eqn:?
         end.

Lemma prepare_image_returns fs a b c d bf image st :
  exists st', outcome (PrepareImages.prepare_image fs a b c d bf image st) = inr st'.
Proof.
  unfold PrepareImages.prepare_image. split_ifs; eexists; reflexivity.
Qed.

Lemma prepare_image_calls fs a b c d image st :
  gp_calls (trace (PrepareImages.prepare_image fs a b c d
                     (ListFeatureClasses fs b) image st))
  = PrepareImages.image_calls fs a b c d image.
Proof.
  unfold PrepareImages.image_calls, PrepareImages.prepare_image.
  split_ifs; reflexivity.
Qed.

Lemma prepare_image_skipped fs a b c d image st st' :
  outcome (PrepareImages.prepare_image fs a b c d (ListFeatureClasses fs b) image st)
  = inr st' ->
  PrepareImages.skipped_images st'
  = PrepareImages.skipped_images st
    ++ (if PrepareImages.skips fs a b image then [image] else []).
Proof.
  unfold PrepareImages.skips, PrepareImages.prepare_image.
  destruct (py_in _ _); cbn [negb orb].
  - destruct (String.eqb _ "Unknown").
    + cbn; intros H; inversion H; reflexivity.
    + split_ifs; cbn; intros H; inversion H; cbn; rewrite app_nil_r; reflexivity.
  - cbn; intros H; inversion H; reflexivity.
Qed.

Lemma flat_map_filter {X} (p : X -> bool) (l : list X) :
  flat_map (fun x => if p x then [x] else []) l = List.filter p l.
Proof.
  induction l as [| x l IH]; [reflexivity |].
  cbn [flat_map List.filter]; destruct (p x); cbn; rewrite IH; reflexivity.
Qed.

Lemma length_eqb_0 {X} (l : list X) :
  l <> [] -> Z.eqb (Z.of_nat (List.length l)) 0 = false.
Proof. intros H; apply Z.eqb_neq; destruct l; [congruence | cbn; lia]. Qed.

(** The shape of a run of [prepare_images.main] that passes the checks. *)
Lemma prepare_main_run fs a b c d :
  PrepareImages.ready fs a b c d ->
  ListRasters fs a <> [] ->
  exists st,
    outcome (for_each (PrepareImages.prepare_image fs a b c d (ListFeatureClasses fs b))
               (ListRasters fs a)
               {| PrepareImages.skipped_images := [];
                  PrepareImages.images_remaining :=
                    Z.of_nat (List.length (ListRasters fs a)) |}) = inr st
    /\ PrepareImages.skipped_images st
       = List.filter (PrepareImages.skips fs a b) (ListRasters fs a)
    /\ PrepareImages.main fs a b c d
       = ([SetEnv "scratchWorkspace" d; SetEnv "workspace" a; SetEnv "workspace" b;
           SetProgressor 33]
          ++ trace (for_each
                      (PrepareImages.prepare_image fs a b c d (ListFeatureClasses fs b))
                      (ListRasters fs a)
                      {| PrepareImages.skipped_images := [];
                         PrepareImages.images_remaining :=
                           Z.of_nat (List.length (ListRasters fs a)) |})
          ++ [AddMessage (nl ++ "Exported prepared images to " ++ c);
              Print (nl ++ "Exported prepared images to " ++ c)]
          ++ spec_report (nl ++ "The following images were skipped:")
               (PrepareImages.skipped_images st),
          inr tt).
Proof.
  intros [Hex Hgdb] Hne.
  destruct (for_each_returns _ (prepare_image_returns fs a b c d (ListFeatureClasses fs b))
              (ListRasters fs a)
              {| PrepareImages.skipped_images := [];
                 PrepareImages.images_remaining :=
                   Z.of_nat (List.length (ListRasters fs a)) |}) as [st Hst].
  exists st; split; [exact Hst | split].
  - rewrite (for_each_appends _ (prepare_image_returns fs a b c d _)
               PrepareImages.skipped_images
               (fun image => if PrepareImages.skips fs a b image then [image] else [])
               (prepare_image_skipped fs a b c d) _ _ _ Hst).
    cbn [PrepareImages.skipped_images app]. apply flat_map_filter.
  - unfold PrepareImages.main.
    unfold PrepareImages.workspaces in Hex.
    unfold PrepareImages.geodatabases in Hgdb.
    inversion Hgdb as [| ? ? Hb Hgdb1]; subst.
    inversion Hgdb1 as [| ? ? Hc Hgdb2]; subst.
    inversion Hgdb2 as [| ? ? Hd _]; subst.
    rewrite (check_paths_exist_ok _ _ Hex), (check_gdb_ok _ _ Hb),
      (check_gdb_ok _ _ Hc), (check_gdb_ok _ _ Hd), (length_eqb_0 _ Hne).
    apply run_eq.
    + repeat pass_trace. rewrite (trace_bind _ _ _ Hst). repeat pass_trace.
      rewrite prepare_report_skipped_run. reflexivity.
    + repeat pass_outcome. rewrite (outcome_bind _ _ _ Hst). repeat pass_outcome.
      rewrite prepare_report_skipped_run. reflexivity.
Qed.

(** ** export_training_data: the loop body and the run *)

Lemma export_image_returns a t b o tf bf image st :
  exists st', outcome (ExportTrainingData.export_image a t b o tf bf image st) = inr st'.
Proof.
  unfold ExportTrainingData.export_image. split_ifs; eexists; reflexivity.
Qed.

Lemma export_image_calls fs a t b o image st :
  gp_calls (trace (ExportTrainingData.export_image a t b o
                     (ListFeatureClasses fs t) (ListFeatureClasses fs b) image st))
  = ExportTrainingData.image_calls fs a t b o image.
Proof.
  unfold ExportTrainingData.image_calls, ExportTrainingData.export_image.
  split_ifs; reflexivity.
Qed.

Lemma export_image_skipped fs a t b o image st st' :
  outcome (ExportTrainingData.export_image a t b o
             (ListFeatureClasses fs t) (ListFeatureClasses fs b) image st) = inr st' ->
  ExportTrainingData.skipped_images st'
  = ExportTrainingData.skipped_images st
    ++ (if ExportTrainingData.skips fs t b image then [image] else []).
Proof.
  unfold ExportTrainingData.skips, ExportTrainingData.export_image.
  destruct (py_in image (ListFeatureClasses fs t)); cbn [negb orb].
  - destruct (py_in image (ListFeatureClasses fs b)); cbn;
      intros H; inversion H; cbn; rewrite ?app_nil_r; reflexivity.
  - cbn; intros H; inversion H; reflexivity.
Qed.

Lemma export_main_run fs a t b o :
  ExportTrainingData.ready fs a t b o ->
  ListRasters fs a <> [] ->
  exists st,
    outcome (for_each (ExportTrainingData.export_image a t b o
                         (ListFeatureClasses fs t) (ListFeatureClasses fs b))
               (ListRasters fs a)
               {| ExportTrainingData.skipped_images := [];
                  ExportTrainingData.images_remaining :=
                    Z.of_nat (List.length (ListRasters fs a)) |}) = inr st
    /\ ExportTrainingData.skipped_images st
       = List.filter (ExportTrainingData.skips fs t b) (ListRasters fs a)
    /\ ExportTrainingData.main fs a t b o
       = ([SetEnv "workspace" a; SetEnv "workspace" t; SetEnv "workspace" b;
           SetProgressor (Z.quot 100 (Z.of_nat (List.length (ListRasters fs a))))]
          ++ trace (for_each (ExportTrainingData.export_image a t b o
                                (ListFeatureClasses fs t) (ListFeatureClasses fs b))
                      (ListRasters fs a)
                      {| ExportTrainingData.skipped_images := [];
                         ExportTrainingData.images_remaining :=
                           Z.of_nat (List.length (ListRasters fs a)) |})
          ++ [AddMessage (nl ++ "Exported training data to " ++ o);
              Print (nl ++ "Exported training data to " ++ o)]
          ++ spec_report (nl ++ "The following images were skipped:")
               (ExportTrainingData.skipped_images st),
          inr tt).
Proof.
  intros [Hex Hgdb] Hne.
  destruct (for_each_returns _ (export_image_returns a t b o
                                  (ListFeatureClasses fs t) (ListFeatureClasses fs b))
              (ListRasters fs a)
              {| ExportTrainingData.skipped_images := [];
                 ExportTrainingData.images_remaining :=
                   Z.of_nat (List.length (ListRasters fs a)) |}) as [st Hst].
  exists st; split; [exact Hst | split].
  - rewrite (for_each_appends _ (export_image_returns a t b o _ _)
               ExportTrainingData.skipped_images
               (fun image => if ExportTrainingData.skips fs t b image then [image] else [])
               (export_image_skipped fs a t b o) _ _ _ Hst).
    cbn [ExportTrainingData.skipped_images app]. apply flat_map_filter.
  - unfold ExportTrainingData.main.
    unfold ExportTrainingData.workspaces in Hex.
    unfold ExportTrainingData.geodatabases in Hgdb.
    inversion Hgdb as [| ? ? Ha Hgdb1]; subst.
    inversion Hgdb1 as [| ? ? Ht Hgdb2]; subst.
    inversion Hgdb2 as [| ? ? Hb _]; subst.
    rewrite (check_paths_exist_ok _ _ Hex), (check_gdb_ok _ _ Ha),
      (check_gdb_ok _ _ Ht), (check_gdb_ok _ _ Hb), (length_eqb_0 _ Hne).
    apply run_eq.
    + repeat pass_trace. rewrite (trace_bind _ _ _ Hst). repeat pass_trace.
      rewrite export_report_skipped_run. reflexivity.
    + repeat pass_outcome. rewrite (outcome_bind _ _ _ Hst). repeat pass_outcome.
      rewrite export_report_skipped_run. reflexivity.
Qed.

(** ** calculate_accuracy: the loop bodies and the run *)

Lemma evaluate_class_returns fs i s fclass_name damage_class u :
  outcome (CalculateAccuracy.evaluate_class fs i s fclass_name damage_class u) = inr tt.
Proof.
  unfold CalculateAccuracy.evaluate_class, CalculateAccuracy.verify_accuracy_category_fields.
  cbn [for_each]. split_ifs; reflexivity.
Qed.

Lemma evaluate_classes_returns fs i s fclass_name :
  outcome (for_each (CalculateAccuracy.evaluate_class fs i s fclass_name)
             CalculateAccuracy.damage_classes tt) = inr tt.
Proof.
  destruct (for_each_returns (CalculateAccuracy.evaluate_class fs i s fclass_name)
              (fun x u => ex_intro _ tt (evaluate_class_returns fs i s fclass_name x u))
              CalculateAccuracy.damage_classes tt) as [[] H].
  exact H.
Qed.

Ltac pass_classes :=
  repeat first
    [ rewrite (trace_bind _ _ tt) by reflexivity
    | rewrite (outcome_bind _ _ tt) by reflexivity
    | rewrite (trace_bind _ _ tt (evaluate_classes_returns _ _ _ _))
    | rewrite (outcome_bind _ _ tt (evaluate_classes_returns _ _ _ _)) ].

Lemma evaluate_fclass_returns fs p r i s rf im fclass_name st :
  exists st',
    outcome (CalculateAccuracy.evaluate_fclass fs p r i s rf im fclass_name st) = inr st'.
Proof.
  unfold CalculateAccuracy.evaluate_fclass.
  destruct (negb (py_in fclass_name rf)); [eexists; reflexivity |].
  destruct (negb (py_in fclass_name im)); [eexists; reflexivity |].
  pass_classes.
  eexists; reflexivity.
Qed.

Lemma evaluate_fclass_calls fs p r i s fclass_name st :
  gp_calls (trace (CalculateAccuracy.evaluate_fclass fs p r i s
                     (ListFeatureClasses fs r) (ListRasters fs i) fclass_name st))
  = CalculateAccuracy.fclass_calls fs p r i s fclass_name.
Proof.
  unfold CalculateAccuracy.fclass_calls, CalculateAccuracy.evaluate_fclass.
  destruct (negb (py_in fclass_name _)); [reflexivity |].
  destruct (negb (py_in fclass_name _)); [reflexivity |].
  pass_classes. rewrite !gp_calls_app. reflexivity.
Qed.

Lemma evaluate_fclass_skipped fs p r i s fclass_name st st' :
  outcome (CalculateAccuracy.evaluate_fclass fs p r i s
             (ListFeatureClasses fs r) (ListRasters fs i) fclass_name st) = inr st' ->
  CalculateAccuracy.skipped_fclasses st'
  = CalculateAccuracy.skipped_fclasses st
    ++ (if CalculateAccuracy.skips fs r i fclass_name then [fclass_name] else []).
Proof.
  unfold CalculateAccuracy.skips, CalculateAccuracy.evaluate_fclass.
  destruct (py_in fclass_name (ListFeatureClasses fs r)); cbn [negb orb].
  - destruct (py_in fclass_name (ListRasters fs i)); cbn [negb].
    + pass_classes.
      cbn; intros H; inversion H; cbn; rewrite app_nil_r; reflexivity.
    + cbn; intros H; inversion H; reflexivity.
  - cbn; intros H; inversion H; reflexivity.
Qed.

Lemma accuracy_main_run fs p r i o s :
  CalculateAccuracy.ready fs p r i o s ->
  ListFeatureClasses fs p <> [] ->
  exists st,
    outcome (for_each (CalculateAccuracy.evaluate_fclass fs p r i s
                         (ListFeatureClasses fs r) (ListRasters fs i))
               (ListFeatureClasses fs p)
               {| CalculateAccuracy.skipped_fclasses := [];
                  CalculateAccuracy.fclasses_remaining :=
                    Z.of_nat (List.length (ListFeatureClasses fs p)) |}) = inr st
    /\ CalculateAccuracy.skipped_fclasses st
       = List.filter (CalculateAccuracy.skips fs r i) (ListFeatureClasses fs p)
    /\ CalculateAccuracy.main fs p r i o s
       = ([SetEnv "scratchWorkspace" s; SetEnv "workspace" p; SetEnv "workspace" r;
           SetEnv "workspace" i;
           SetProgressor (Z.quot 100 (Z.of_nat (List.length (ListFeatureClasses fs p))))]
          ++ trace (for_each (CalculateAccuracy.evaluate_fclass fs p r i s
                                (ListFeatureClasses fs r) (ListRasters fs i))
                      (ListFeatureClasses fs p)
                      {| CalculateAccuracy.skipped_fclasses := [];
                         CalculateAccuracy.fclasses_remaining :=
                           Z.of_nat (List.length (ListFeatureClasses fs p)) |})
          ++ [SetProgressorLabel "Exporting accuracy results tables";
              Print "Exporting accuracy results tables"]
          ++ trace (for_each (CalculateAccuracy.export_class o s (ListFeatureClasses fs p))
                      CalculateAccuracy.damage_classes tt)
          ++ [AddMessage (nl ++ "Exported accuracy results tables to " ++ o);
              Print (nl ++ "Exported accuracy results tables to " ++ o)]
          ++ spec_report
               (nl ++ "The following predicted polygons feature classes were skipped:")
               (CalculateAccuracy.skipped_fclasses st),
          inr tt).
Proof.
  intros [Hex Hgdb] Hne.
  destruct (for_each_returns _ (evaluate_fclass_returns fs p r i s
                                  (ListFeatureClasses fs r) (ListRasters fs i))
              (ListFeatureClasses fs p)
              {| CalculateAccuracy.skipped_fclasses := [];
                 CalculateAccuracy.fclasses_remaining :=
                   Z.of_nat (List.length (ListFeatureClasses fs p)) |}) as [st Hst].
  exists st; split; [exact Hst | split].
  - rewrite (for_each_appends _ (evaluate_fclass_returns fs p r i s _ _)
               CalculateAccuracy.skipped_fclasses
               (fun f => if CalculateAccuracy.skips fs r i f then [f] else [])
               (evaluate_fclass_skipped fs p r i s) _ _ _ Hst).
    cbn [CalculateAccuracy.skipped_fclasses app]. apply flat_map_filter.
  - unfold CalculateAccuracy.main.
    unfold CalculateAccuracy.workspaces in Hex.
    unfold CalculateAccuracy.geodatabases, CalculateAccuracy.workspaces in Hgdb.
    inversion Hgdb as [| ? ? H1 Hgdb1]; subst.
    inversion Hgdb1 as [| ? ? H2 Hgdb2]; subst.
    inversion Hgdb2 as [| ? ? H3 Hgdb3]; subst.
    inversion Hgdb3 as [| ? ? H4 Hgdb4]; subst.
    inversion Hgdb4 as [| ? ? H5 _]; subst.
    rewrite (check_paths_exist_ok _ _ Hex), (check_gdb_ok _ _ H1),
      (check_gdb_ok _ _ H2), (check_gdb_ok _ _ H3), (check_gdb_ok _ _ H4),
      (check_gdb_ok _ _ H5), (length_eqb_0 _ Hne).
    apply run_eq.
    + repeat pass_trace. rewrite (trace_bind _ _ _ Hst). repeat pass_trace.
      rewrite accuracy_report_skipped_run. reflexivity.
    + repeat pass_outcome. rewrite (outcome_bind _ _ _ Hst). repeat pass_outcome.
      rewrite accuracy_report_skipped_run. reflexivity.
Qed.

(** ** delineate_roof_damage: the loop bodies and the run *)

Lemma delineate_models_run a s image (d : list (string * string)) (acc : list string) :
  for_each (DelineateRoofDamage.delineate_with_model a s image) d acc
  = (map Call
       (flat_map
          (fun item =>
             [DelineateRoofDamage.generate_classified_raster
                (OsPath.join a image) (snd item);
              DelineateRoofDamage.raster_to_fclass
                (DelineateRoofDamage.classified_raster (OsPath.join a image) (snd item))
                (OsPath.join s (image ++ "_" ++ fst item));
              DelineateRoofDamage.delete_fclass_fields
                (OsPath.join s (image ++ "_" ++ fst item))]) d),
     inr (acc ++ map (fun item => OsPath.join s (image ++ "_" ++ fst item)) d)).
Proof.
  revert acc; induction d as [| [damage_class model_path] d IH]; intros acc.
  - cbn; rewrite app_nil_r; reflexivity.
  - cbn [for_each].
    rewrite (bind_inr _ _ (acc ++ [OsPath.join s (image ++ "_" ++ damage_class)]))
      by reflexivity.
    rewrite IH. cbn [trace outcome fst snd flat_map map app].
    rewrite <- app_assoc. reflexivity.
Qed.

Lemma gp_calls_map_Call (cs : list gp_call) : gp_calls (map Call cs) = cs.
Proof. induction cs as [| c cs IH]; cbn; [| rewrite IH]; reflexivity. Qed.

Lemma model_dictionary_spec m1 m2 m3 :
  DelineateRoofDamage.model_dictionary m1 m2 m3
  = DelineateRoofDamage.spec_supplied_models m1 m2 m3.
Proof.
  unfold DelineateRoofDamage.model_dictionary, DelineateRoofDamage.spec_supplied_models.
  cbn [List.filter snd].
  destruct (String.eqb m1 ""), (String.eqb m2 ""), (String.eqb m3 ""); reflexivity.
Qed.

Lemma delineate_image_run a o s d image remaining :
  outcome (DelineateRoofDamage.delineate_image a o s d image remaining)
  = inr (remaining - 1)
  /\ gp_calls (trace (DelineateRoofDamage.delineate_image a o s d image remaining))
     = flat_map
         (fun item =>
            [DelineateRoofDamage.generate_classified_raster
               (OsPath.join a image) (snd item);
             DelineateRoofDamage.raster_to_fclass
               (DelineateRoofDamage.classified_raster (OsPath.join a image) (snd item))
               (OsPath.join s (image ++ "_" ++ fst item));
             DelineateRoofDamage.delete_fclass_fields
               (OsPath.join s (image ++ "_" ++ fst item))]) d
       ++ [DelineateRoofDamage.merge_fclasses
             (map (fun item => OsPath.join s (image ++ "_" ++ fst item)) d)
             (OsPath.join o image)].
Proof.
  unfold DelineateRoofDamage.delineate_image. split.
  - repeat pass_outcome.
    rewrite (outcome_bind _ _ _ (f_equal snd (delineate_models_run a s image d []))).
    reflexivity.
  - repeat pass_trace.
    rewrite (trace_bind _ _ _ (f_equal snd (delineate_models_run a s image d []))).
    rewrite delineate_models_run. cbn [trace fst].
    rewrite !gp_calls_app, gp_calls_map_Call. reflexivity.
Qed.

Lemma delineate_image_returns a o s d image remaining :
  exists r', outcome (DelineateRoofDamage.delineate_image a o s d image remaining) = inr r'.
Proof. eexists; apply delineate_image_run. Qed.

Lemma delineate_image_calls a m1 m2 m3 o s image remaining :
  gp_calls (trace (DelineateRoofDamage.delineate_image a o s
                     (DelineateRoofDamage.model_dictionary m1 m2 m3) image remaining))
  = DelineateRoofDamage.spec_image_calls a m1 m2 m3 o s image.
Proof.
  rewrite (proj2 (delineate_image_run _ _ _ _ _ _)), model_dictionary_spec.
  reflexivity.
Qed.

Lemma delineate_main_run fs a m1 m2 m3 o s :
  DelineateRoofDamage.ready fs a m1 m2 m3 o s ->
  ListRasters fs a <> [] ->
  DelineateRoofDamage.main fs a m1 m2 m3 o s
  = ([SetEnv "scratchWorkspace" s; SetEnv "workspace" a;
      SetProgressor (Z.quot 100 (Z.of_nat (List.length (ListRasters fs a))))]
     ++ trace (for_each
                 (DelineateRoofDamage.delineate_image a o s
                    (DelineateRoofDamage.model_dictionary m1 m2 m3))
                 (ListRasters fs a) (Z.of_nat (List.length (ListRasters fs a))))
     ++ [AddMessage (nl ++ "Exported predicted polygons feature classes to " ++ o);
         Print (nl ++ "Exported predicted polygons feature classes to " ++ o)],
     inr tt).
Proof.
  intros (Hex & (Hmodels & Hmex) & Hgdb) Hne.
  destruct (for_each_returns _
              (delineate_image_returns a o s (DelineateRoofDamage.model_dictionary m1 m2 m3))
              (ListRasters fs a) (Z.of_nat (List.length (ListRasters fs a)))) as [n Hn].
  unfold DelineateRoofDamage.main.
  unfold DelineateRoofDamage.workspaces in Hex.
  unfold DelineateRoofDamage.model_paths in Hmodels, Hmex.
  unfold DelineateRoofDamage.geodatabases in Hgdb.
  inversion Hgdb as [| ? ? H1 Hgdb1]; subst.
  inversion Hgdb1 as [| ? ? H2 Hgdb2]; subst.
  inversion Hgdb2 as [| ? ? H3 _]; subst.
  rewrite (check_paths_exist_ok _ _ Hex), (length_eqb_0 _ Hmodels),
    (check_paths_exist_ok _ _ Hmex), (check_gdb_ok _ _ H1), (check_gdb_ok _ _ H2),
    (check_gdb_ok _ _ H3), (length_eqb_0 _ Hne).
  apply run_eq.
  - repeat pass_trace. rewrite (trace_bind _ _ _ Hn). repeat pass_trace. reflexivity.
  - repeat pass_outcome. rewrite (outcome_bind _ _ _ Hn). repeat pass_outcome.
    reflexivity.
Qed.

(** ** The scripts against their specification *)

(** C3. A run of [delineate_roof_damage.main] that passes its checks
    returns, and its engine calls are, image after image in the order of
    the input geodatabase: for every supplied model, in the order decking,
    hole, dual and leaving out exactly the parameters that are the empty
    string, the classification of the image with that model
    (ClassifyPixelsUsingDeepLearning on the image and the model), the
    conversion of the classified raster to the single-part polygon feature
    class [image_class] of the scratch geodatabase (RasterToPolygon with
    SINGLE_OUTER_PART) and the deletion of its fields Id and gridcode
    (DeleteField); then the merge of these feature classes, in the same
    order, into the feature class named after the image in the output
    geodatabase (Merge).  The dictionary of models the code builds is that
    list of supplied models. *)
Theorem delineate_main_calls fs a m1 m2 m3 o s :
  DelineateRoofDamage.ready fs a m1 m2 m3 o s ->
  ListRasters fs a <> [] ->
  outcome (DelineateRoofDamage.main fs a m1 m2 m3 o s) = inr tt
  /\ DelineateRoofDamage.model_dictionary m1 m2 m3
     = DelineateRoofDamage.spec_supplied_models m1 m2 m3
  /\ gp_calls (trace (DelineateRoofDamage.main fs a m1 m2 m3 o s))
     = flat_map (DelineateRoofDamage.spec_image_calls a m1 m2 m3 o s) (ListRasters fs a).
Proof.
  intros Hready Hne.
  rewrite (delineate_main_run _ _ _ _ _ _ _ Hready Hne).
  split; [reflexivity | split; [apply model_dictionary_spec |]].
  cbn [trace fst]. rewrite !gp_calls_app. cbn [gp_calls app].
  rewrite app_nil_r.
  apply (for_each_calls _
           (delineate_image_returns a o s (DelineateRoofDamage.model_dictionary m1 m2 m3))).
  intros image remaining. apply delineate_image_calls.
Qed.

Lemma delineate_main_calls_witness :
  gp_calls (trace (DelineateRoofDamage.main Samples.fs "/images.gdb"
                     "/models/decking.dlpk" "" "/models/dual.emd"
                     "/out.gdb" "/scratch.gdb"))
  = flat_map (DelineateRoofDamage.spec_image_calls "/images.gdb"
                "/models/decking.dlpk" "" "/models/dual.emd" "/out.gdb" "/scratch.gdb")
      ["a"; "b"; "c"].
Proof.
  apply (delineate_main_calls Samples.fs "/images.gdb"
           "/models/decking.dlpk" "" "/models/dual.emd" "/out.gdb" "/scratch.gdb").
  - split; [| split; [split |]].
    + repeat constructor.
    + discriminate.
    + repeat constructor.
    + repeat constructor.
  - discriminate.
Defined.

Lemma gp_calls_spec_report (header : string) (skipped : list string) :
  gp_calls (spec_report header skipped) = [].
Proof.
  unfold spec_report. destruct skipped as [| x l]; [reflexivity |].
  cbn [app gp_calls]. generalize (x :: l); intros items.
  induction items as [| y items IH]; [reflexivity | exact IH].
Qed.

Lemma prepare_main_calls fs a b c d :
  PrepareImages.ready fs a b c d ->
  ListRasters fs a <> [] ->
  outcome (PrepareImages.main fs a b c d) = inr tt
  /\ gp_calls (trace (PrepareImages.main fs a b c d))
     = flat_map (PrepareImages.image_calls fs a b c d) (ListRasters fs a).
Proof.
  intros Hready Hne.
  destruct (prepare_main_run _ _ _ _ _ Hready Hne) as (st & Hst & Hsk & ->).
  split; [reflexivity |].
  cbn [trace fst]. rewrite !gp_calls_app, gp_calls_spec_report.
  cbn [gp_calls app]. rewrite app_nil_r.
  apply (for_each_calls _ (prepare_image_returns fs a b c d (ListFeatureClasses fs b))).
  intros image st0. apply prepare_image_calls.
Qed.

Lemma skips_false fs a b image :
  PrepareImages.skips fs a b image = false ->
  py_in (PrepareImages.get_file_name (OsPath.join a image)) (ListFeatureClasses fs b) = true
  /\ String.eqb (spatialreference_type fs (OsPath.join a image)) "Unknown" = false.
Proof.
  unfold PrepareImages.skips, PrepareImages.get_spatial_ref_type.
  intros H; apply orb_false_elim in H; destruct H as [H1 H2].
  apply negb_false_iff in H1. split; assumption.
Qed.

(** C2. In a run of [prepare_images.main] that passes its checks, the
    engine calls are those of the images in the order of the folder
    listing.  For an image that is not skipped: when its spatial reference
    type is Geographic, the calls are the extraction of bands 1;2;3 of the
    image into a temporary layer (MakeRasterLayer), the projection and
    resampling of that layer to cell size 0.05 in the spatial reference of
    the boundary feature class named after the image (ProjectRaster), the
    clip of the result by that boundary feature class (Clip) and the export
    of the clipped raster to the output geodatabase as an 8-bit unsigned
    raster named after the image file without its extension (CopyRaster);
    when the type is Projected, they are the resampling of the image to cell
    size 0.05 (Resample), the same clip and the same export, and nothing
    else. *)
Theorem prepare_main_steps fs a b c d :
  PrepareImages.ready fs a b c d ->
  ListRasters fs a <> [] ->
  outcome (PrepareImages.main fs a b c d) = inr tt
  /\ gp_calls (trace (PrepareImages.main fs a b c d))
     = flat_map (PrepareImages.image_calls fs a b c d) (ListRasters fs a)
  /\ (forall image,
        PrepareImages.skips fs a b image = false ->
        (spatialreference_type fs (OsPath.join a image) = "Geographic" ->
         PrepareImages.image_calls fs a b c d image
         = PrepareImages.spec_geographic_calls fs a b c d image)
        /\ (spatialreference_type fs (OsPath.join a image) = "Projected" ->
            PrepareImages.image_calls fs a b c d image
            = PrepareImages.spec_projected_calls a b c d image)).
Proof.
  intros Hready Hne.
  destruct (prepare_main_calls _ _ _ _ _ Hready Hne) as [Hout Hcalls].
  split; [exact Hout | split; [exact Hcalls |]].
  intros image Hskip.
  destruct (skips_false _ _ _ _ Hskip) as [Hin Hunk].
  unfold PrepareImages.image_calls, PrepareImages.prepare_image,
    PrepareImages.get_spatial_ref_type, PrepareImages.get_spatial_ref_string.
  rewrite Hin. cbn [negb]. rewrite Hunk.
  split; intros Hty; rewrite Hty; reflexivity.
Qed.

Lemma prepare_main_steps_witness :
  PrepareImages.image_calls Samples.fs "/in" "/boundary.gdb" "/out.gdb" "/scratch.gdb"
    "b.tif"
  = PrepareImages.spec_geographic_calls Samples.fs "/in" "/boundary.gdb" "/out.gdb"
      "/scratch.gdb" "b.tif".
Proof.
  refine (proj1 (proj2 (proj2
            (prepare_main_steps Samples.fs "/in" "/boundary.gdb" "/out.gdb" "/scratch.gdb"
               _ _)) "b.tif" _) _).
  - split; repeat constructor.
  - discriminate.
  - reflexivity.
  - reflexivity.
Defined.

Lemma run_clip_export (store : gmap string (list string)) (r k t o : string) :
  PrepareImages.run_calls store
    [PrepareImages.clip_image r k t; PrepareImages.export_image k o]
  = match store !! r with
    | Some sources => Some (<[o := sources]> (<[k := sources]> store))
    | None => None
    end.
Proof.
  cbn [PrepareImages.run_calls].
  change (PrepareImages.run_call store (PrepareImages.clip_image r k t))
    with (match store !! r with
          | Some sources => Some (<[k := sources]> store)
          | None => None
          end).
  destruct (store !! r) as [sources |]; [| reflexivity].
  change (PrepareImages.run_call (<[k := sources]> store) (PrepareImages.export_image k o))
    with (match <[k := sources]> store !! k with
          | Some sources' => Some (<[o := sources']> (<[k := sources]> store))
          | None => None
          end).
  rewrite lookup_insert_eq. reflexivity.
Qed.

(** C10. In [prepare_images.main], an image whose boundary feature class
    exists is added to the skipped list exactly when its spatial reference
    type is Unknown.  When the type is none of Unknown, Geographic and
    Projected, the iteration skips nothing and calls neither the projection
    nor the resampling: its engine calls are the clip of the scratch raster
    resampled and the export of the clipped raster.  The exported raster
    then holds what the raster resampled held before the iteration, as the
    calls of the earlier iterations left it (and the clip fails when it is
    not there), whatever the image itself holds. *)
Theorem prepare_other_sr_type fs a b c d image :
  let image_name := PrepareImages.get_file_name (OsPath.join a image) in
  let sr_type := spatialreference_type fs (OsPath.join a image) in
  let resampled := OsPath.join d "resampled" in
  let exported := OsPath.join c image_name in
  py_in image_name (ListFeatureClasses fs b) = true ->
  (forall st, exists st',
      outcome (PrepareImages.prepare_image fs a b c d (ListFeatureClasses fs b) image st)
      = inr st'
      /\ PrepareImages.skipped_images st'
         = PrepareImages.skipped_images st
           ++ (if String.eqb sr_type "Unknown" then [image] else []))
  /\ (PrepareImages.skips fs a b image = true <-> sr_type = "Unknown")
  /\ (sr_type <> "Unknown" -> sr_type <> "Geographic" -> sr_type <> "Projected" ->
      PrepareImages.image_calls fs a b c d image
      = [PrepareImages.clip_image resampled (OsPath.join d "clipped")
           (OsPath.join b image_name);
         PrepareImages.export_image (OsPath.join d "clipped") exported]
      /\ (forall pre post,
            PrepareImages.ready fs a b c d ->
            ListRasters fs a = pre ++ image :: post ->
            gp_calls (trace (PrepareImages.main fs a b c d))
            = flat_map (PrepareImages.image_calls fs a b c d) pre
              ++ PrepareImages.image_calls fs a b c d image
              ++ flat_map (PrepareImages.image_calls fs a b c d) post)
      /\ (forall store : gmap string (list string),
            PrepareImages.run_calls store (PrepareImages.image_calls fs a b c d image)
            = match store !! resampled with
              | Some sources =>
                  Some (<[exported := sources]>
                          (<[OsPath.join d "clipped" := sources]> store))
              | None => None
              end)
      /\ (forall store store' : gmap string (list string),
            PrepareImages.run_calls store (PrepareImages.image_calls fs a b c d image)
            = Some store' ->
            store' !! exported = store !! resampled)).
Proof.
  intros image_name sr_type resampled exported Hin.
  assert (Hskips : PrepareImages.skips fs a b image = String.eqb sr_type "Unknown").
  { unfold PrepareImages.skips, PrepareImages.get_spatial_ref_type.
    fold image_name. rewrite Hin. reflexivity. }
  split; [| split].
  - intros st.
    destruct (prepare_image_returns fs a b c d (ListFeatureClasses fs b) image st)
      as [st' Hst'].
    exists st'; split; [exact Hst' |].
    rewrite (prepare_image_skipped _ _ _ _ _ _ _ _ Hst'), Hskips. reflexivity.
  - rewrite Hskips. apply String.eqb_eq.
  - intros Hunk Hgeo Hproj.
    assert (Hcalls : PrepareImages.image_calls fs a b c d image
                     = [PrepareImages.clip_image resampled (OsPath.join d "clipped")
                          (OsPath.join b image_name);
                        PrepareImages.export_image (OsPath.join d "clipped") exported]).
    { unfold PrepareImages.image_calls, PrepareImages.prepare_image,
        PrepareImages.get_spatial_ref_type.
      fold image_name sr_type. rewrite Hin. cbn [negb].
      apply String.eqb_neq in Hunk, Hgeo, Hproj.
      rewrite Hunk, Hgeo, Hproj. reflexivity. }
    split; [exact Hcalls | split; [| split]].
    + intros pre post Hready Himages.
      assert (Hne : ListRasters fs a <> [])
        by (rewrite Himages; destruct pre; discriminate).
      rewrite (proj2 (prepare_main_calls _ _ _ _ _ Hready Hne)), Himages.
      rewrite flat_map_app. reflexivity.
    + intros store. rewrite Hcalls. apply run_clip_export.
    + intros store store'. rewrite Hcalls, run_clip_export.
      destruct (store !! resampled) as [sources |]; [| discriminate].
      intros H; inversion H; subst. apply lookup_insert_eq.
Qed.

Lemma prepare_other_sr_type_witness :
  PrepareImages.image_calls Samples.fs "/in" "/boundary.gdb" "/out.gdb" "/scratch.gdb"
    "e.tif"
  = [PrepareImages.clip_image "/scratch.gdb/resampled" "/scratch.gdb/clipped"
       "/boundary.gdb/e";
     PrepareImages.export_image "/scratch.gdb/clipped" "/out.gdb/e"].
Proof.
  refine (proj1 (proj2 (proj2
            (prepare_other_sr_type Samples.fs "/in" "/boundary.gdb" "/out.gdb"
               "/scratch.gdb" "e.tif" _)) _ _ _)).
  - reflexivity.
  - discriminate.
  - discriminate.
  - discriminate.
Defined.

(** On the sample folder the raster exported for [e.tif], whose type is
    neither Geographic nor Projected, holds the pixels of [b.tif], the last
    image resampled before it. *)
Example prepare_sample_lineage :
  match PrepareImages.run_calls Samples.folder_store
          (gp_calls (trace (PrepareImages.main Samples.fs "/in" "/boundary.gdb"
                              "/out.gdb" "/scratch.gdb"))) with
  | Some store => store !! "/out.gdb/e"
  | None => None
  end = Some ["/in/b.tif"].
Proof. vm_compute. reflexivity. Qed.

(** ** Skipping loops *)

Lemma export_main_calls fs a t b o :
  ExportTrainingData.ready fs a t b o ->
  ListRasters fs a <> [] ->
  outcome (ExportTrainingData.main fs a t b o) = inr tt
  /\ gp_calls (trace (ExportTrainingData.main fs a t b o))
     = flat_map (ExportTrainingData.image_calls fs a t b o) (ListRasters fs a).
Proof.
  intros Hready Hne.
  destruct (export_main_run _ _ _ _ _ Hready Hne) as (st & Hst & Hsk & ->).
  split; [reflexivity |].
  cbn [trace fst]. rewrite !gp_calls_app, gp_calls_spec_report.
  cbn [gp_calls app]. rewrite app_nil_r.
  apply (for_each_calls _ (export_image_returns a t b o _ _)).
  intros image st0. apply export_image_calls.
Qed.

Lemma accuracy_main_calls fs p r i o s :
  CalculateAccuracy.ready fs p r i o s ->
  ListFeatureClasses fs p <> [] ->
  outcome (CalculateAccuracy.main fs p r i o s) = inr tt
  /\ gp_calls (trace (CalculateAccuracy.main fs p r i o s))
     = flat_map (CalculateAccuracy.fclass_calls fs p r i s) (ListFeatureClasses fs p)
       ++ gp_calls (trace (for_each
                             (CalculateAccuracy.export_class o s (ListFeatureClasses fs p))
                             CalculateAccuracy.damage_classes tt)).
Proof.
  intros Hready Hne.
  destruct (accuracy_main_run _ _ _ _ _ _ Hready Hne) as (st & Hst & Hsk & ->).
  split; [reflexivity |].
  cbn [trace fst]. rewrite !gp_calls_app, gp_calls_spec_report.
  cbn [gp_calls app]. rewrite app_nil_r. f_equal.
  apply (for_each_calls _ (evaluate_fclass_returns fs p r i s _ _)).
  intros f st0. apply evaluate_fclass_calls.
Qed.

(** A skipped item has its warning in the trace of the run. *)
Lemma prepare_main_warns fs a b c d image :
  PrepareImages.ready fs a b c d ->
  In image (ListRasters fs a) ->
  py_in (PrepareImages.get_file_name (OsPath.join a image)) (ListFeatureClasses fs b)
  = false ->
  exists remaining,
    In (AddWarning
          (PrepareImages.no_boundary_msg
             (PrepareImages.get_file_name (OsPath.join a image)) image remaining))
       (trace (PrepareImages.main fs a b c d)).
Proof.
  intros Hready Hin Hno.
  assert (Hne : ListRasters fs a <> []) by (intros E; rewrite E in Hin; destruct Hin).
  destruct (prepare_main_run _ _ _ _ _ Hready Hne) as (st & Hst & Hsk & ->).
  destruct (for_each_visits _ (prepare_image_returns fs a b c d (ListFeatureClasses fs b))
              (ListRasters fs a)
              {| PrepareImages.skipped_images := [];
                 PrepareImages.images_remaining :=
                   Z.of_nat (List.length (ListRasters fs a)) |} image Hin) as [s0 Hs0].
  exists (PrepareImages.images_remaining s0 - 1).
  cbn [trace fst]. apply in_or_app; right. apply in_or_app; left.
  apply Hs0. unfold PrepareImages.prepare_image. rewrite Hno. left; reflexivity.
Qed.

Lemma export_main_warns fs a t b o image :
  ExportTrainingData.ready fs a t b o ->
  In image (ListRasters fs a) ->
  ExportTrainingData.skips fs t b image = true ->
  exists remaining,
    In (AddWarning
          (if py_in image (ListFeatureClasses fs t)
           then ExportTrainingData.no_boundary_msg image remaining
           else ExportTrainingData.no_training_msg image remaining))
       (trace (ExportTrainingData.main fs a t b o)).
Proof.
  intros Hready Hin Hskip.
  assert (Hne : ListRasters fs a <> []) by (intros E; rewrite E in Hin; destruct Hin).
  destruct (export_main_run _ _ _ _ _ Hready Hne) as (st & Hst & Hsk & ->).
  destruct (for_each_visits _ (export_image_returns a t b o
                                 (ListFeatureClasses fs t) (ListFeatureClasses fs b))
              (ListRasters fs a)
              {| ExportTrainingData.skipped_images := [];
                 ExportTrainingData.images_remaining :=
                   Z.of_nat (List.length (ListRasters fs a)) |} image Hin) as [s0 Hs0].
  exists (ExportTrainingData.images_remaining s0 - 1).
  cbn [trace fst]. apply in_or_app; right. apply in_or_app; left.
  apply Hs0. unfold ExportTrainingData.export_image.
  unfold ExportTrainingData.skips in Hskip.
  destruct (py_in image (ListFeatureClasses fs t)); cbn [negb orb] in Hskip |- *.
  - rewrite Hskip. right; left; reflexivity.
  - right; left; reflexivity.
Qed.

Lemma accuracy_main_warns fs p r i o s fclass_name :
  CalculateAccuracy.ready fs p r i o s ->
  In fclass_name (ListFeatureClasses fs p) ->
  CalculateAccuracy.skips fs r i fclass_name = true ->
  exists remaining,
    In (AddWarning
          (if py_in fclass_name (ListFeatureClasses fs r)
           then CalculateAccuracy.no_image_msg fclass_name remaining
           else CalculateAccuracy.no_reference_msg fclass_name remaining))
       (trace (CalculateAccuracy.main fs p r i o s)).
Proof.
  intros Hready Hin Hskip.
  assert (Hne : ListFeatureClasses fs p <> [])
    by (intros E; rewrite E in Hin; destruct Hin).
  destruct (accuracy_main_run _ _ _ _ _ _ Hready Hne) as (st & Hst & Hsk & ->).
  destruct (for_each_visits _ (evaluate_fclass_returns fs p r i s
                                 (ListFeatureClasses fs r) (ListRasters fs i))
              (ListFeatureClasses fs p)
              {| CalculateAccuracy.skipped_fclasses := [];
                 CalculateAccuracy.fclasses_remaining :=
                   Z.of_nat (List.length (ListFeatureClasses fs p)) |} fclass_name Hin)
    as [s0 Hs0].
  exists (CalculateAccuracy.fclasses_remaining s0 - 1).
  cbn [trace fst]. apply in_or_app; right. apply in_or_app; left.
  apply Hs0. unfold CalculateAccuracy.evaluate_fclass.
  unfold CalculateAccuracy.skips in Hskip.
  destruct (py_in fclass_name (ListFeatureClasses fs r)); cbn [negb orb] in Hskip |- *.
  - rewrite Hskip. right; left; reflexivity.
  - right; left; reflexivity.
Qed.

Lemma accuracy_fclass_calls_skip fs p r i s fclass_name :
  (CalculateAccuracy.skips fs r i fclass_name = true ->
   CalculateAccuracy.fclass_calls fs p r i s fclass_name = [])
  /\ (CalculateAccuracy.skips fs r i fclass_name = false ->
      exists rest,
        CalculateAccuracy.fclass_calls fs p r i s fclass_name
        = CalculateAccuracy.dissolve_fclass_by_class (OsPath.join p fclass_name)
            (OsPath.join s "predicted_polygons_dissolve") "Class"
          :: CalculateAccuracy.dissolve_fclass_by_class (OsPath.join r fclass_name)
               (OsPath.join s "reference_polygons_dissolve") "ClassName"
          :: rest).
Proof.
  unfold CalculateAccuracy.skips, CalculateAccuracy.fclass_calls,
    CalculateAccuracy.evaluate_fclass.
  destruct (py_in fclass_name (ListFeatureClasses fs r)); cbn [negb orb].
  - destruct (py_in fclass_name (ListRasters fs i)); cbn [negb];
      split; intros H; try discriminate; [| reflexivity].
    pass_classes. rewrite !gp_calls_app. eexists; reflexivity.
  - split; intros H; [reflexivity | discriminate].
Qed.

(** C5. Items are matched to their companion datasets by name and an
    unmatched item is skipped without ending the run.  In each of the three
    scripts a run that passes the checks returns, its engine calls are those
    of the items one after the other, and the skipped list at the end of the
    loop is the list of the items the loop skips, in order.
    export_training_data exports an image exactly when feature classes of
    the same name are listed in both the training and the boundary
    geodatabases; prepare_images issues calls for an image only if a
    boundary feature class named after the file name without its extension
    is listed; calculate_accuracy evaluates a feature class exactly when a
    reference feature class and a prepared test image of the same name are
    listed.  Every other item of the listing issues no engine call, is in
    the skipped list and has its warning in the trace. *)
Theorem unmatched_items_are_skipped :
  (forall fs a t b o,
      ExportTrainingData.ready fs a t b o ->
      ListRasters fs a <> [] ->
      outcome (ExportTrainingData.main fs a t b o) = inr tt
      /\ gp_calls (trace (ExportTrainingData.main fs a t b o))
         = flat_map (ExportTrainingData.image_calls fs a t b o) (ListRasters fs a)
      /\ (forall image,
            ExportTrainingData.skips fs t b image = false
            <-> In image (ListFeatureClasses fs t) /\ In image (ListFeatureClasses fs b))
      /\ (forall image,
            ExportTrainingData.image_calls fs a t b o image
            = if ExportTrainingData.skips fs t b image then []
              else [ExportTrainingData.export_training_data (OsPath.join a image) o
                      (OsPath.join t image) (OsPath.join b image)])
      /\ (exists st,
            outcome (for_each (ExportTrainingData.export_image a t b o
                                 (ListFeatureClasses fs t) (ListFeatureClasses fs b))
                       (ListRasters fs a)
                       {| ExportTrainingData.skipped_images := [];
                          ExportTrainingData.images_remaining :=
                            Z.of_nat (List.length (ListRasters fs a)) |}) = inr st
            /\ ExportTrainingData.skipped_images st
               = List.filter (ExportTrainingData.skips fs t b) (ListRasters fs a))
      /\ (forall image,
            In image (ListRasters fs a) ->
            ExportTrainingData.skips fs t b image = true ->
            exists remaining,
              In (AddWarning
                    (if py_in image (ListFeatureClasses fs t)
                     then ExportTrainingData.no_boundary_msg image remaining
                     else ExportTrainingData.no_training_msg image remaining))
                 (trace (ExportTrainingData.main fs a t b o))))
  /\ (forall fs a b c d,
        PrepareImages.ready fs a b c d ->
        ListRasters fs a <> [] ->
        outcome (PrepareImages.main fs a b c d) = inr tt
        /\ gp_calls (trace (PrepareImages.main fs a b c d))
           = flat_map (PrepareImages.image_calls fs a b c d) (ListRasters fs a)
        /\ (forall image,
              PrepareImages.image_calls fs a b c d image <> [] ->
              In (PrepareImages.get_file_name (OsPath.join a image))
                (ListFeatureClasses fs b))
        /\ (forall image,
              ~ In (PrepareImages.get_file_name (OsPath.join a image))
                  (ListFeatureClasses fs b) ->
              PrepareImages.skips fs a b image = true
              /\ PrepareImages.image_calls fs a b c d image = [])
        /\ (exists st,
              outcome (for_each (PrepareImages.prepare_image fs a b c d
                                   (ListFeatureClasses fs b))
                         (ListRasters fs a)
                         {| PrepareImages.skipped_images := [];
                            PrepareImages.images_remaining :=
                              Z.of_nat (List.length (ListRasters fs a)) |}) = inr st
              /\ PrepareImages.skipped_images st
                 = List.filter (PrepareImages.skips fs a b) (ListRasters fs a))
        /\ (forall image,
              In image (ListRasters fs a) ->
              ~ In (PrepareImages.get_file_name (OsPath.join a image))
                  (ListFeatureClasses fs b) ->
              exists remaining,
                In (AddWarning
                      (PrepareImages.no_boundary_msg
                         (PrepareImages.get_file_name (OsPath.join a image))
                         image remaining))
                   (trace (PrepareImages.main fs a b c d))))
  /\ (forall fs p r i o s,
        CalculateAccuracy.ready fs p r i o s ->
        ListFeatureClasses fs p <> [] ->
        outcome (CalculateAccuracy.main fs p r i o s) = inr tt
        /\ gp_calls (trace (CalculateAccuracy.main fs p r i o s))
           = flat_map (CalculateAccuracy.fclass_calls fs p r i s) (ListFeatureClasses fs p)
             ++ gp_calls (trace (for_each
                                   (CalculateAccuracy.export_class o s
                                      (ListFeatureClasses fs p))
                                   CalculateAccuracy.damage_classes tt))
        /\ (forall fclass_name,
              CalculateAccuracy.skips fs r i fclass_name = false
              <-> In fclass_name (ListFeatureClasses fs r)
                  /\ In fclass_name (ListRasters fs i))
        /\ (forall fclass_name,
              CalculateAccuracy.fclass_calls fs p r i s fclass_name <> []
              <-> CalculateAccuracy.skips fs r i fclass_name = false)
        /\ (exists st,
              outcome (for_each (CalculateAccuracy.evaluate_fclass fs p r i s
                                   (ListFeatureClasses fs r) (ListRasters fs i))
                         (ListFeatureClasses fs p)
                         {| CalculateAccuracy.skipped_fclasses := [];
                            CalculateAccuracy.fclasses_remaining :=
                              Z.of_nat (List.length (ListFeatureClasses fs p)) |}) = inr st
              /\ CalculateAccuracy.skipped_fclasses st
                 = List.filter (CalculateAccuracy.skips fs r i) (ListFeatureClasses fs p))
        /\ (forall fclass_name,
              In fclass_name (ListFeatureClasses fs p) ->
              CalculateAccuracy.skips fs r i fclass_name = true ->
              exists remaining,
                In (AddWarning
                      (if py_in fclass_name (ListFeatureClasses fs r)
                       then CalculateAccuracy.no_image_msg fclass_name remaining
                       else CalculateAccuracy.no_reference_msg fclass_name remaining))
                   (trace (CalculateAccuracy.main fs p r i o s)))).
Proof.
  split; [| split].
  - intros fs a t b o Hready Hne.
    destruct (export_main_calls _ _ _ _ _ Hready Hne) as [Hout Hcalls].
    destruct (export_main_run _ _ _ _ _ Hready Hne) as (st & Hst & Hsk & _).
    split; [exact Hout | split; [exact Hcalls | split; [| split; [| split]]]].
    + intros image. unfold ExportTrainingData.skips.
      rewrite orb_false_iff, !negb_false_iff, !py_in_In. reflexivity.
    + intros image.
      unfold ExportTrainingData.image_calls, ExportTrainingData.skips,
        ExportTrainingData.export_image.
      destruct (py_in image (ListFeatureClasses fs t)),
        (py_in image (ListFeatureClasses fs b)); reflexivity.
    + exists st; split; assumption.
    + intros image Hin Hskip. apply export_main_warns; assumption.
  - intros fs a b c d Hready Hne.
    destruct (prepare_main_calls _ _ _ _ _ Hready Hne) as [Hout Hcalls].
    destruct (prepare_main_run _ _ _ _ _ Hready Hne) as (st & Hst & Hsk & _).
    assert (Hno : forall image,
               py_in (PrepareImages.get_file_name (OsPath.join a image))
                 (ListFeatureClasses fs b) = false ->
               PrepareImages.skips fs a b image = true
               /\ PrepareImages.image_calls fs a b c d image = []).
    { intros image H.
      unfold PrepareImages.skips, PrepareImages.image_calls, PrepareImages.prepare_image.
      rewrite H. split; reflexivity. }
    split; [exact Hout | split; [exact Hcalls | split; [| split; [| split]]]].
    + intros image Hcall. apply py_in_In.
      destruct (py_in _ _) eqn:E; [reflexivity |].
      exfalso; apply Hcall; apply (Hno _ E).
    + intros image Hnot. apply Hno.
      destruct (py_in _ _) eqn:E; [| reflexivity].
      exfalso; apply Hnot; apply py_in_In; exact E.
    + exists st; split; assumption.
    + intros image Hin Hnot. apply prepare_main_warns; [assumption .. |].
      destruct (py_in _ _) eqn:E; [| reflexivity].
      exfalso; apply Hnot; apply py_in_In; exact E.
  - intros fs p r i o s Hready Hne.
    destruct (accuracy_main_calls _ _ _ _ _ _ Hready Hne) as [Hout Hcalls].
    destruct (accuracy_main_run _ _ _ _ _ _ Hready Hne) as (st & Hst & Hsk & _).
    split; [exact Hout | split; [exact Hcalls | split; [| split; [| split]]]].
    + intros f. unfold CalculateAccuracy.skips.
      rewrite orb_false_iff, !negb_false_iff, !py_in_In. reflexivity.
    + intros f.
      destruct (accuracy_fclass_calls_skip fs p r i s f) as [Hskip Hrun].
      destruct (CalculateAccuracy.skips fs r i f); split; intros H.
      * exfalso; apply H; apply Hskip; reflexivity.
      * discriminate.
      * reflexivity.
      * destruct (Hrun eq_refl) as [rest ->]. discriminate.
    + exists st; split; assumption.
    + intros f Hin Hskip. apply accuracy_main_warns; assumption.
Qed.

Lemma unmatched_items_are_skipped_witness :
  outcome (ExportTrainingData.main Samples.fs "/images.gdb" "/training.gdb"
             "/boundary.gdb" "/export") = inr tt
  /\ outcome (PrepareImages.main Samples.fs "/in" "/boundary.gdb" "/out.gdb"
                "/scratch.gdb") = inr tt
  /\ outcome (CalculateAccuracy.main Samples.fs "/predicted.gdb" "/reference.gdb"
                "/images.gdb" "/tables.gdb" "/scratch.gdb") = inr tt.
Proof.
  split; [| split].
  - apply (proj1 unmatched_items_are_skipped Samples.fs "/images.gdb" "/training.gdb"
             "/boundary.gdb" "/export").
    + split; repeat constructor.
    + discriminate.
  - apply (proj1 (proj2 unmatched_items_are_skipped) Samples.fs "/in" "/boundary.gdb"
             "/out.gdb" "/scratch.gdb").
    + split; repeat constructor.
    + discriminate.
  - apply (proj2 (proj2 unmatched_items_are_skipped) Samples.fs "/predicted.gdb"
             "/reference.gdb" "/images.gdb" "/tables.gdb" "/scratch.gdb").
    + split; repeat constructor.
    + discriminate.
Defined.

(** C7. At the end of each [main] that can skip items, the trace ends
    with the report of the skipped list, which is the list of the items the
    loop skipped, in the order of the loop.  The report is empty exactly
    when that list is empty; otherwise it is the header followed by the
    skipped items in that order, one line each (every line goes to the tool
    messages and to the console).  When the listing has no repeated name,
    no item is reported twice. *)
Theorem skipped_report_printed :
  (forall header skipped,
      (spec_report header skipped = [] <-> skipped = [])
      /\ (skipped <> [] ->
          spec_report header skipped
          = AddMessage header :: Print header
            :: flat_map (fun item => [AddMessage item; Print item]) skipped))
  /\ (forall fs a b c d,
        PrepareImages.ready fs a b c d ->
        ListRasters fs a <> [] ->
        PrepareImages.main fs a b c d
        = ([SetEnv "scratchWorkspace" d; SetEnv "workspace" a; SetEnv "workspace" b;
            SetProgressor 33]
           ++ trace (for_each
                       (PrepareImages.prepare_image fs a b c d (ListFeatureClasses fs b))
                       (ListRasters fs a)
                       {| PrepareImages.skipped_images := [];
                          PrepareImages.images_remaining :=
                            Z.of_nat (List.length (ListRasters fs a)) |})
           ++ [AddMessage (nl ++ "Exported prepared images to " ++ c);
               Print (nl ++ "Exported prepared images to " ++ c)]
           ++ spec_report (nl ++ "The following images were skipped:")
                (List.filter (PrepareImages.skips fs a b) (ListRasters fs a)),
           inr tt)
        /\ (List.NoDup (ListRasters fs a) ->
            List.NoDup (List.filter (PrepareImages.skips fs a b) (ListRasters fs a))))
  /\ (forall fs a t b o,
        ExportTrainingData.ready fs a t b o ->
        ListRasters fs a <> [] ->
        ExportTrainingData.main fs a t b o
        = ([SetEnv "workspace" a; SetEnv "workspace" t; SetEnv "workspace" b;
            SetProgressor (Z.quot 100 (Z.of_nat (List.length (ListRasters fs a))))]
           ++ trace (for_each (ExportTrainingData.export_image a t b o
                                 (ListFeatureClasses fs t) (ListFeatureClasses fs b))
                       (ListRasters fs a)
                       {| ExportTrainingData.skipped_images := [];
                          ExportTrainingData.images_remaining :=
                            Z.of_nat (List.length (ListRasters fs a)) |})
           ++ [AddMessage (nl ++ "Exported training data to " ++ o);
               Print (nl ++ "Exported training data to " ++ o)]
           ++ spec_report (nl ++ "The following images were skipped:")
                (List.filter (ExportTrainingData.skips fs t b) (ListRasters fs a)),
           inr tt)
        /\ (List.NoDup (ListRasters fs a) ->
            List.NoDup (List.filter (ExportTrainingData.skips fs t b) (ListRasters fs a))))
  /\ (forall fs p r i o s,
        CalculateAccuracy.ready fs p r i o s ->
        ListFeatureClasses fs p <> [] ->
        CalculateAccuracy.main fs p r i o s
        = ([SetEnv "scratchWorkspace" s; SetEnv "workspace" p; SetEnv "workspace" r;
            SetEnv "workspace" i;
            SetProgressor
              (Z.quot 100 (Z.of_nat (List.length (ListFeatureClasses fs p))))]
           ++ trace (for_each (CalculateAccuracy.evaluate_fclass fs p r i s
                                 (ListFeatureClasses fs r) (ListRasters fs i))
                       (ListFeatureClasses fs p)
                       {| CalculateAccuracy.skipped_fclasses := [];
                          CalculateAccuracy.fclasses_remaining :=
                            Z.of_nat (List.length (ListFeatureClasses fs p)) |})
           ++ [SetProgressorLabel "Exporting accuracy results tables";
               Print "Exporting accuracy results tables"]
           ++ trace (for_each
                       (CalculateAccuracy.export_class o s (ListFeatureClasses fs p))
                       CalculateAccuracy.damage_classes tt)
           ++ [AddMessage (nl ++ "Exported accuracy results tables to " ++ o);
               Print (nl ++ "Exported accuracy results tables to " ++ o)]
           ++ spec_report
                (nl ++ "The following predicted polygons feature classes were skipped:")
                (List.filter (CalculateAccuracy.skips fs r i) (ListFeatureClasses fs p)),
           inr tt)
        /\ (List.NoDup (ListFeatureClasses fs p) ->
            List.NoDup (List.filter (CalculateAccuracy.skips fs r i)
                     (ListFeatureClasses fs p)))).
Proof.
  split; [| split; [| split]].
  - intros header skipped; split; [split |].
    + destruct skipped; [reflexivity | discriminate].
    + intros ->; reflexivity.
    + destruct skipped; [congruence | reflexivity].
  - intros fs a b c d Hready Hne.
    destruct (prepare_main_run _ _ _ _ _ Hready Hne) as (st & Hst & Hsk & ->).
    rewrite Hsk. split; [reflexivity | apply List.NoDup_filter].
  - intros fs a t b o Hready Hne.
    destruct (export_main_run _ _ _ _ _ Hready Hne) as (st & Hst & Hsk & ->).
    rewrite Hsk. split; [reflexivity | apply List.NoDup_filter].
  - intros fs p r i o s Hready Hne.
    destruct (accuracy_main_run _ _ _ _ _ _ Hready Hne) as (st & Hst & Hsk & ->).
    rewrite Hsk. split; [reflexivity | apply List.NoDup_filter].
Qed.

Lemma skipped_report_printed_witness :
  List.filter (PrepareImages.skips Samples.fs "/in" "/boundary.gdb")
    (ListRasters Samples.fs "/in") = ["c.tif"; "d.tif"]
  /\ exists before,
      trace (PrepareImages.main Samples.fs "/in" "/boundary.gdb" "/out.gdb"
               "/scratch.gdb")
      = before
        ++ spec_report (nl ++ "The following images were skipped:") ["c.tif"; "d.tif"].
Proof.
  split; [reflexivity |].
  assert (Hready : PrepareImages.ready Samples.fs "/in" "/boundary.gdb" "/out.gdb"
                     "/scratch.gdb") by (split; repeat constructor).
  assert (Hne : ListRasters Samples.fs "/in" <> []) by discriminate.
  eexists.
  rewrite (proj1 (proj1 (proj2 skipped_report_printed) _ _ _ _ _ Hready Hne)).
  cbn [trace fst]. rewrite !app_assoc. reflexivity.
Defined.

(** ** Validation *)

Ltac pass_gdb H := rewrite (check_gdb_ok _ _ H).

Ltac gdb_cases p :=
  let E := fresh "E" in
  destruct (String.eqb_spec (get_workspace_extension p) ".gdb") as [E | E];
  [ pass_gdb E
  | rewrite (check_gdb_bad _ _ E); eexists; split; reflexivity ].

(** C6. In each of the four scripts, when the workspaces pass the checks
    (and, for delineate_roof_damage, the models do) and the listing of the
    items to iterate over is empty, [main] raises FileNotFoundError and the
    run has issued no engine call. *)
Theorem empty_listing_raises :
  (forall fs a b c d,
      PrepareImages.ready fs a b c d ->
      ListRasters fs a = [] ->
      outcome (PrepareImages.main fs a b c d)
      = inl (FileNotFoundError PrepareImages.no_images_msg)
      /\ gp_calls (trace (PrepareImages.main fs a b c d)) = [])
  /\ (forall fs a t b o,
        ExportTrainingData.ready fs a t b o ->
        ListRasters fs a = [] ->
        outcome (ExportTrainingData.main fs a t b o)
        = inl (FileNotFoundError
                 "The input images file geodatabase contains zero rasters.")
        /\ gp_calls (trace (ExportTrainingData.main fs a t b o)) = [])
  /\ (forall fs a m1 m2 m3 o s,
        DelineateRoofDamage.ready fs a m1 m2 m3 o s ->
        ListRasters fs a = [] ->
        outcome (DelineateRoofDamage.main fs a m1 m2 m3 o s)
        = inl (FileNotFoundError
                 "The input images file geodatabase contains zero rasters.")
        /\ gp_calls (trace (DelineateRoofDamage.main fs a m1 m2 m3 o s)) = [])
  /\ (forall fs p r i o s,
        CalculateAccuracy.ready fs p r i o s ->
        ListFeatureClasses fs p = [] ->
        outcome (CalculateAccuracy.main fs p r i o s)
        = inl (FileNotFoundError CalculateAccuracy.no_fclasses_msg)
        /\ gp_calls (trace (CalculateAccuracy.main fs p r i o s)) = []).
Proof.
  split; [| split; [| split]].
  - intros fs a b c d [Hex Hgdb] Hnil.
    unfold PrepareImages.main, PrepareImages.workspaces in *.
    rewrite (check_paths_exist_ok _ _ Hex).
    unfold PrepareImages.geodatabases in Hgdb.
    inversion Hgdb as [| ? ? H1 Hgdb1]; subst.
    inversion Hgdb1 as [| ? ? H2 Hgdb2]; subst.
    inversion Hgdb2 as [| ? ? H3 _]; subst.
    pass_gdb H1. pass_gdb H2. pass_gdb H3.
    rewrite Hnil. split; reflexivity.
  - intros fs a t b o [Hex Hgdb] Hnil.
    unfold ExportTrainingData.main, ExportTrainingData.workspaces in *.
    rewrite (check_paths_exist_ok _ _ Hex).
    unfold ExportTrainingData.geodatabases in Hgdb.
    inversion Hgdb as [| ? ? H1 Hgdb1]; subst.
    inversion Hgdb1 as [| ? ? H2 Hgdb2]; subst.
    inversion Hgdb2 as [| ? ? H3 _]; subst.
    pass_gdb H1. pass_gdb H2. pass_gdb H3.
    rewrite Hnil. split; reflexivity.
  - intros fs a m1 m2 m3 o s (Hex & (Hmodels & Hmex) & Hgdb) Hnil.
    unfold DelineateRoofDamage.main, DelineateRoofDamage.workspaces in *.
    rewrite (check_paths_exist_ok _ _ Hex).
    unfold DelineateRoofDamage.model_paths in Hmodels, Hmex.
    rewrite (length_eqb_0 _ Hmodels).
    rewrite (check_paths_exist_ok _ _ Hmex).
    unfold DelineateRoofDamage.geodatabases in Hgdb.
    inversion Hgdb as [| ? ? H1 Hgdb1]; subst.
    inversion Hgdb1 as [| ? ? H2 Hgdb2]; subst.
    inversion Hgdb2 as [| ? ? H3 _]; subst.
    pass_gdb H1. pass_gdb H2. pass_gdb H3.
    rewrite Hnil. split; reflexivity.
  - intros fs p r i o s [Hex Hgdb] Hnil.
    unfold CalculateAccuracy.main, CalculateAccuracy.workspaces in *.
    rewrite (check_paths_exist_ok _ _ Hex).
    unfold CalculateAccuracy.geodatabases, CalculateAccuracy.workspaces in Hgdb.
    inversion Hgdb as [| ? ? H1 Hgdb1]; subst.
    inversion Hgdb1 as [| ? ? H2 Hgdb2]; subst.
    inversion Hgdb2 as [| ? ? H3 Hgdb3]; subst.
    inversion Hgdb3 as [| ? ? H4 Hgdb4]; subst.
    inversion Hgdb4 as [| ? ? H5 _]; subst.
    pass_gdb H1. pass_gdb H2. pass_gdb H3. pass_gdb H4. pass_gdb H5.
    rewrite Hnil. split; reflexivity.
Qed.

Lemma empty_listing_raises_witness :
  outcome (PrepareImages.main Samples.fs "/empty" "/boundary.gdb" "/out.gdb"
             "/scratch.gdb")
  = inl (FileNotFoundError PrepareImages.no_images_msg)
  /\ outcome (ExportTrainingData.main Samples.fs "/empty.gdb" "/training.gdb"
                "/boundary.gdb" "/export")
     = inl (FileNotFoundError "The input images file geodatabase contains zero rasters.")
  /\ outcome (DelineateRoofDamage.main Samples.fs "/empty.gdb" "/models/decking.dlpk"
                "" "" "/out.gdb" "/scratch.gdb")
     = inl (FileNotFoundError "The input images file geodatabase contains zero rasters.")
  /\ outcome (CalculateAccuracy.main Samples.fs "/empty.gdb" "/reference.gdb"
                "/images.gdb" "/tables.gdb" "/scratch.gdb")
     = inl (FileNotFoundError CalculateAccuracy.no_fclasses_msg).
Proof.
  split; [| split; [| split]].
  - apply (proj1 empty_listing_raises Samples.fs "/empty" "/boundary.gdb" "/out.gdb"
             "/scratch.gdb").
    + split; repeat constructor.
    + reflexivity.
  - apply (proj1 (proj2 empty_listing_raises) Samples.fs "/empty.gdb" "/training.gdb"
             "/boundary.gdb" "/export").
    + split; repeat constructor.
    + reflexivity.
  - apply (proj1 (proj2 (proj2 empty_listing_raises)) Samples.fs "/empty.gdb"
             "/models/decking.dlpk" "" "" "/out.gdb" "/scratch.gdb").
    + split; [| split; [split |]]; try discriminate; repeat constructor.
    + reflexivity.
  - apply (proj2 (proj2 (proj2 empty_listing_raises)) Samples.fs "/empty.gdb"
             "/reference.gdb" "/images.gdb" "/tables.gdb" "/scratch.gdb").
    + split; repeat constructor.
    + reflexivity.
Defined.

(** C4 (as stated, at a concrete input). In delineate_roof_damage the model
    checks stand between the existence checks and the geodatabase checks:
    with every workspace there, an input images path that is no geodatabase
    and no model supplied, [main] raises FileNotFoundError, not
    ValueError. *)
Lemma delineate_models_checked_before_gdb :
  Forall (fun p => path_exists Samples.fs p = true)
    (DelineateRoofDamage.workspaces "/data/images" "/out.gdb" "/scratch.gdb")
  /\ Exists (fun p => get_workspace_extension p <> ".gdb")
       (DelineateRoofDamage.geodatabases "/data/images" "/out.gdb" "/scratch.gdb")
  /\ outcome (DelineateRoofDamage.main Samples.fs "/data/images" "" "" ""
                "/out.gdb" "/scratch.gdb")
     = inl (FileNotFoundError DelineateRoofDamage.no_models_msg)
  /\ ~ (exists msg,
          outcome (DelineateRoofDamage.main Samples.fs "/data/images" "" "" ""
                     "/out.gdb" "/scratch.gdb") = inl (ValueError msg)).
Proof.
  split; [repeat constructor | split; [| split]].
  - left. discriminate.
  - reflexivity.
  - intros [msg H]. discriminate H.
Qed.

(** C4 (amended). In every script, when a workspace path does not exist,
    [main] raises FileNotFoundError with no engine call issued, whatever the
    extensions of the paths are: the existence checks come first.  When all
    workspace paths exist and one that must be a file geodatabase has a
    basename extension other than .gdb, [main] raises ValueError with no
    engine call issued in prepare_images, export_training_data and
    calculate_accuracy; in delineate_roof_damage it does so provided at
    least one model path is supplied and every supplied model path
    exists. *)
Theorem workspace_validation :
  (forall fs a b c d,
      (Exists (fun p => path_exists fs p = false) (PrepareImages.workspaces a b c d) ->
       exists msg,
         outcome (PrepareImages.main fs a b c d) = inl (FileNotFoundError msg)
         /\ gp_calls (trace (PrepareImages.main fs a b c d)) = [])
      /\ (Forall (fun p => path_exists fs p = true) (PrepareImages.workspaces a b c d) ->
          Exists (fun p => get_workspace_extension p <> ".gdb")
            (PrepareImages.geodatabases b c d) ->
          exists msg,
            outcome (PrepareImages.main fs a b c d) = inl (ValueError msg)
            /\ gp_calls (trace (PrepareImages.main fs a b c d)) = []))
  /\ (forall fs a t b o,
        (Exists (fun p => path_exists fs p = false)
           (ExportTrainingData.workspaces a t b o) ->
         exists msg,
           outcome (ExportTrainingData.main fs a t b o) = inl (FileNotFoundError msg)
           /\ gp_calls (trace (ExportTrainingData.main fs a t b o)) = [])
        /\ (Forall (fun p => path_exists fs p = true)
              (ExportTrainingData.workspaces a t b o) ->
            Exists (fun p => get_workspace_extension p <> ".gdb")
              (ExportTrainingData.geodatabases a t b) ->
            exists msg,
              outcome (ExportTrainingData.main fs a t b o) = inl (ValueError msg)
              /\ gp_calls (trace (ExportTrainingData.main fs a t b o)) = []))
  /\ (forall fs a m1 m2 m3 o s,
        (Exists (fun p => path_exists fs p = false)
           (DelineateRoofDamage.workspaces a o s) ->
         exists msg,
           outcome (DelineateRoofDamage.main fs a m1 m2 m3 o s)
           = inl (FileNotFoundError msg)
           /\ gp_calls (trace (DelineateRoofDamage.main fs a m1 m2 m3 o s)) = [])
        /\ (Forall (fun p => path_exists fs p = true)
              (DelineateRoofDamage.workspaces a o s) ->
            DelineateRoofDamage.models_ready fs m1 m2 m3 ->
            Exists (fun p => get_workspace_extension p <> ".gdb")
              (DelineateRoofDamage.geodatabases a o s) ->
            exists msg,
              outcome (DelineateRoofDamage.main fs a m1 m2 m3 o s) = inl (ValueError msg)
              /\ gp_calls (trace (DelineateRoofDamage.main fs a m1 m2 m3 o s)) = []))
  /\ (forall fs p r i o s,
        (Exists (fun q => path_exists fs q = false)
           (CalculateAccuracy.workspaces p r i o s) ->
         exists msg,
           outcome (CalculateAccuracy.main fs p r i o s) = inl (FileNotFoundError msg)
           /\ gp_calls (trace (CalculateAccuracy.main fs p r i o s)) = [])
        /\ (Forall (fun q => path_exists fs q = true)
              (CalculateAccuracy.workspaces p r i o s) ->
            Exists (fun q => get_workspace_extension q <> ".gdb")
              (CalculateAccuracy.geodatabases p r i o s) ->
            exists msg,
              outcome (CalculateAccuracy.main fs p r i o s) = inl (ValueError msg)
              /\ gp_calls (trace (CalculateAccuracy.main fs p r i o s)) = [])).
Proof.
  split; [| split; [| split]].
  - intros fs a b c d; split.
    + intros Hmiss.
      destruct (check_paths_exist_missing _ _ Hmiss) as (q & _ & _ & E).
      unfold PrepareImages.main, PrepareImages.workspaces in *.
      rewrite E. eexists; split; reflexivity.
    + intros Hex Hbad.
      unfold PrepareImages.main, PrepareImages.workspaces, PrepareImages.geodatabases in *.
      rewrite (check_paths_exist_ok _ _ Hex).
      gdb_cases b. gdb_cases c. gdb_cases d.
      exfalso. repeat (apply Exists_cons in Hbad; destruct Hbad as [Hbad | Hbad];
                       [congruence |]).
      inversion Hbad.
  - intros fs a t b o; split.
    + intros Hmiss.
      destruct (check_paths_exist_missing _ _ Hmiss) as (q & _ & _ & E).
      unfold ExportTrainingData.main, ExportTrainingData.workspaces in *.
      rewrite E. eexists; split; reflexivity.
    + intros Hex Hbad.
      unfold ExportTrainingData.main, ExportTrainingData.workspaces,
        ExportTrainingData.geodatabases in *.
      rewrite (check_paths_exist_ok _ _ Hex).
      gdb_cases a. gdb_cases t. gdb_cases b.
      exfalso. repeat (apply Exists_cons in Hbad; destruct Hbad as [Hbad | Hbad];
                       [congruence |]).
      inversion Hbad.
  - intros fs a m1 m2 m3 o s; split.
    + intros Hmiss.
      destruct (check_paths_exist_missing _ _ Hmiss) as (q & _ & _ & E).
      unfold DelineateRoofDamage.main, DelineateRoofDamage.workspaces in *.
      rewrite E. eexists; split; reflexivity.
    + intros Hex [Hmodels Hmex] Hbad.
      unfold DelineateRoofDamage.main, DelineateRoofDamage.workspaces,
        DelineateRoofDamage.geodatabases, DelineateRoofDamage.model_paths in *.
      rewrite (check_paths_exist_ok _ _ Hex).
      rewrite (length_eqb_0 _ Hmodels).
      rewrite (check_paths_exist_ok _ _ Hmex).
      gdb_cases a. gdb_cases o. gdb_cases s.
      exfalso. repeat (apply Exists_cons in Hbad; destruct Hbad as [Hbad | Hbad];
                       [congruence |]).
      inversion Hbad.
  - intros fs p r i o s; split.
    + intros Hmiss.
      destruct (check_paths_exist_missing _ _ Hmiss) as (q & _ & _ & E).
      unfold CalculateAccuracy.main, CalculateAccuracy.workspaces in *.
      rewrite E. eexists; split; reflexivity.
    + intros Hex Hbad.
      unfold CalculateAccuracy.main, CalculateAccuracy.geodatabases,
        CalculateAccuracy.workspaces in *.
      rewrite (check_paths_exist_ok _ _ Hex).
      gdb_cases p. gdb_cases r. gdb_cases i. gdb_cases o. gdb_cases s.
      exfalso. repeat (apply Exists_cons in Hbad; destruct Hbad as [Hbad | Hbad];
                       [congruence |]).
      inversion Hbad.
Qed.

Lemma workspace_validation_witness :
  (exists msg,
      outcome (PrepareImages.main Samples.fs "/in" "/missing" "/out.gdb" "/scratch")
      = inl (FileNotFoundError msg)
      /\ gp_calls (trace (PrepareImages.main Samples.fs "/in" "/missing" "/out.gdb"
                            "/scratch")) = [])
  /\ (exists msg,
        outcome (DelineateRoofDamage.main Samples.fs "/data/images"
                   "/models/decking.dlpk" "" "" "/out.gdb" "/scratch.gdb")
        = inl (ValueError msg)
        /\ gp_calls (trace (DelineateRoofDamage.main Samples.fs "/data/images"
                              "/models/decking.dlpk" "" "" "/out.gdb" "/scratch.gdb"))
           = []).
Proof.
  split.
  - apply (proj1 (proj1 workspace_validation Samples.fs "/in" "/missing" "/out.gdb"
                    "/scratch")).
    right; left; reflexivity.
  - apply (proj2 (proj1 (proj2 (proj2 workspace_validation)) Samples.fs "/data/images"
                    "/models/decking.dlpk" "" "" "/out.gdb" "/scratch.gdb")).
    + repeat constructor.
    + split; [discriminate | repeat constructor].
    + left; discriminate.
Defined.

(** ** calculate_accuracy: the merge *)

(** Whatever was skipped, the second loop lists one accuracy table per
    predicted feature class of the listing and per damage class. *)
Lemma accuracy_merge_inputs_all o s (fclasses : list string) :
  CalculateAccuracy.merge_inputs
    (gp_calls (trace (for_each (CalculateAccuracy.export_class o s fclasses)
                        CalculateAccuracy.damage_classes tt)))
  = map (fun damage_class =>
           map (fun fclass_name => CalculateAccuracy.accuracy_table s damage_class fclass_name)
             fclasses)
      CalculateAccuracy.damage_classes.
Proof. reflexivity. Qed.

(** C1 (the code at a failing input). With predicted feature classes a, b
    and d, reference feature classes a and d and prepared images a, b and
    c, the run returns, b and d are skipped and only the accuracy tables of
    a are written; yet each Merge call is handed the tables of a, b and
    d. *)
Theorem accuracy_merge_lists_skipped_tables :
  let run := CalculateAccuracy.main Samples.fs "/predicted.gdb" "/reference.gdb"
               "/images.gdb" "/tables.gdb" "/scratch.gdb" in
  outcome run = inr tt
  /\ List.filter (CalculateAccuracy.skips Samples.fs "/reference.gdb" "/images.gdb")
       (ListFeatureClasses Samples.fs "/predicted.gdb") = ["b"; "d"]
  /\ CalculateAccuracy.pivot_outputs (gp_calls (trace run))
     = ["/scratch.gdb/accuracy_Decking_a"; "/scratch.gdb/accuracy_Hole_a"]
  /\ CalculateAccuracy.merge_inputs (gp_calls (trace run))
     = [["/scratch.gdb/accuracy_Decking_a"; "/scratch.gdb/accuracy_Decking_b";
         "/scratch.gdb/accuracy_Decking_d"];
        ["/scratch.gdb/accuracy_Hole_a"; "/scratch.gdb/accuracy_Hole_b";
         "/scratch.gdb/accuracy_Hole_d"]].
Proof. vm_compute. repeat split. Qed.

(** ** [os.path]: splitting a path *)

Lemma append_cons (c : ascii) (s t : string) :
  (String c s ++ t)%string = String c (s ++ t)%string.
Proof. reflexivity. Qed.

Lemma append_empty_r (s : string) : (s ++ "")%string = s.
Proof.
  induction s as [| c s IH]; [reflexivity |].
  rewrite append_cons, IH. reflexivity.
Qed.

Lemma substring_all (s : string) : substring 0 (String.length s) s = s.
Proof. induction s as [| c s IH]; [reflexivity | simpl; f_equal; exact IH]. Qed.

Lemma substring_split (n : nat) (s : string) :
  (substring 0 n s ++ substring n (String.length s - n) s)%string = s.
Proof.
  revert s; induction n as [| n IH]; intros s.
  - rewrite Nat.sub_0_r, substring_all. destruct s; reflexivity.
  - destruct s as [| c s]; [reflexivity |].
    cbn [substring String.length Nat.sub]. rewrite append_cons, IH. reflexivity.
Qed.

Lemma slice_split (s : string) (i : Z) :
  (OsPath.slice_to s i ++ OsPath.slice_from s i)%string = s.
Proof. apply substring_split. Qed.

Lemma splitext_scan_split (p : string) (n : nat) (filenameIndex dotIndex : Z) :
  (fst (OsPath.splitext_scan p n filenameIndex dotIndex)
   ++ snd (OsPath.splitext_scan p n filenameIndex dotIndex))%string = p.
Proof.
  revert filenameIndex; induction n as [| n IH]; intros filenameIndex;
    cbn [OsPath.splitext_scan].
  - apply append_empty_r.
  - destruct (negb _); [apply slice_split | apply IH].
Qed.

Lemma splitext_split (p : string) :
  (fst (OsPath.splitext p) ++ snd (OsPath.splitext p))%string = p.
Proof.
  unfold OsPath.splitext.
  destruct (_ >? _); [apply splitext_scan_split | apply append_empty_r].
Qed.

Lemma file_name_and_extension_split (path : string) :
  (PrepareImages.get_file_name path ++ get_workspace_extension path)%string
  = OsPath.basename path.
Proof. apply splitext_split. Qed.

(** X1. The name of a file without its extension, followed by the
    extension, is the basename of the path: nothing of the basename is lost
    or repeated by the two helpers. *)
Theorem file_name_and_extension (path : string) :
  (PrepareImages.get_file_name path ++ get_workspace_extension path)%string
  = OsPath.basename path.
Proof. apply splitext_split. Qed.

Lemma append_assoc_s (a b c : string) :
  ((a ++ b) ++ c)%string = (a ++ (b ++ c))%string.
Proof.
  induction a as [| x a IH]; [reflexivity |].
  rewrite !append_cons, IH. reflexivity.
Qed.

Lemma length_append_s (a b : string) :
  String.length (a ++ b) = (String.length a + String.length b)%nat.
Proof.
  induction a as [| x a IH]; [reflexivity |].
  rewrite append_cons. cbn [String.length]. rewrite IH. reflexivity.
Qed.

Lemma substring_app_r (x b : string) :
  substring (String.length x) (String.length (x ++ b) - String.length x) (x ++ b) = b.
Proof.
  induction x as [| c x IH].
  - change ("" ++ b)%string with b. cbn [String.length]. rewrite Nat.sub_0_r.
    apply substring_all.
  - rewrite append_cons. cbn [String.length substring Nat.sub]. exact IH.
Qed.

Lemma substring_app_l (x b : string) :
  substring 0 (String.length x) (x ++ b) = x.
Proof.
  induction x as [| c x IH].
  - change ("" ++ b)%string with b. destruct b; reflexivity.
  - rewrite append_cons. cbn [String.length substring]. rewrite IH. reflexivity.
Qed.

Lemma contains_char_app (c : ascii) (a b : string) :
  contains_char c (a ++ b) = (contains_char c a || contains_char c b)%bool.
Proof.
  induction a as [| x a IH]; [reflexivity |].
  rewrite append_cons. cbn [contains_char]. rewrite IH, orb_assoc. reflexivity.
Qed.

Lemma rfind_from_app (c : ascii) (x b : string) (i acc : Z) :
  OsPath.rfind_from c (x ++ b) i acc
  = OsPath.rfind_from c b (i + Z.of_nat (String.length x)) (OsPath.rfind_from c x i acc).
Proof.
  revert i acc; induction x as [| a x IH]; intros i acc.
  - change ("" ++ b)%string with b. cbn [String.length OsPath.rfind_from].
    rewrite Z.add_0_r. reflexivity.
  - rewrite append_cons. cbn [OsPath.rfind_from String.length]. rewrite IH.
    f_equal. lia.
Qed.

Lemma rfind_from_absent (c : ascii) (b : string) (i acc : Z) :
  contains_char c b = false -> OsPath.rfind_from c b i acc = acc.
Proof.
  revert i; induction b as [| a b IH]; intros i H; [reflexivity |].
  cbn [contains_char] in H. apply orb_false_elim in H; destruct H as [Ha Hb].
  cbn [OsPath.rfind_from]. rewrite Ha. apply IH; exact Hb.
Qed.

Lemma endswith_sep_split (a : string) :
  OsPath.endswith_sep a = true -> exists y, a = (y ++ "/")%string.
Proof.
  induction a as [| c a IH]; [discriminate |].
  destruct a as [| d a].
  - cbn. intros H. apply Ascii.eqb_eq in H. subst c. exists ""%string. reflexivity.
  - intros H. change (OsPath.endswith_sep (String d a) = true) in H.
    destruct (IH H) as [y Hy]. exists (String c y). rewrite append_cons, <- Hy.
    reflexivity.
Qed.

(** The separator found last in a prefix that is empty or ends with one. *)
Lemma rfind_sep_prefix (x : string) :
  x = ""%string \/ OsPath.endswith_sep x = true ->
  OsPath.rfind_from OsPath.sep x 0 (-1) + 1 = Z.of_nat (String.length x).
Proof.
  intros [-> | H]; [reflexivity |].
  destruct (endswith_sep_split _ H) as [y ->].
  rewrite rfind_from_app, length_append_s. cbn. lia.
Qed.

Lemma basename_app (x b : string) :
  x = ""%string \/ OsPath.endswith_sep x = true ->
  contains_char OsPath.sep b = false ->
  OsPath.basename (x ++ b) = b.
Proof.
  intros Hx Hb. unfold OsPath.basename, OsPath.rfind, OsPath.slice_from.
  rewrite rfind_from_app, (rfind_from_absent _ _ _ _ Hb), (rfind_sep_prefix _ Hx).
  rewrite Nat2Z.id. apply substring_app_r.
Qed.

Lemma endswith_sep_app (a : string) : OsPath.endswith_sep (a ++ "/") = true.
Proof.
  induction a as [| c a IH]; [reflexivity |].
  rewrite append_cons. destruct a as [| d a]; [reflexivity |].
  rewrite append_cons in *. exact IH.
Qed.

Lemma startswith_sep_absent (b : string) :
  contains_char OsPath.sep b = false -> OsPath.startswith_sep b = false.
Proof.
  destruct b as [| c b]; [reflexivity |].
  cbn [contains_char OsPath.startswith_sep]. intros H.
  apply orb_false_elim in H. apply H.
Qed.

Lemma basename_join (a b : string) :
  contains_char OsPath.sep b = false -> OsPath.basename (OsPath.join a b) = b.
Proof.
  intros Hb. unfold OsPath.join. rewrite (startswith_sep_absent _ Hb).
  destruct (String.eqb_spec a "") as [-> | Ha]; cbn [orb].
  - apply basename_app; [left; reflexivity | exact Hb].
  - destruct (OsPath.endswith_sep a) eqn:E.
    + apply basename_app; [right; exact E | exact Hb].
    + rewrite <- append_assoc_s.
      apply basename_app; [right; apply endswith_sep_app | exact Hb].
Qed.

(** X3. The name under which [prepare_images] looks an image up among the
    boundary feature classes, and under which it exports it, depends on the
    file name alone: for a file name without a path separator it is the
    file name without its extension, whatever the folder is. *)
Theorem image_name_ignores_folder (folder image : string) :
  contains_char OsPath.sep image = false ->
  PrepareImages.get_file_name (OsPath.join folder image)
  = fst (OsPath.splitext image).
Proof.
  intros H. unfold PrepareImages.get_file_name.
  rewrite (basename_join _ _ H). reflexivity.
Qed.

Lemma image_name_ignores_folder_witness :
  PrepareImages.get_file_name (OsPath.join "/storm/2024/flight 3" "roof.v2.tif")
  = fst (OsPath.splitext "roof.v2.tif").
Proof. apply image_name_ignores_folder. reflexivity. Defined.

Lemma rfind_dot_gdb (stem : string) :
  OsPath.rfind OsPath.extsep (stem ++ ".gdb") = Z.of_nat (String.length stem).
Proof.
  unfold OsPath.rfind. rewrite rfind_from_app. cbn. lia.
Qed.

Lemma splitext_gdb (c : ascii) (stem : string) :
  c <> "."%char ->
  contains_char OsPath.sep (String c stem) = false ->
  OsPath.splitext (String c stem ++ ".gdb") = (String c stem, ".gdb"%string).
Proof.
  intros Hc Hsep. unfold OsPath.splitext.
  rewrite rfind_dot_gdb.
  assert (Hs : OsPath.rfind OsPath.sep (String c stem ++ ".gdb") = -1).
  { unfold OsPath.rfind. apply rfind_from_absent.
    rewrite contains_char_app, Hsep. reflexivity. }
  rewrite Hs.
  replace (Z.of_nat (String.length (String c stem)) >? -1) with true
    by (symmetry; apply Z.gtb_lt; lia).
  replace (Z.to_nat (Z.of_nat (String.length (String c stem)) - (-1 + 1)))
    with (S (String.length stem)) by (cbn [String.length]; lia).
  cbn [OsPath.splitext_scan].
  replace (String.eqb (substring (Z.to_nat (-1 + 1)) 1 (String c stem ++ ".gdb")) ".")
    with false.
  - cbn [negb]. unfold OsPath.slice_to, OsPath.slice_from.
    rewrite Nat2Z.id, substring_app_l, substring_app_r. reflexivity.
  - symmetry. rewrite append_cons. cbn [Z.to_nat Z.add substring].
    replace (substring 0 0 (stem ++ ".gdb")) with ""%string
      by (destruct (stem ++ ".gdb")%string; reflexivity).
    apply String.eqb_neq. intros H. inversion H. contradiction.
Qed.

(** X2. What the geodatabase check accepts.  A path whose extension is
    [.gdb] has a basename made of a non-empty name followed by [.gdb]: a
    folder named [.gdb] alone is refused.  Conversely a path made of a
    prefix that is empty or ends with a separator, a name without separator
    that does not start with a dot, and [.gdb], is accepted. *)
Theorem gdb_extension_accepts :
  (forall path,
      get_workspace_extension path = ".gdb"%string ->
      OsPath.basename path = (PrepareImages.get_file_name path ++ ".gdb")%string
      /\ PrepareImages.get_file_name path <> ""%string)
  /\ (forall prefix c stem,
        prefix = ""%string \/ OsPath.endswith_sep prefix = true ->
        c <> "."%char ->
        contains_char OsPath.sep (String c stem) = false ->
        get_workspace_extension (prefix ++ (String c stem ++ ".gdb")) = ".gdb"%string).
Proof.
  split.
  - intros path H.
    pose proof (file_name_and_extension_split path) as E. rewrite H in E.
    split; [symmetry; exact E |].
    intros Hempty. rewrite Hempty in E. change ("" ++ ".gdb")%string with ".gdb"%string in E.
    unfold get_workspace_extension in H. rewrite <- E in H. discriminate H.
  - intros prefix c stem Hp Hc Hsep.
    unfold get_workspace_extension.
    rewrite basename_app.
    + rewrite (splitext_gdb _ _ Hc Hsep). reflexivity.
    + exact Hp.
    + rewrite contains_char_app, Hsep. reflexivity.
Qed.

Lemma gdb_extension_accepts_witness :
  get_workspace_extension ("/data/storm/" ++ ("scratch.v2" ++ ".gdb")) = ".gdb"%string
  /\ PrepareImages.get_file_name "/data/storm/scratch.v2.gdb" <> ""%string.
Proof.
  split.
  - apply (proj2 gdb_extension_accepts "/data/storm/"%string "s"%char "cratch.v2"%string).
    + right; reflexivity.
    + discriminate.
    + reflexivity.
  - apply (proj1 gdb_extension_accepts "/data/storm/scratch.v2.gdb"%string).
    reflexivity.
Defined.

(** ** delineate_roof_damage: the models *)

Lemma collect_model_paths_filter (paths acc : list string) :
  DelineateRoofDamage.collect_model_paths paths acc
  = acc ++ List.filter (fun path => negb (String.eqb path "")) paths.
Proof.
  revert acc; induction paths as [| path rest IH]; intros acc;
    cbn [DelineateRoofDamage.collect_model_paths List.filter].
  - rewrite app_nil_r. reflexivity.
  - destruct (String.eqb path ""); cbn [negb]; rewrite IH; [reflexivity |].
    rewrite <- app_assoc. reflexivity.
Qed.

(** X5. The models of [delineate_roof_damage.main].  The paths it checks
    for existence are the model parameters that are not the empty string,
    in the order decking, hole, dual, and they are the models of the
    dictionary the loop runs over: no model is used unchecked.  With all
    workspaces there, [main] raises FileNotFoundError with the
    zero-models message when the three parameters are empty, and with the
    message of a supplied model path that does not exist when there is
    one; in both cases before the geodatabase checks and with no engine
    call. *)
Theorem delineate_model_validation fs a m1 m2 m3 o s :
  DelineateRoofDamage.model_paths m1 m2 m3
  = List.filter (fun path => negb (String.eqb path "")) [m1; m2; m3]
  /\ map snd (DelineateRoofDamage.model_dictionary m1 m2 m3)
     = DelineateRoofDamage.model_paths m1 m2 m3
  /\ (Forall (fun p => path_exists fs p = true) (DelineateRoofDamage.workspaces a o s) ->
      (m1 = ""%string /\ m2 = ""%string /\ m3 = ""%string ->
       DelineateRoofDamage.main fs a m1 m2 m3 o s
       = ([AddError DelineateRoofDamage.no_models_msg],
          inl (FileNotFoundError DelineateRoofDamage.no_models_msg)))
      /\ (Exists (fun p => path_exists fs p = false)
            (DelineateRoofDamage.model_paths m1 m2 m3) ->
          exists p,
            In p [m1; m2; m3] /\ p <> ""%string /\ path_exists fs p = false
            /\ DelineateRoofDamage.main fs a m1 m2 m3 o s
               = ([AddError (p ++ " does not exist.")],
                  inl (FileNotFoundError (p ++ " does not exist."))))).
Proof.
  assert (Hpaths : DelineateRoofDamage.model_paths m1 m2 m3
                   = List.filter (fun path => negb (String.eqb path "")) [m1; m2; m3]).
  { unfold DelineateRoofDamage.model_paths. rewrite collect_model_paths_filter.
    reflexivity. }
  split; [exact Hpaths | split].
  - rewrite Hpaths. unfold DelineateRoofDamage.model_dictionary.
    cbn [List.filter].
    destruct (String.eqb m1 ""), (String.eqb m2 ""), (String.eqb m3 ""); reflexivity.
  - intros Hex. split.
    + intros (-> & -> & ->).
      unfold DelineateRoofDamage.main, DelineateRoofDamage.workspaces in *.
      rewrite (check_paths_exist_ok _ _ Hex). reflexivity.
    + intros Hmiss.
      assert (Hne : DelineateRoofDamage.model_paths m1 m2 m3 <> [])
        by (intros E; rewrite E in Hmiss; inversion Hmiss).
      destruct (check_paths_exist_missing _ _ Hmiss) as (p & Hin & Hp & E).
      exists p. rewrite Hpaths in Hin. apply List.filter_In in Hin.
      destruct Hin as [Hin Hnon].
      split; [exact Hin | split; [| split; [exact Hp |]]].
      * apply negb_true_iff in Hnon. apply String.eqb_neq. exact Hnon.
      * unfold DelineateRoofDamage.main, DelineateRoofDamage.workspaces,
          DelineateRoofDamage.model_paths in *.
        rewrite (check_paths_exist_ok _ _ Hex), (length_eqb_0 _ Hne), E.
        reflexivity.
Qed.

Lemma delineate_model_validation_witness :
  exists p,
    In p ["/models/decking.dlpk"; ""; "/missing"]%string
    /\ p <> ""%string /\ path_exists Samples.fs p = false
    /\ DelineateRoofDamage.main Samples.fs "/images.gdb" "/models/decking.dlpk" ""
         "/missing" "/out.gdb" "/scratch.gdb"
       = ([AddError (p ++ " does not exist.")],
          inl (FileNotFoundError (p ++ " does not exist."))).
Proof.
  apply (proj2 (proj2 (proj2 (delineate_model_validation Samples.fs "/images.gdb"
                                "/models/decking.dlpk" "" "/missing" "/out.gdb"
                                "/scratch.gdb"))
                  ltac:(repeat constructor))).
  right; left; reflexivity.
Defined.

(** ** Counting in loops *)

Lemma count_app (p : event -> bool) (t1 t2 : list event) :
  count p (t1 ++ t2) = (count p t1 + count p t2)%nat.
Proof. unfold count. rewrite List.filter_app, List.length_app. reflexivity. Qed.

Lemma count_spec_report (p : event -> bool) (header : string) (skipped : list string) :
  (forall msg, p (AddMessage msg) = false) -> (forall msg, p (Print msg) = false) ->
  count p (spec_report header skipped) = 0%nat.
Proof.
  intros Hm Hp. unfold spec_report. destruct skipped as [| x l]; [reflexivity |].
  unfold count. cbn [app List.filter]. rewrite Hm, Hp.
  generalize (x :: l); intros items.
  induction items as [| y items IH]; [reflexivity |].
  cbn [flat_map app List.filter]. rewrite Hm, Hp. exact IH.
Qed.

Lemma list_sum_cons (a : nat) (l : list nat) :
  list_sum (a :: l) = (a + list_sum l)%nat.
Proof. reflexivity. Qed.

Section Counting.
Context {A S : Type} (body : A -> S -> M S).
Hypothesis body_returns : forall x s, exists s', outcome (body x s) = inr s'.

Lemma for_each_count (p : event -> bool) (f : A -> nat) :
  (forall x s, count p (trace (body x s)) = f x) ->
  forall l s, count p (trace (for_each body l s)) = list_sum (map f l).
Proof.
  intros Hf l; induction l as [| x l IH]; intros s; [reflexivity |].
  destruct (body_returns x s) as [s1 H1].
  rewrite (for_each_cons _ _ _ _ _ H1). cbn [trace fst map].
  rewrite list_sum_cons, count_app, Hf, IH. reflexivity.
Qed.

Lemma for_each_decrements (proj : S -> Z) :
  (forall x s s', outcome (body x s) = inr s' -> proj s' = proj s - 1) ->
  forall l s s', outcome (for_each body l s) = inr s' ->
                 proj s' = proj s - Z.of_nat (List.length l).
Proof.
  intros Hf l; induction l as [| x l IH]; intros s s' H.
  - cbn in H. inversion H; subst. cbn. lia.
  - destruct (body_returns x s) as [s1 H1].
    rewrite (for_each_cons _ _ _ _ _ H1) in H. cbn [outcome snd] in H.
    rewrite (IH _ _ H), (Hf _ _ _ H1). cbn [List.length]. lia.
Qed.

End Counting.

Lemma list_sum_ones {X} (l : list X) : list_sum (map (fun _ => 1%nat) l) = List.length l.
Proof.
  induction l as [| x l IH]; [reflexivity |].
  cbn [map List.length]. rewrite list_sum_cons, IH. reflexivity.
Qed.

Lemma list_sum_indicator {X} (p : X -> bool) (l : list X) :
  list_sum (map (fun x => if p x then 1%nat else 0%nat) l) = List.length (List.filter p l).
Proof.
  induction l as [| x l IH]; [reflexivity |].
  cbn [map List.filter]. rewrite list_sum_cons, IH.
  destruct (p x); reflexivity.
Qed.

(** X6. Every iteration of the four loops, whether it skips its item or
    processes it, lowers the counter of remaining items by one: from any
    state the loop ends with the counter lowered by the number of items,
    so a run of [main], which starts it at the length of the listing, ends
    its loop at zero. *)
Theorem remaining_counter_reaches_zero :
  (forall fs a b c d items st st',
      outcome (for_each (PrepareImages.prepare_image fs a b c d (ListFeatureClasses fs b))
                 items st) = inr st' ->
      PrepareImages.images_remaining st'
      = PrepareImages.images_remaining st - Z.of_nat (List.length items))
  /\ (forall fs a t b o items st st',
        outcome (for_each (ExportTrainingData.export_image a t b o
                             (ListFeatureClasses fs t) (ListFeatureClasses fs b))
                   items st) = inr st' ->
        ExportTrainingData.images_remaining st'
        = ExportTrainingData.images_remaining st - Z.of_nat (List.length items))
  /\ (forall a o s d items n n',
        outcome (for_each (DelineateRoofDamage.delineate_image a o s d) items n) = inr n' ->
        n' = n - Z.of_nat (List.length items))
  /\ (forall fs p r i s items st st',
        outcome (for_each (CalculateAccuracy.evaluate_fclass fs p r i s
                             (ListFeatureClasses fs r) (ListRasters fs i))
                   items st) = inr st' ->
        CalculateAccuracy.fclasses_remaining st'
        = CalculateAccuracy.fclasses_remaining st - Z.of_nat (List.length items)).
Proof.
  split; [| split; [| split]].
  - intros fs a b c d.
    apply (for_each_decrements _ (prepare_image_returns fs a b c d _)
             PrepareImages.images_remaining).
    intros image st st'. unfold PrepareImages.prepare_image.
    split_ifs; cbn; intros H; inversion H; reflexivity.
  - intros fs a t b o.
    apply (for_each_decrements _ (export_image_returns a t b o _ _)
             ExportTrainingData.images_remaining).
    intros image st st'. unfold ExportTrainingData.export_image.
    split_ifs; cbn; intros H; inversion H; reflexivity.
  - intros a o s d.
    apply (for_each_decrements _ (delineate_image_returns a o s d) (fun n => n)).
    intros image n n' H. rewrite (proj1 (delineate_image_run a o s d image n)) in H.
    inversion H; reflexivity.
  - intros fs p r i s.
    apply (for_each_decrements _ (evaluate_fclass_returns fs p r i s _ _)
             CalculateAccuracy.fclasses_remaining).
    intros f st st'. unfold CalculateAccuracy.evaluate_fclass.
    destruct (negb (py_in f _)); [cbn; intros H; inversion H; reflexivity |].
    destruct (negb (py_in f _)); [cbn; intros H; inversion H; reflexivity |].
    pass_classes. cbn. intros H; inversion H; reflexivity.
Qed.

Lemma remaining_counter_reaches_zero_witness :
  PrepareImages.images_remaining
    {| PrepareImages.skipped_images := ["c.tif"; "d.tif"];
       PrepareImages.images_remaining := 0 |}
  = 5 - Z.of_nat (List.length (ListRasters Samples.fs "/in")).
Proof.
  apply (proj1 remaining_counter_reaches_zero Samples.fs "/in" "/boundary.gdb"
           "/out.gdb" "/scratch.gdb" (ListRasters Samples.fs "/in")
           {| PrepareImages.skipped_images := [];
              PrepareImages.images_remaining := 5 |}).
  reflexivity.
Defined.

Lemma evaluate_class_no_step fs i s fclass_name damage_class u :
  count is_progress_step
    (trace (CalculateAccuracy.evaluate_class fs i s fclass_name damage_class u)) = 0%nat
  /\ count is_warning
       (trace (CalculateAccuracy.evaluate_class fs i s fclass_name damage_class u)) = 0%nat.
Proof.
  unfold CalculateAccuracy.evaluate_class, CalculateAccuracy.verify_accuracy_category_fields.
  cbn [for_each]. split_ifs; split; reflexivity.
Qed.

Lemma evaluate_classes_no_step fs i s fclass_name :
  count is_progress_step
    (trace (for_each (CalculateAccuracy.evaluate_class fs i s fclass_name)
              CalculateAccuracy.damage_classes tt)) = 0%nat
  /\ count is_warning
       (trace (for_each (CalculateAccuracy.evaluate_class fs i s fclass_name)
                 CalculateAccuracy.damage_classes tt)) = 0%nat.
Proof.
  split.
  - rewrite (for_each_count _
               (fun x u => ex_intro _ tt (evaluate_class_returns fs i s fclass_name x u))
               is_progress_step (fun _ => 0%nat)); [reflexivity |].
    intros x u. apply evaluate_class_no_step.
  - rewrite (for_each_count _
               (fun x u => ex_intro _ tt (evaluate_class_returns fs i s fclass_name x u))
               is_warning (fun _ => 0%nat)); [reflexivity |].
    intros x u. apply evaluate_class_no_step.
Qed.

Lemma evaluate_fclass_steps fs p r i s fclass_name st :
  count is_progress_step
    (trace (CalculateAccuracy.evaluate_fclass fs p r i s
              (ListFeatureClasses fs r) (ListRasters fs i) fclass_name st)) = 1%nat
  /\ count is_warning
       (trace (CalculateAccuracy.evaluate_fclass fs p r i s
                 (ListFeatureClasses fs r) (ListRasters fs i) fclass_name st))
     = if CalculateAccuracy.skips fs r i fclass_name then 1%nat else 0%nat.
Proof.
  unfold CalculateAccuracy.skips, CalculateAccuracy.evaluate_fclass.
  destruct (negb (py_in fclass_name (ListFeatureClasses fs r)));
    [split; reflexivity |].
  destruct (negb (py_in fclass_name (ListRasters fs i)));
    [split; reflexivity |].
  cbn [orb]. pass_classes. rewrite !count_app.
  rewrite (proj1 (evaluate_classes_no_step fs i s fclass_name)),
    (proj2 (evaluate_classes_no_step fs i s fclass_name)).
  split; reflexivity.
Qed.

Lemma quot_100_bound (n : Z) : 0 < n -> 0 <= n * Z.quot 100 n <= 100.
Proof.
  intros Hn. rewrite Z.quot_div_nonneg by lia.
  pose proof (Z.mul_div_le 100 n Hn). 
  pose proof (Z.div_pos 100 n ltac:(lia) Hn). nia.
Qed.

(** X7. In [export_training_data], [delineate_roof_damage] and
    [calculate_accuracy] a run that passes the checks advances the
    progress bar exactly once per item of the listing, skipped or not, by
    the step it announced, [int(100 / n)] for [n] items; the steps add up
    to at most 100, the range of the bar. *)
Theorem progress_advances_once_per_item :
  (forall fs a t b o,
      ExportTrainingData.ready fs a t b o ->
      ListRasters fs a <> [] ->
      let n := List.length (ListRasters fs a) in
      count is_progress_step (trace (ExportTrainingData.main fs a t b o)) = n
      /\ In (SetProgressor (Z.quot 100 (Z.of_nat n)))
           (trace (ExportTrainingData.main fs a t b o))
      /\ 0 <= Z.of_nat n * Z.quot 100 (Z.of_nat n) <= 100)
  /\ (forall fs a m1 m2 m3 o s,
        DelineateRoofDamage.ready fs a m1 m2 m3 o s ->
        ListRasters fs a <> [] ->
        let n := List.length (ListRasters fs a) in
        count is_progress_step (trace (DelineateRoofDamage.main fs a m1 m2 m3 o s)) = n
        /\ In (SetProgressor (Z.quot 100 (Z.of_nat n)))
             (trace (DelineateRoofDamage.main fs a m1 m2 m3 o s))
        /\ 0 <= Z.of_nat n * Z.quot 100 (Z.of_nat n) <= 100)
  /\ (forall fs p r i o s,
        CalculateAccuracy.ready fs p r i o s ->
        ListFeatureClasses fs p <> [] ->
        let n := List.length (ListFeatureClasses fs p) in
        count is_progress_step (trace (CalculateAccuracy.main fs p r i o s)) = n
        /\ In (SetProgressor (Z.quot 100 (Z.of_nat n)))
             (trace (CalculateAccuracy.main fs p r i o s))
        /\ 0 <= Z.of_nat n * Z.quot 100 (Z.of_nat n) <= 100).
Proof.
  assert (Hpos : forall X (l : list X), l <> [] -> 0 < Z.of_nat (List.length l))
    by (intros X l H; destruct l; [congruence | cbn [List.length]; lia]).
  split; [| split].
  - intros fs a t b o Hready Hne n.
    destruct (export_main_run _ _ _ _ _ Hready Hne) as (st & Hst & Hsk & ->).
    cbn [trace fst]. split; [| split].
    + rewrite !count_app, count_spec_report by reflexivity.
      rewrite (for_each_count _ (export_image_returns a t b o _ _)
                 is_progress_step (fun _ => 1%nat)).
      * rewrite list_sum_ones. unfold count; cbn. unfold n. lia.
      * intros image st0. unfold ExportTrainingData.export_image.
        split_ifs; reflexivity.
    + right; right; right; left; reflexivity.
    + apply quot_100_bound, Hpos, Hne.
  - intros fs a m1 m2 m3 o s Hready Hne n.
    rewrite (delineate_main_run _ _ _ _ _ _ _ Hready Hne).
    cbn [trace fst]. split; [| split].
    + rewrite !count_app.
      rewrite (for_each_count _ (delineate_image_returns a o s _)
                 is_progress_step (fun _ => 1%nat)).
      * rewrite list_sum_ones. unfold count; cbn. unfold n. lia.
      * intros image k. unfold DelineateRoofDamage.delineate_image.
        repeat pass_trace.
        rewrite (trace_bind _ _ _
                   (f_equal snd (delineate_models_run a s image
                                   (DelineateRoofDamage.model_dictionary m1 m2 m3) []))).
        rewrite delineate_models_run. cbn [trace fst]. rewrite !count_app.
        replace (count is_progress_step (map Call _)) with 0%nat; [reflexivity |].
        symmetry. generalize (flat_map
          (fun item : string * string =>
             [DelineateRoofDamage.generate_classified_raster
                (OsPath.join a image) (snd item);
              DelineateRoofDamage.raster_to_fclass
                (DelineateRoofDamage.classified_raster (OsPath.join a image) (snd item))
                (OsPath.join s (image ++ "_" ++ fst item));
              DelineateRoofDamage.delete_fclass_fields
                (OsPath.join s (image ++ "_" ++ fst item))])
          (DelineateRoofDamage.model_dictionary m1 m2 m3)).
        intros cs. induction cs as [| c cs IH]; [reflexivity | exact IH].
    + right; right; left; reflexivity.
    + apply quot_100_bound, Hpos, Hne.
  - intros fs p r i o s Hready Hne n.
    destruct (accuracy_main_run _ _ _ _ _ _ Hready Hne) as (st & Hst & Hsk & ->).
    cbn [trace fst]. split; [| split].
    + rewrite !count_app, count_spec_report by reflexivity.
      rewrite (for_each_count _ (evaluate_fclass_returns fs p r i s _ _)
                 is_progress_step (fun _ => 1%nat)).
      * rewrite list_sum_ones. unfold count; cbn. unfold n. lia.
      * intros f st0. apply evaluate_fclass_steps.
    + right; right; right; right; left; reflexivity.
    + apply quot_100_bound, Hpos, Hne.
Qed.

Lemma progress_advances_once_per_item_witness :
  count is_progress_step
    (trace (CalculateAccuracy.main Samples.fs "/predicted.gdb" "/reference.gdb"
              "/images.gdb" "/tables.gdb" "/scratch.gdb"))
  = List.length (ListFeatureClasses Samples.fs "/predicted.gdb").
Proof.
  refine (proj1 (proj2 (proj2 progress_advances_once_per_item) Samples.fs
                   "/predicted.gdb" "/reference.gdb" "/images.gdb" "/tables.gdb"
                   "/scratch.gdb" _ _)).
  - split; repeat constructor.
  - discriminate.
Defined.

(** X8. In the three scripts that can skip items, a run that passes the
    checks issues exactly one warning per skipped item and none for a
    processed one: the warnings of the run are as many as the items the
    loop skips. *)
Theorem one_warning_per_skipped_item :
  (forall fs a b c d,
      PrepareImages.ready fs a b c d ->
      ListRasters fs a <> [] ->
      count is_warning (trace (PrepareImages.main fs a b c d))
      = List.length (List.filter (PrepareImages.skips fs a b) (ListRasters fs a)))
  /\ (forall fs a t b o,
        ExportTrainingData.ready fs a t b o ->
        ListRasters fs a <> [] ->
        count is_warning (trace (ExportTrainingData.main fs a t b o))
        = List.length (List.filter (ExportTrainingData.skips fs t b) (ListRasters fs a)))
  /\ (forall fs p r i o s,
        CalculateAccuracy.ready fs p r i o s ->
        ListFeatureClasses fs p <> [] ->
        count is_warning (trace (CalculateAccuracy.main fs p r i o s))
        = List.length (List.filter (CalculateAccuracy.skips fs r i)
                         (ListFeatureClasses fs p))).
Proof.
  split; [| split].
  - intros fs a b c d Hready Hne.
    destruct (prepare_main_run _ _ _ _ _ Hready Hne) as (st & Hst & Hsk & ->).
    cbn [trace fst]. rewrite !count_app, count_spec_report by reflexivity.
    rewrite (for_each_count _ (prepare_image_returns fs a b c d _) is_warning
               (fun image => if PrepareImages.skips fs a b image then 1%nat else 0%nat)).
    + rewrite list_sum_indicator. unfold count; cbn. lia.
    + intros image st0. unfold PrepareImages.skips, PrepareImages.prepare_image.
      destruct (py_in _ _); cbn [negb orb]; [| reflexivity].
      destruct (String.eqb _ "Unknown"); [reflexivity |].
      split_ifs; reflexivity.
  - intros fs a t b o Hready Hne.
    destruct (export_main_run _ _ _ _ _ Hready Hne) as (st & Hst & Hsk & ->).
    cbn [trace fst]. rewrite !count_app, count_spec_report by reflexivity.
    rewrite (for_each_count _ (export_image_returns a t b o _ _) is_warning
               (fun image => if ExportTrainingData.skips fs t b image
                             then 1%nat else 0%nat)).
    + rewrite list_sum_indicator. unfold count; cbn. lia.
    + intros image st0. unfold ExportTrainingData.skips, ExportTrainingData.export_image.
      destruct (py_in image (ListFeatureClasses fs t)),
        (py_in image (ListFeatureClasses fs b)); reflexivity.
  - intros fs p r i o s Hready Hne.
    destruct (accuracy_main_run _ _ _ _ _ _ Hready Hne) as (st & Hst & Hsk & ->).
    cbn [trace fst]. rewrite !count_app, count_spec_report by reflexivity.
    rewrite (for_each_count _ (evaluate_fclass_returns fs p r i s _ _) is_warning
               (fun f => if CalculateAccuracy.skips fs r i f then 1%nat else 0%nat)).
    + rewrite list_sum_indicator. unfold count; cbn. lia.
    + intros f st0. apply evaluate_fclass_steps.
Qed.

Lemma one_warning_per_skipped_item_witness :
  count is_warning
    (trace (PrepareImages.main Samples.fs "/in" "/boundary.gdb" "/out.gdb"
              "/scratch.gdb"))
  = List.length (List.filter (PrepareImages.skips Samples.fs "/in" "/boundary.gdb")
                   (ListRasters Samples.fs "/in")).
Proof.
  apply (proj1 one_warning_per_skipped_item Samples.fs "/in" "/boundary.gdb" "/out.gdb"
           "/scratch.gdb").
  - split; repeat constructor.
  - discriminate.
Defined.

(** ** calculate_accuracy: the fields of an accuracy table *)

(** X9. [verify_accuracy_category_fields] returns, and calculates a field
    with the value 0 exactly for those of TP, FP and FN, in that order,
    that the table does not list: afterwards each of the three is a field
    of the table or has just been created, and a field the table already
    had is never recalculated, so no pixel count is overwritten. *)
Theorem verify_creates_missing_fields fs input_table_path :
  let run := CalculateAccuracy.verify_accuracy_category_fields fs input_table_path in
  outcome run = inr tt
  /\ gp_calls (trace run)
     = map (fun category =>
              CalculateAccuracy.calculate_field input_table_path category (VInt 0) "DOUBLE")
         (List.filter (fun category => negb (py_in category (ListFields fs input_table_path)))
            ["TP"; "FP"; "FN"]%string)
  /\ (forall category,
        In category ["TP"; "FP"; "FN"]%string ->
        In category (ListFields fs input_table_path)
        \/ In (CalculateAccuracy.calculate_field input_table_path category (VInt 0) "DOUBLE")
             (gp_calls (trace run)))
  /\ (forall field expression field_type,
        In field (ListFields fs input_table_path) ->
        ~ In (CalculateAccuracy.calculate_field input_table_path field expression field_type)
            (gp_calls (trace run))).
Proof.
  intros run.
  assert (Hcalls : gp_calls (trace run)
                   = map (fun category =>
                            CalculateAccuracy.calculate_field input_table_path category
                              (VInt 0) "DOUBLE")
                       (List.filter
                          (fun category =>
                             negb (py_in category (ListFields fs input_table_path)))
                          ["TP"; "FP"; "FN"]%string)).
  { subst run. unfold CalculateAccuracy.verify_accuracy_category_fields.
    cbn [for_each List.filter]. split_ifs; reflexivity. }
  split; [| split; [exact Hcalls | split]].
  - subst run. unfold CalculateAccuracy.verify_accuracy_category_fields.
    cbn [for_each]. split_ifs; reflexivity.
  - intros category Hin. rewrite Hcalls.
    destruct (py_in category (ListFields fs input_table_path)) eqn:E.
    + left. apply py_in_In. exact E.
    + right. apply in_map_iff. exists category. split; [reflexivity |].
      apply List.filter_In. split; [exact Hin |].
      rewrite E. reflexivity.
  - intros field expression field_type Hin Hcall. rewrite Hcalls in Hcall.
    apply in_map_iff in Hcall. destruct Hcall as (category & Heq & Hcat).
    apply List.filter_In in Hcat. destruct Hcat as [_ Hmiss].
    assert (category = field) by (inversion Heq; reflexivity). subst category.
    apply py_in_In in Hin. rewrite Hin in Hmiss. discriminate Hmiss.
Qed.

Lemma verify_creates_missing_fields_witness :
  ~ In (CalculateAccuracy.calculate_field "/scratch.gdb/accuracy_Hole_a" "TP" (VInt 0)
          "DOUBLE")
      (gp_calls (trace (CalculateAccuracy.verify_accuracy_category_fields Samples.fs
                          "/scratch.gdb/accuracy_Hole_a"))).
Proof.
  apply (proj2 (proj2 (proj2 (verify_creates_missing_fields Samples.fs
                                "/scratch.gdb/accuracy_Hole_a")))).
  right; left; reflexivity.
Defined.

(** ** prepare_images: where the exported pixels come from *)

Lemma run_call_unary (store : gmap string (list string)) (c : gp_call) (i o : string) :
  PrepareImages.raster_io c = Some (i, o) ->
  PrepareImages.run_call store c
  = match store !! i with
    | Some sources => Some (<[o := sources]> store)
    | None => None
    end.
Proof. intros H. unfold PrepareImages.run_call. rewrite H. reflexivity. Qed.

Lemma run_call_extract (store : gmap string (list string)) (i o : string) :
  PrepareImages.run_call store (PrepareImages.extract_rgb_bands i o)
  = match store !! i with
    | Some sources => Some (<[o := sources]> store)
    | None => None
    end.
Proof. apply run_call_unary. reflexivity. Qed.

Lemma run_call_project (store : gmap string (list string)) (i o sr : string) :
  PrepareImages.run_call store (PrepareImages.project_resample_image i o sr)
  = match store !! i with
    | Some sources => Some (<[o := sources]> store)
    | None => None
    end.
Proof. apply run_call_unary. reflexivity. Qed.

Lemma run_call_resample (store : gmap string (list string)) (i o : string) :
  PrepareImages.run_call store (PrepareImages.resample_image i o)
  = match store !! i with
    | Some sources => Some (<[o := sources]> store)
    | None => None
    end.
Proof. apply run_call_unary. reflexivity. Qed.

(** X10. For an image that [prepare_images] does not skip and whose
    spatial reference type is Geographic or Projected, the calls of the
    iteration carry the pixels of the image itself into the exported
    raster, whatever the scratch geodatabase held before; they fail only
    when the image is not there. *)
Theorem prepared_raster_holds_image_pixels fs a b c d image
  (store : gmap string (list string)) :
  PrepareImages.skips fs a b image = false ->
  spatialreference_type fs (OsPath.join a image) = "Geographic"%string
  \/ spatialreference_type fs (OsPath.join a image) = "Projected"%string ->
  match store !! OsPath.join a image with
  | Some sources =>
      exists store',
        PrepareImages.run_calls store (PrepareImages.image_calls fs a b c d image)
        = Some store'
        /\ store' !! OsPath.join c (PrepareImages.get_file_name (OsPath.join a image))
           = Some sources
  | None =>
      PrepareImages.run_calls store (PrepareImages.image_calls fs a b c d image) = None
  end.
Proof.
  intros Hskip Hty.
  destruct (skips_false _ _ _ _ Hskip) as [Hin Hunk].
  assert (Hcalls :
            PrepareImages.image_calls fs a b c d image
            = (if String.eqb (spatialreference_type fs (OsPath.join a image)) "Geographic"
               then [PrepareImages.extract_rgb_bands (OsPath.join a image)
                       (OsPath.join d "temp_raster_layer");
                     PrepareImages.project_resample_image
                       (OsPath.join d "temp_raster_layer") (OsPath.join d "resampled")
                       (spatialreference_string fs
                          (OsPath.join b
                             (PrepareImages.get_file_name (OsPath.join a image))))]
               else [PrepareImages.resample_image (OsPath.join a image)
                       (OsPath.join d "resampled")])
              ++ [PrepareImages.clip_image (OsPath.join d "resampled")
                    (OsPath.join d "clipped")
                    (OsPath.join b (PrepareImages.get_file_name (OsPath.join a image)));
                  PrepareImages.export_image (OsPath.join d "clipped")
                    (OsPath.join c (PrepareImages.get_file_name (OsPath.join a image)))]).
  { unfold PrepareImages.image_calls, PrepareImages.prepare_image,
      PrepareImages.get_spatial_ref_type, PrepareImages.get_spatial_ref_string.
    rewrite Hin. cbn [negb]. rewrite Hunk.
    destruct Hty as [Hty | Hty]; rewrite Hty; reflexivity. }
  rewrite Hcalls.
  destruct (String.eqb _ "Geographic"); cbn [app].
  - change (PrepareImages.run_calls store (?x :: ?y :: ?r))
      with (match PrepareImages.run_call store x with
            | Some s1 => match PrepareImages.run_call s1 y with
                         | Some s2 => PrepareImages.run_calls s2 r
                         | None => None
                         end
            | None => None
            end).
    rewrite run_call_extract.
    destruct (store !! OsPath.join a image) as [sources |]; [| reflexivity].
    rewrite run_call_project, lookup_insert_eq, run_clip_export, lookup_insert_eq.
    eexists; split; [reflexivity | apply lookup_insert_eq].
  - change (PrepareImages.run_calls store (?x :: ?r))
      with (match PrepareImages.run_call store x with
            | Some s1 => PrepareImages.run_calls s1 r
            | None => None
            end).
    rewrite run_call_resample.
    destruct (store !! OsPath.join a image) as [sources |]; [| reflexivity].
    rewrite run_clip_export, lookup_insert_eq.
    eexists; split; [reflexivity | apply lookup_insert_eq].
Qed.

Lemma prepared_raster_holds_image_pixels_witness :
  exists store',
    PrepareImages.run_calls Samples.folder_store
      (PrepareImages.image_calls Samples.fs "/in" "/boundary.gdb" "/out.gdb"
         "/scratch.gdb" "b.tif") = Some store'
    /\ store' !! "/out.gdb/b"%string = Some ["/in/b.tif"%string].
Proof.
  apply (prepared_raster_holds_image_pixels Samples.fs "/in" "/boundary.gdb" "/out.gdb"
           "/scratch.gdb" "b.tif" Samples.folder_store).
  - reflexivity.
  - left; reflexivity.
Defined.

(** ** [os.path]: a name under a workspace *)

Lemma all_sep_app (a b : string) :
  OsPath.all_sep (a ++ b) = (OsPath.all_sep a && OsPath.all_sep b)%bool.
Proof.
  induction a as [| c a IH]; [reflexivity |].
  rewrite append_cons. cbn [OsPath.all_sep]. rewrite IH, andb_assoc. reflexivity.
Qed.

Lemma all_sep_endswith (a : string) :
  a <> ""%string -> OsPath.all_sep a = true -> OsPath.endswith_sep a = true.
Proof.
  induction a as [| c a IH]; [congruence |].
  intros _ H. cbn [OsPath.all_sep] in H. apply andb_prop in H. destruct H as [Hc Ha].
  destruct a as [| d a]; [exact Hc |].
  change (OsPath.endswith_sep (String d a) = true). apply IH; [discriminate | exact Ha].
Qed.

Lemma rstrip_sep_app (a : string) :
  OsPath.endswith_sep a = false -> OsPath.rstrip_sep (a ++ "/") = a.
Proof.
  induction a as [| c a IH]; [reflexivity |].
  intros H. rewrite append_cons. cbn [OsPath.rstrip_sep].
  destruct a as [| d a].
  - cbn in H |- *. rewrite H. reflexivity.
  - change (OsPath.endswith_sep (String d a) = false) in H.
    rewrite (IH H). reflexivity.
Qed.

Lemma join_plain (a b : string) :
  a <> ""%string -> OsPath.endswith_sep a = false ->
  contains_char OsPath.sep b = false ->
  OsPath.join a b = ((a ++ "/") ++ b)%string.
Proof.
  intros Ha He Hb. unfold OsPath.join. rewrite (startswith_sep_absent _ Hb), He.
  destruct (String.eqb_spec a ""); [contradiction |].
  cbn [orb]. rewrite append_assoc_s. reflexivity.
Qed.

Lemma dirname_join (a b : string) :
  a <> ""%string -> OsPath.endswith_sep a = false ->
  contains_char OsPath.sep b = false ->
  OsPath.dirname (OsPath.join a b) = a.
Proof.
  intros Ha He Hb. rewrite (join_plain _ _ Ha He Hb).
  unfold OsPath.dirname, OsPath.rfind, OsPath.slice_to.
  rewrite rfind_from_app, (rfind_from_absent _ _ _ _ Hb),
    (rfind_sep_prefix _ (or_intror (endswith_sep_app a))).
  rewrite Nat2Z.id, substring_app_l.
  assert (Hall : OsPath.all_sep (a ++ "/") = false).
  { rewrite all_sep_app. destruct (OsPath.all_sep a) eqn:E; [| reflexivity].
    rewrite (all_sep_endswith _ Ha E) in He. discriminate He. }
  rewrite Hall.
  destruct (String.eqb_spec (a ++ "/") "") as [E | _].
  - destruct a; discriminate E.
  - cbn [negb andb]. apply rstrip_sep_app; exact He.
Qed.

Lemma append_inj_l (k x y : string) : (k ++ x)%string = (k ++ y)%string -> x = y.
Proof.
  induction k as [| c k IH]; [intros H; exact H |].
  rewrite !append_cons. intros H. inversion H. apply IH; assumption.
Qed.

Lemma join_name (a x : string) (c : ascii) (r : string) :
  x = String c r -> c <> OsPath.sep ->
  OsPath.join a x
  = ((if (String.eqb a "" || OsPath.endswith_sep a)%bool then a else a ++ "/") ++ x)%string.
Proof.
  intros -> Hc. unfold OsPath.join. cbn [OsPath.startswith_sep].
  replace (Ascii.eqb c OsPath.sep) with false
    by (symmetry; apply Ascii.eqb_neq; exact Hc).
  destruct (String.eqb a "" || OsPath.endswith_sep a)%bool; [reflexivity |].
  rewrite append_assoc_s. reflexivity.
Qed.

Lemma accuracy_table_inj (s dc dc' f f' : string) :
  In dc CalculateAccuracy.damage_classes ->
  In dc' CalculateAccuracy.damage_classes ->
  CalculateAccuracy.accuracy_table s dc f = CalculateAccuracy.accuracy_table s dc' f' ->
  dc = dc' /\ f = f'.
Proof.
  intros Hdc Hdc' H. unfold CalculateAccuracy.accuracy_table in H.
  change ("accuracy_" ++ dc ++ "_" ++ f)%string
    with (String "a" ("ccuracy_" ++ dc ++ "_" ++ f)) in H.
  change ("accuracy_" ++ dc' ++ "_" ++ f')%string
    with (String "a" ("ccuracy_" ++ dc' ++ "_" ++ f')) in H.
  rewrite (join_name s _ "a" ("ccuracy_" ++ dc ++ "_" ++ f) eq_refl) in H
    by discriminate.
  rewrite (join_name s _ "a" ("ccuracy_" ++ dc' ++ "_" ++ f') eq_refl) in H
    by discriminate.
  apply append_inj_l in H. apply (append_inj_l "accuracy_") in H.
  destruct Hdc as [<- | [<- | []]]; destruct Hdc' as [<- | [<- | []]];
    try discriminate H.
  - apply (append_inj_l "Decking_") in H. split; [reflexivity | exact H].
  - apply (append_inj_l "Hole_") in H. split; [reflexivity | exact H].
Qed.

(** X14. The accuracy tables of a run do not collide: for the damage
    classes of the script, two accuracy tables in the scratch geodatabase
    have the same path only if they are the table of the same damage class
    and of the same feature class. *)
Theorem accuracy_tables_distinct (s dc dc' f f' : string) :
  In dc CalculateAccuracy.damage_classes ->
  In dc' CalculateAccuracy.damage_classes ->
  CalculateAccuracy.accuracy_table s dc f = CalculateAccuracy.accuracy_table s dc' f' ->
  dc = dc' /\ f = f'.
Proof. apply accuracy_table_inj. Qed.

Lemma accuracy_tables_distinct_witness :
  "Hole"%string = "Hole"%string /\ "a_1"%string = "a_1"%string.
Proof.
  apply (accuracy_tables_distinct "/scratch.gdb" "Hole" "Hole" "a_1" "a_1").
  - right; left; reflexivity.
  - right; left; reflexivity.
  - reflexivity.
Defined.

(** ** calculate_accuracy: tables written and tables merged *)

Lemma pivot_outputs_app (cs1 cs2 : list gp_call) :
  CalculateAccuracy.pivot_outputs (cs1 ++ cs2)
  = CalculateAccuracy.pivot_outputs cs1 ++ CalculateAccuracy.pivot_outputs cs2.
Proof.
  induction cs1 as [| c cs1 IH]; [reflexivity |].
  cbn [app CalculateAccuracy.pivot_outputs].
  destruct (String.eqb (tool c) _); [| exact IH].
  destruct (arg "out_table" c) as [[] |]; try exact IH.
  cbn [app]. rewrite IH. reflexivity.
Qed.

Lemma merge_inputs_app (cs1 cs2 : list gp_call) :
  CalculateAccuracy.merge_inputs (cs1 ++ cs2)
  = CalculateAccuracy.merge_inputs cs1 ++ CalculateAccuracy.merge_inputs cs2.
Proof.
  induction cs1 as [| c cs1 IH]; [reflexivity |].
  cbn [app CalculateAccuracy.merge_inputs].
  destruct (String.eqb (tool c) _); [| exact IH].
  destruct (arg "inputs" c) as [[] |]; try exact IH.
  cbn [app]. rewrite IH. reflexivity.
Qed.

Lemma evaluate_class_tables fs i s fclass_name damage_class u :
  CalculateAccuracy.pivot_outputs
    (gp_calls (trace (CalculateAccuracy.evaluate_class fs i s fclass_name damage_class u)))
  = [CalculateAccuracy.accuracy_table s damage_class fclass_name]
  /\ CalculateAccuracy.merge_inputs
       (gp_calls (trace (CalculateAccuracy.evaluate_class fs i s fclass_name
                           damage_class u))) = [].
Proof.
  unfold CalculateAccuracy.evaluate_class, CalculateAccuracy.verify_accuracy_category_fields.
  cbn [for_each]. split_ifs; split; reflexivity.
Qed.

Lemma fclass_calls_tables fs p r i s fclass_name :
  CalculateAccuracy.pivot_outputs (CalculateAccuracy.fclass_calls fs p r i s fclass_name)
  = (if CalculateAccuracy.skips fs r i fclass_name then []
     else map (fun damage_class =>
                 CalculateAccuracy.accuracy_table s damage_class fclass_name)
            CalculateAccuracy.damage_classes)
  /\ CalculateAccuracy.merge_inputs (CalculateAccuracy.fclass_calls fs p r i s fclass_name)
     = [].
Proof.
  unfold CalculateAccuracy.skips, CalculateAccuracy.fclass_calls,
    CalculateAccuracy.evaluate_fclass.
  destruct (negb (py_in fclass_name (ListFeatureClasses fs r)));
    [split; reflexivity |].
  destruct (negb (py_in fclass_name (ListRasters fs i)));
    [split; reflexivity |].
  cbn [orb]. pass_classes. rewrite !gp_calls_app.
  cbn [for_each CalculateAccuracy.damage_classes].
  rewrite (trace_bind _ _ tt (evaluate_class_returns fs i s fclass_name "Decking" tt)).
  rewrite (trace_bind _ _ tt (evaluate_class_returns fs i s fclass_name "Hole" tt)).
  rewrite !gp_calls_app, !pivot_outputs_app, !merge_inputs_app.
  rewrite (proj1 (evaluate_class_tables fs i s fclass_name "Decking" tt)),
    (proj2 (evaluate_class_tables fs i s fclass_name "Decking" tt)),
    (proj1 (evaluate_class_tables fs i s fclass_name "Hole" tt)),
    (proj2 (evaluate_class_tables fs i s fclass_name "Hole" tt)).
  split; reflexivity.
Qed.

Lemma flat_map_tables fs p r i s (items : list string) :
  CalculateAccuracy.pivot_outputs
    (flat_map (CalculateAccuracy.fclass_calls fs p r i s) items)
  = flat_map (fun f =>
                if CalculateAccuracy.skips fs r i f then []
                else map (fun damage_class => CalculateAccuracy.accuracy_table s damage_class f)
                       CalculateAccuracy.damage_classes) items
  /\ CalculateAccuracy.merge_inputs
       (flat_map (CalculateAccuracy.fclass_calls fs p r i s) items) = [].
Proof.
  induction items as [| f items [IH1 IH2]]; [split; reflexivity |].
  cbn [flat_map]. rewrite pivot_outputs_app, merge_inputs_app, IH1, IH2.
  rewrite (proj1 (fclass_calls_tables fs p r i s f)),
    (proj2 (fclass_calls_tables fs p r i s f)).
  split; reflexivity.
Qed.

(** X15. The tables a run of [calculate_accuracy] writes and the tables
    it merges.  In a run that passes the checks the PivotTable calls write
    one accuracy table per damage class for each feature class that is not
    skipped, in order, and nothing else; each of the two Merge calls is
    handed the table of every feature class of the listing.  So for a
    feature class that is skipped, each merge is handed a table that no
    call of the run has written. *)
Theorem accuracy_tables_written_and_merged fs p r i o s :
  CalculateAccuracy.ready fs p r i o s ->
  ListFeatureClasses fs p <> [] ->
  let calls := gp_calls (trace (CalculateAccuracy.main fs p r i o s)) in
  CalculateAccuracy.pivot_outputs calls
  = flat_map (fun f =>
                if CalculateAccuracy.skips fs r i f then []
                else map (fun damage_class => CalculateAccuracy.accuracy_table s damage_class f)
                       CalculateAccuracy.damage_classes)
      (ListFeatureClasses fs p)
  /\ CalculateAccuracy.merge_inputs calls
     = map (fun damage_class =>
              map (fun f => CalculateAccuracy.accuracy_table s damage_class f)
                (ListFeatureClasses fs p))
         CalculateAccuracy.damage_classes
  /\ (forall f damage_class,
        In f (ListFeatureClasses fs p) ->
        CalculateAccuracy.skips fs r i f = true ->
        In damage_class CalculateAccuracy.damage_classes ->
        ~ In (CalculateAccuracy.accuracy_table s damage_class f)
            (CalculateAccuracy.pivot_outputs calls)
        /\ exists inputs,
            In inputs (CalculateAccuracy.merge_inputs calls)
            /\ In (CalculateAccuracy.accuracy_table s damage_class f) inputs).
Proof.
  intros Hready Hne calls.
  assert (Hcalls : calls
                   = flat_map (CalculateAccuracy.fclass_calls fs p r i s)
                       (ListFeatureClasses fs p)
                     ++ gp_calls (trace (for_each
                                           (CalculateAccuracy.export_class o s
                                              (ListFeatureClasses fs p))
                                           CalculateAccuracy.damage_classes tt)))
    by apply (accuracy_main_calls _ _ _ _ _ _ Hready Hne).
  assert (Hpivot : CalculateAccuracy.pivot_outputs calls
                   = flat_map (fun f =>
                                 if CalculateAccuracy.skips fs r i f then []
                                 else map (fun damage_class =>
                                             CalculateAccuracy.accuracy_table s
                                               damage_class f)
                                        CalculateAccuracy.damage_classes)
                       (ListFeatureClasses fs p)).
  { rewrite Hcalls, pivot_outputs_app, (proj1 (flat_map_tables fs p r i s _)).
    apply app_nil_r. }
  assert (Hmerge : CalculateAccuracy.merge_inputs calls
                   = map (fun damage_class =>
                            map (fun f => CalculateAccuracy.accuracy_table s damage_class f)
                              (ListFeatureClasses fs p))
                       CalculateAccuracy.damage_classes).
  { rewrite Hcalls, merge_inputs_app, (proj2 (flat_map_tables fs p r i s _)).
    reflexivity. }
  split; [exact Hpivot | split; [exact Hmerge |]].
  intros f damage_class Hf Hskip Hdc. split.
  - rewrite Hpivot. intros Hin. apply in_flat_map in Hin.
    destruct Hin as (f' & Hf' & Hin).
    destruct (CalculateAccuracy.skips fs r i f') eqn:E; [destruct Hin |].
    apply in_map_iff in Hin. destruct Hin as (dc' & Heq & Hdc').
    destruct (accuracy_table_inj _ _ _ _ _ Hdc' Hdc Heq) as [_ ->].
    congruence.
  - exists (map (fun f0 => CalculateAccuracy.accuracy_table s damage_class f0)
              (ListFeatureClasses fs p)).
    rewrite Hmerge. split.
    + apply in_map_iff. exists damage_class. split; [reflexivity | exact Hdc].
    + apply in_map_iff. exists f. split; [reflexivity | exact Hf].
Qed.

Lemma accuracy_tables_written_and_merged_witness :
  ~ In (CalculateAccuracy.accuracy_table "/scratch.gdb" "Hole" "b")
      (CalculateAccuracy.pivot_outputs
         (gp_calls (trace (CalculateAccuracy.main Samples.fs "/predicted.gdb"
                             "/reference.gdb" "/images.gdb" "/tables.gdb"
                             "/scratch.gdb")))).
Proof.
  refine (proj1 (proj2 (proj2 (accuracy_tables_written_and_merged Samples.fs
                                 "/predicted.gdb" "/reference.gdb" "/images.gdb"
                                 "/tables.gdb" "/scratch.gdb" _ _)) "b" "Hole" _ _ _)).
  - split; repeat constructor.
  - discriminate.
  - right; left; reflexivity.
  - reflexivity.
  - right; left; reflexivity.
Defined.

(** ** calculate_accuracy: what an evaluation reads *)

Lemma well_sequenced_app (available : list string) (cs1 cs2 : list gp_call) :
  DataFlow.well_sequenced available (cs1 ++ cs2)
  <-> DataFlow.well_sequenced available cs1
      /\ DataFlow.well_sequenced (DataFlow.after available cs1) cs2.
Proof.
  revert available; induction cs1 as [| c cs1 IH]; intros available;
    cbn [app DataFlow.well_sequenced DataFlow.after].
  - tauto.
  - rewrite IH. tauto.
Qed.

Lemma after_incl (available : list string) (cs : list gp_call) (x : string) :
  In x available -> In x (DataFlow.after available cs).
Proof.
  revert available; induction cs as [| c cs IH]; intros available H;
    cbn [DataFlow.after]; [exact H |].
  apply IH. apply in_or_app. right; exact H.
Qed.

Ltac available :=
  repeat first [ assumption | left; reflexivity | right ].

Lemma evaluate_class_well_sequenced fs i s fclass_name damage_class
  (available : list string) :
  In (OsPath.join s "predicted_polygons_dissolve") available ->
  In (OsPath.join s "reference_polygons_dissolve") available ->
  In (OsPath.join i fclass_name) available ->
  DataFlow.well_sequenced available
    (gp_calls (trace (CalculateAccuracy.evaluate_class fs i s fclass_name damage_class tt))).
Proof.
  intros Hp Hr Hi.
  unfold CalculateAccuracy.evaluate_class, CalculateAccuracy.verify_accuracy_category_fields.
  cbn [for_each]. split_ifs;
    cbn -[OsPath.join];
    repeat (split || apply List.Forall_cons || apply List.Forall_nil); available.
Qed.

(** X16. What the evaluation of a feature class reads.  For a feature
    class that is not skipped, every dataset a call of its evaluation reads
    is the feature class in the predicted or in the reference geodatabase,
    the prepared image of the same name, or the output of an earlier call
    of the same evaluation: nothing that an earlier feature class, or an
    earlier run, left in the scratch geodatabase is read. *)
Theorem evaluation_reads_own_data fs p r i s fclass_name :
  CalculateAccuracy.skips fs r i fclass_name = false ->
  DataFlow.well_sequenced
    [OsPath.join p fclass_name; OsPath.join r fclass_name; OsPath.join i fclass_name]
    (CalculateAccuracy.fclass_calls fs p r i s fclass_name).
Proof.
  intros Hskip.
  unfold CalculateAccuracy.skips in Hskip. apply orb_false_elim in Hskip.
  destruct Hskip as [H1 H2].
  unfold CalculateAccuracy.fclass_calls, CalculateAccuracy.evaluate_fclass.
  rewrite H1, H2. pass_classes. rewrite !gp_calls_app.
  cbn [for_each CalculateAccuracy.damage_classes].
  rewrite (trace_bind _ _ tt (evaluate_class_returns fs i s fclass_name "Decking" tt)).
  rewrite (trace_bind _ _ tt (evaluate_class_returns fs i s fclass_name "Hole" tt)).
  rewrite !gp_calls_app.
  cbn -[OsPath.join CalculateAccuracy.evaluate_class].
  repeat (split || apply List.Forall_cons || apply List.Forall_nil); try solve [available].
  rewrite !app_nil_r.
  apply well_sequenced_app. split.
  - apply evaluate_class_well_sequenced; available.
  - apply evaluate_class_well_sequenced; apply after_incl; available.
Qed.

Lemma evaluation_reads_own_data_witness :
  DataFlow.well_sequenced
    [OsPath.join "/predicted.gdb" "a"; OsPath.join "/reference.gdb" "a";
     OsPath.join "/images.gdb" "a"]
    (CalculateAccuracy.fclass_calls Samples.fs "/predicted.gdb" "/reference.gdb"
       "/images.gdb" "/scratch.gdb" "a").
Proof. apply evaluation_reads_own_data. reflexivity. Defined.

Lemma well_sequencedb_spec (available : list string) (cs : list gp_call) :
  DataFlow.well_sequencedb available cs = true <-> DataFlow.well_sequenced available cs.
Proof.
  revert available; induction cs as [| c cs IH]; intros available;
    cbn [DataFlow.well_sequencedb DataFlow.well_sequenced]; [tauto |].
  rewrite andb_true_iff, IH, forallb_forall, List.Forall_forall.
  split; intros [H1 H2]; (split; [| exact H2]); intros x Hx;
    apply py_in_In; apply H1; exact Hx.
Qed.

(** On the sample run, where two feature classes are skipped, the calls of
    the evaluations are in order but those of the whole run are not: a
    merge reads tables that were not written. *)
Example accuracy_sample_sequencing :
  let inputs :=
    map (OsPath.join "/predicted.gdb") (ListFeatureClasses Samples.fs "/predicted.gdb")
    ++ map (OsPath.join "/reference.gdb") (ListFeatureClasses Samples.fs "/reference.gdb")
    ++ map (OsPath.join "/images.gdb") (ListRasters Samples.fs "/images.gdb") in
  DataFlow.well_sequenced inputs
    (flat_map (CalculateAccuracy.fclass_calls Samples.fs "/predicted.gdb"
                 "/reference.gdb" "/images.gdb" "/scratch.gdb")
       (ListFeatureClasses Samples.fs "/predicted.gdb"))
  /\ ~ DataFlow.well_sequenced inputs
         (gp_calls (trace (CalculateAccuracy.main Samples.fs "/predicted.gdb"
                             "/reference.gdb" "/images.gdb" "/tables.gdb"
                             "/scratch.gdb"))).
Proof.
  intros inputs. split.
  - apply well_sequencedb_spec. vm_compute. reflexivity.
  - intros H. apply well_sequencedb_spec in H. vm_compute in H. discriminate H.
Qed.

(** ** How many calls a run makes *)

Lemma length_flat_map_const {X Y} (f : X -> list Y) (k : nat) (l : list X) :
  (forall x, List.length (f x) = k) ->
  List.length (flat_map f l) = (List.length l * k)%nat.
Proof.
  intros Hf. induction l as [| x l IH]; [reflexivity |].
  cbn [flat_map List.length]. rewrite List.length_app, Hf, IH. lia.
Qed.

Lemma delineate_main_gp_calls fs a m1 m2 m3 o s :
  DelineateRoofDamage.ready fs a m1 m2 m3 o s ->
  ListRasters fs a <> [] ->
  gp_calls (trace (DelineateRoofDamage.main fs a m1 m2 m3 o s))
  = flat_map (DelineateRoofDamage.spec_image_calls a m1 m2 m3 o s) (ListRasters fs a).
Proof.
  intros Hready Hne.
  rewrite (delineate_main_run _ _ _ _ _ _ _ Hready Hne).
  cbn [trace fst]. rewrite !gp_calls_app. cbn [gp_calls app].
  rewrite app_nil_r.
  apply (for_each_calls _
           (delineate_image_returns a o s (DelineateRoofDamage.model_dictionary m1 m2 m3))).
  intros image remaining. apply delineate_image_calls.
Qed.

Lemma spec_image_calls_length a m1 m2 m3 o s image :
  List.length (DelineateRoofDamage.spec_image_calls a m1 m2 m3 o s image)
  = (3 * List.length (DelineateRoofDamage.model_paths m1 m2 m3) + 1)%nat.
Proof.
  unfold DelineateRoofDamage.spec_image_calls, DelineateRoofDamage.spec_supplied_models,
    DelineateRoofDamage.model_paths.
  rewrite collect_model_paths_filter. cbn [List.filter snd app].
  destruct (String.eqb m1 ""), (String.eqb m2 ""), (String.eqb m3 ""); reflexivity.
Qed.

(** X17. How much work a run does.  A run of [delineate_roof_damage.main]
    that passes the checks makes, for each image, three calls per supplied
    model and one merge: with [n] images and [k] supplied models,
    [n * (3 * k + 1)] engine calls.  A run of [export_training_data.main]
    that passes the checks makes one call per image it does not skip: its
    calls and its skipped images together are as many as the images. *)
Theorem runs_call_counts :
  (forall fs a m1 m2 m3 o s,
      DelineateRoofDamage.ready fs a m1 m2 m3 o s ->
      ListRasters fs a <> [] ->
      List.length (gp_calls (trace (DelineateRoofDamage.main fs a m1 m2 m3 o s)))
      = (List.length (ListRasters fs a)
         * (3 * List.length (DelineateRoofDamage.model_paths m1 m2 m3) + 1))%nat)
  /\ (forall fs a t b o,
        ExportTrainingData.ready fs a t b o ->
        ListRasters fs a <> [] ->
        (List.length (gp_calls (trace (ExportTrainingData.main fs a t b o)))
         + List.length (List.filter (ExportTrainingData.skips fs t b) (ListRasters fs a)))%nat
        = List.length (ListRasters fs a)).
Proof.
  split.
  - intros fs a m1 m2 m3 o s Hready Hne.
    rewrite (delineate_main_gp_calls _ _ _ _ _ _ _ Hready Hne).
    apply length_flat_map_const. intros image. apply spec_image_calls_length.
  - intros fs a t b o Hready Hne.
    rewrite (proj2 (export_main_calls _ _ _ _ _ Hready Hne)).
    clear Hne Hready.
    induction (ListRasters fs a) as [| image images IH]; [reflexivity |].
    cbn [flat_map List.filter]. rewrite List.length_app.
    assert (Hone : List.length (ExportTrainingData.image_calls fs a t b o image)
                   = if ExportTrainingData.skips fs t b image then 0%nat else 1%nat).
    { unfold ExportTrainingData.image_calls, ExportTrainingData.skips,
        ExportTrainingData.export_image.
      destruct (py_in image (ListFeatureClasses fs t)),
        (py_in image (ListFeatureClasses fs b)); reflexivity. }
    rewrite Hone. destruct (ExportTrainingData.skips fs t b image);
      cbn [List.length]; lia.
Qed.

Lemma runs_call_counts_witness :
  List.length (gp_calls (trace (DelineateRoofDamage.main Samples.fs "/images.gdb"
                                  "/models/decking.dlpk" "" "/models/dual.emd"
                                  "/out.gdb" "/scratch.gdb")))
  = (List.length (ListRasters Samples.fs "/images.gdb")
     * (3 * List.length (DelineateRoofDamage.model_paths "/models/decking.dlpk" ""
                           "/models/dual.emd") + 1))%nat.
Proof.
  apply (proj1 runs_call_counts Samples.fs "/images.gdb" "/models/decking.dlpk" ""
           "/models/dual.emd" "/out.gdb" "/scratch.gdb").
  - split; [| split; [split |]]; try discriminate; repeat constructor.
  - discriminate.
Defined.

(** ** calculate_accuracy: the texts of the field expressions *)

Lemma eqb_append_l (a x y : string) :
  String.eqb (a ++ x) (a ++ y) = String.eqb x y.
Proof.
  induction a as [| c a IH]; [reflexivity |].
  rewrite !append_cons. cbn [String.eqb]. rewrite Ascii.eqb_refl. exact IH.
Qed.

Lemma accuracy_category_texts (pn rn : string) :
  Py.render_field_call (CalculateAccuracy.accuracy_category_call pn rn)
  = CalculateAccuracy.accuracy_category_expression pn rn
  /\ Py.render_def CalculateAccuracy.code_block_indent
       (CalculateAccuracy.accuracy_category_def pn rn)
     = CalculateAccuracy.accuracy_category_code_block pn rn.
Proof.
  split.
  - unfold Py.render_field_call, CalculateAccuracy.accuracy_category_call,
      CalculateAccuracy.accuracy_category_expression.
    cbn [Py.callee Py.fields map String.concat].
    rewrite ?append_assoc_s. reflexivity.
  - unfold Py.render_def, CalculateAccuracy.accuracy_category_def,
      CalculateAccuracy.accuracy_category_code_block.
    cbn [Py.name Py.params Py.branches Py.default Py.render_branches Py.condition Py.result].
    unfold Py.render_condition, Py.render_comparison.
    cbn [Py.render_atom Py.lhs Py.rhs map String.concat].
    rewrite ?append_assoc_s. reflexivity.
Qed.

Lemma fid_distinct (pn rn : string) :
  pn <> rn ->
  String.eqb ("FID_" ++ pn) ("FID_" ++ rn) = false
  /\ String.eqb ("FID_" ++ rn) ("FID_" ++ pn) = false.
Proof.
  intros H. rewrite !eqb_append_l. split; apply String.eqb_neq; congruence.
Qed.

Lemma category_of_value (pn rn : string) (f : CalculateAccuracy.union_feature) :
  pn <> rn ->
  CalculateAccuracy.category_of pn rn f
  = Some (Py.Str
            (let p := CalculateAccuracy.FID_predicted f in
             let r := CalculateAccuracy.FID_reference f in
             if (Z.eqb p 1 && Z.eqb r 1)%bool then "TP"
             else if (Z.eqb p 1 && Z.eqb r (-1))%bool then "FP"
             else if (Z.eqb p (-1) && Z.eqb r 1)%bool then "FN"
             else "None")).
Proof.
  intros H. destruct (fid_distinct pn rn H) as [Hpr Hrp].
  unfold CalculateAccuracy.category_of, Py.calculate, Py.call_def,
    CalculateAccuracy.accuracy_category_def, CalculateAccuracy.accuracy_category_call,
    CalculateAccuracy.union_fields.
  cbn [Py.callee Py.name Py.fields Py.params Py.branches Py.default Py.field_values
       Py.lookup Py.distinct py_in existsb List.length combine].
  rewrite !String.eqb_refl, ?Hpr, ?Hrp.
  cbn [Py.field_values Py.lookup orb negb andb Nat.eqb List.length combine].
  set (env := [(("FID_" ++ pn)%string, Py.Int (CalculateAccuracy.FID_predicted f));
               (("FID_" ++ rn)%string, Py.Int (CalculateAccuracy.FID_reference f))]).
  assert (Hp : Py.lookup ("FID_" ++ pn) env = Some (Py.Int (CalculateAccuracy.FID_predicted f))).
  { subst env; cbn [Py.lookup]. rewrite String.eqb_refl. reflexivity. }
  assert (Hr : Py.lookup ("FID_" ++ rn) env = Some (Py.Int (CalculateAccuracy.FID_reference f))).
  { subst env; cbn [Py.lookup]. rewrite Hpr, String.eqb_refl. reflexivity. }
  cbn [Py.eval_branches Py.eval_condition Py.condition Py.result].
  unfold Py.eval_comparison. cbn [Py.eval_atom Py.lhs Py.rhs].
  rewrite Hp, Hr. cbn [Py.val_eqb].
  destruct (Z.eqb (CalculateAccuracy.FID_predicted f) 1),
    (Z.eqb (CalculateAccuracy.FID_reference f) 1),
    (Z.eqb (CalculateAccuracy.FID_predicted f) (-1)),
    (Z.eqb (CalculateAccuracy.FID_reference f) (-1)); reflexivity.
Qed.

(** ** calculate_accuracy: the field calculations of a run *)

Lemma field_calculations_app (fields : list string) (cs1 cs2 : list gp_call) :
  CalculateAccuracy.field_calculations fields (cs1 ++ cs2)
  = CalculateAccuracy.field_calculations fields cs1
    ++ CalculateAccuracy.field_calculations fields cs2.
Proof.
  induction cs1 as [| c cs1 IH]; [reflexivity |].
  cbn [app CalculateAccuracy.field_calculations].
  destruct (String.eqb (tool c) _); [| exact IH].
  destruct (arg "in_table" c); [| exact IH].
  destruct (arg "field" c) as [[] |]; try exact IH.
  destruct (arg "expression" c); [| exact IH].
  destruct (py_in _ fields); [| exact IH].
  cbn [app]. rewrite IH. reflexivity.
Qed.

Lemma table_exports_app (cs1 cs2 : list gp_call) :
  CalculateAccuracy.table_exports (cs1 ++ cs2)
  = CalculateAccuracy.table_exports cs1 ++ CalculateAccuracy.table_exports cs2.
Proof.
  induction cs1 as [| c cs1 IH]; [reflexivity |].
  cbn [app CalculateAccuracy.table_exports].
  destruct (String.eqb (tool c) _); [| exact IH].
  destruct (arg "in_rows" c); [| exact IH].
  destruct (arg "out_path" c); [| exact IH].
  destruct (arg "out_name" c); [| exact IH].
  cbn [app]. rewrite IH. reflexivity.
Qed.

Lemma evaluate_class_calculations fs i s fclass_name damage_class u :
  let calls :=
    gp_calls (trace (CalculateAccuracy.evaluate_class fs i s fclass_name damage_class u)) in
  CalculateAccuracy.field_calculations ["Accuracy_Category"] calls
  = [{| CalculateAccuracy.calc_table := VStr (OsPath.join s ("union_" ++ damage_class));
        CalculateAccuracy.calc_field := "Accuracy_Category";
        CalculateAccuracy.calc_expression :=
          VStr (CalculateAccuracy.accuracy_category_expression
                  ("predicted_" ++ damage_class) ("reference_" ++ damage_class));
        CalculateAccuracy.calc_code_block :=
          Some (VStr (CalculateAccuracy.accuracy_category_code_block
                        ("predicted_" ++ damage_class)
                        ("reference_" ++ damage_class))) |}]
  /\ CalculateAccuracy.field_calculations ["Precision"; "Recall"; "F1"; "IoU"] calls = []
  /\ CalculateAccuracy.table_exports calls = [].
Proof.
  unfold CalculateAccuracy.evaluate_class, CalculateAccuracy.verify_accuracy_category_fields.
  cbn [for_each]. split_ifs; repeat split; reflexivity.
Qed.

Lemma fclass_calls_calculations fs p r i s fclass_name :
  let calls := CalculateAccuracy.fclass_calls fs p r i s fclass_name in
  CalculateAccuracy.field_calculations ["Accuracy_Category"] calls
  = (if CalculateAccuracy.skips fs r i fclass_name then []
     else map (fun damage_class =>
                 {| CalculateAccuracy.calc_table :=
                      VStr (OsPath.join s ("union_" ++ damage_class));
                    CalculateAccuracy.calc_field := "Accuracy_Category";
                    CalculateAccuracy.calc_expression :=
                      VStr (CalculateAccuracy.accuracy_category_expression
                              ("predicted_" ++ damage_class)
                              ("reference_" ++ damage_class));
                    CalculateAccuracy.calc_code_block :=
                      Some (VStr (CalculateAccuracy.accuracy_category_code_block
                                    ("predicted_" ++ damage_class)
                                    ("reference_" ++ damage_class))) |})
            CalculateAccuracy.damage_classes)
  /\ CalculateAccuracy.field_calculations ["Precision"; "Recall"; "F1"; "IoU"] calls = []
  /\ CalculateAccuracy.table_exports calls = [].
Proof.
  unfold CalculateAccuracy.skips, CalculateAccuracy.fclass_calls,
    CalculateAccuracy.evaluate_fclass.
  destruct (negb (py_in fclass_name (ListFeatureClasses fs r)));
    [repeat split; reflexivity |].
  destruct (negb (py_in fclass_name (ListRasters fs i)));
    [repeat split; reflexivity |].
  cbn [orb]. pass_classes. rewrite !gp_calls_app.
  cbn [for_each CalculateAccuracy.damage_classes].
  rewrite (trace_bind _ _ tt (evaluate_class_returns fs i s fclass_name "Decking" tt)).
  rewrite (trace_bind _ _ tt (evaluate_class_returns fs i s fclass_name "Hole" tt)).
  rewrite !gp_calls_app, !field_calculations_app, !table_exports_app.
  destruct (evaluate_class_calculations fs i s fclass_name "Decking" tt) as (D1 & D2 & D3).
  destruct (evaluate_class_calculations fs i s fclass_name "Hole" tt) as (H1 & H2 & H3).
  cbv zeta in D1, D2, D3, H1, H2, H3.
  rewrite D1, D2, D3, H1, H2, H3.
  repeat split; reflexivity.
Qed.

Lemma flat_map_calculations fs p r i s (items : list string) :
  let calls := flat_map (CalculateAccuracy.fclass_calls fs p r i s) items in
  CalculateAccuracy.field_calculations ["Accuracy_Category"] calls
  = flat_map
      (fun f =>
         if CalculateAccuracy.skips fs r i f then []
         else map (fun damage_class =>
                     {| CalculateAccuracy.calc_table :=
                          VStr (OsPath.join s ("union_" ++ damage_class));
                        CalculateAccuracy.calc_field := "Accuracy_Category";
                        CalculateAccuracy.calc_expression :=
                          VStr (CalculateAccuracy.accuracy_category_expression
                                  ("predicted_" ++ damage_class)
                                  ("reference_" ++ damage_class));
                        CalculateAccuracy.calc_code_block :=
                          Some (VStr (CalculateAccuracy.accuracy_category_code_block
                                        ("predicted_" ++ damage_class)
                                        ("reference_" ++ damage_class))) |})
                CalculateAccuracy.damage_classes)
      items
  /\ CalculateAccuracy.field_calculations ["Precision"; "Recall"; "F1"; "IoU"] calls = []
  /\ CalculateAccuracy.table_exports calls = [].
Proof.
  cbv zeta. induction items as [| f items (IH1 & IH2 & IH3)];
    [repeat split; reflexivity |].
  cbn [flat_map].
  rewrite !field_calculations_app, table_exports_app, IH1, IH2, IH3.
  destruct (fclass_calls_calculations fs p r i s f) as (F1 & F2 & F3).
  cbv zeta in F1, F2, F3. rewrite F1, F2, F3.
  repeat split; reflexivity.
Qed.

Lemma export_calculations o s (fclasses : list string) :
  let calls :=
    gp_calls (trace (for_each (CalculateAccuracy.export_class o s fclasses)
                       CalculateAccuracy.damage_classes tt)) in
  CalculateAccuracy.field_calculations ["Accuracy_Category"] calls = []
  /\ CalculateAccuracy.field_calculations ["Precision"; "Recall"; "F1"; "IoU"] calls
     = flat_map
         (fun damage_class =>
            map (fun item =>
                   {| CalculateAccuracy.calc_table :=
                        VStr (OsPath.join s ("accuracy_" ++ damage_class));
                      CalculateAccuracy.calc_field := fst item;
                      CalculateAccuracy.calc_expression := VStr (snd item);
                      CalculateAccuracy.calc_code_block := None |})
              [("Precision", CalculateAccuracy.precision_expression);
               ("Recall", CalculateAccuracy.recall_expression);
               ("F1", CalculateAccuracy.f1_expression);
               ("IoU", CalculateAccuracy.iou_expression)])
         CalculateAccuracy.damage_classes
  /\ CalculateAccuracy.table_exports calls
     = map (fun damage_class =>
              (VStr (OsPath.join s ("accuracy_" ++ damage_class)),
               VStr (OsPath.dirname (OsPath.join o ("Accuracy_" ++ damage_class))),
               VStr (OsPath.basename (OsPath.join o ("Accuracy_" ++ damage_class)))))
         CalculateAccuracy.damage_classes.
Proof. repeat split; reflexivity. Qed.

Lemma accuracy_main_calculations fs p r i o s :
  CalculateAccuracy.ready fs p r i o s ->
  ListFeatureClasses fs p <> [] ->
  let calls := gp_calls (trace (CalculateAccuracy.main fs p r i o s)) in
  CalculateAccuracy.field_calculations ["Accuracy_Category"] calls
  = flat_map
      (fun f =>
         if CalculateAccuracy.skips fs r i f then []
         else map (fun damage_class =>
                     {| CalculateAccuracy.calc_table :=
                          VStr (OsPath.join s ("union_" ++ damage_class));
                        CalculateAccuracy.calc_field := "Accuracy_Category";
                        CalculateAccuracy.calc_expression :=
                          VStr (CalculateAccuracy.accuracy_category_expression
                                  ("predicted_" ++ damage_class)
                                  ("reference_" ++ damage_class));
                        CalculateAccuracy.calc_code_block :=
                          Some (VStr (CalculateAccuracy.accuracy_category_code_block
                                        ("predicted_" ++ damage_class)
                                        ("reference_" ++ damage_class))) |})
                CalculateAccuracy.damage_classes)
      (ListFeatureClasses fs p)
  /\ CalculateAccuracy.field_calculations ["Precision"; "Recall"; "F1"; "IoU"] calls
     = flat_map
         (fun damage_class =>
            map (fun item =>
                   {| CalculateAccuracy.calc_table :=
                        VStr (OsPath.join s ("accuracy_" ++ damage_class));
                      CalculateAccuracy.calc_field := fst item;
                      CalculateAccuracy.calc_expression := VStr (snd item);
                      CalculateAccuracy.calc_code_block := None |})
              [("Precision", CalculateAccuracy.precision_expression);
               ("Recall", CalculateAccuracy.recall_expression);
               ("F1", CalculateAccuracy.f1_expression);
               ("IoU", CalculateAccuracy.iou_expression)])
         CalculateAccuracy.damage_classes
  /\ CalculateAccuracy.table_exports calls
     = map (fun damage_class =>
              (VStr (OsPath.join s ("accuracy_" ++ damage_class)),
               VStr (OsPath.dirname (OsPath.join o ("Accuracy_" ++ damage_class))),
               VStr (OsPath.basename (OsPath.join o ("Accuracy_" ++ damage_class)))))
         CalculateAccuracy.damage_classes.
Proof.
  intros Hready Hne. cbv zeta.
  rewrite (proj2 (accuracy_main_calls _ _ _ _ _ _ Hready Hne)).
  rewrite !field_calculations_app, table_exports_app.
  destruct (flat_map_calculations fs p r i s (ListFeatureClasses fs p)) as (F1 & F2 & F3).
  destruct (export_calculations o s (ListFeatureClasses fs p)) as (E1 & E2 & E3).
  cbv zeta in F1, F2, F3, E1, E2, E3.
  rewrite F1, F2, F3, E1, E2, E3, app_nil_r.
  repeat split; reflexivity.
Qed.

Lemma predicted_reference_distinct (damage_class : string) :
  ("predicted_" ++ damage_class)%string <> ("reference_" ++ damage_class)%string.
Proof. rewrite !append_cons. discriminate. Qed.

(** C8. In a run of [calculate_accuracy.main] that passes its checks, the
    calculations of the field Accuracy_Category are, for every feature class
    that is not skipped and every damage class, the one on the union
    feature class of that damage class, with the expression
    [accuracy_category(!FID_predicted_<class>!,!FID_reference_<class>!)]
    and the code block that defines [accuracy_category]: these two texts
    are the texts of the syntax trees [accuracy_category_call] and
    [accuracy_category_def].  Evaluated on a union feature, they give TP
    exactly when both FID values are 1, FP exactly when the predicted FID
    is 1 and the reference FID is -1, FN exactly when the predicted FID is
    -1 and the reference FID is 1, and None in every other case.  So a
    feature one of whose FID values is 0 or greater than 1 is labelled
    None, and its pixels are in none of the TP, FP and FN counts of the
    zonal statistics. *)
Theorem accuracy_category_labels fs p r i o s :
  CalculateAccuracy.ready fs p r i o s ->
  ListFeatureClasses fs p <> [] ->
  CalculateAccuracy.field_calculations ["Accuracy_Category"]
    (gp_calls (trace (CalculateAccuracy.main fs p r i o s)))
  = flat_map
      (fun f =>
         if CalculateAccuracy.skips fs r i f then []
         else map (fun damage_class =>
                     {| CalculateAccuracy.calc_table :=
                          VStr (OsPath.join s ("union_" ++ damage_class));
                        CalculateAccuracy.calc_field := "Accuracy_Category";
                        CalculateAccuracy.calc_expression :=
                          VStr (Py.render_field_call
                                  (CalculateAccuracy.accuracy_category_call
                                     ("predicted_" ++ damage_class)
                                     ("reference_" ++ damage_class)));
                        CalculateAccuracy.calc_code_block :=
                          Some (VStr (Py.render_def CalculateAccuracy.code_block_indent
                                        (CalculateAccuracy.accuracy_category_def
                                           ("predicted_" ++ damage_class)
                                           ("reference_" ++ damage_class)))) |})
                CalculateAccuracy.damage_classes)
      (ListFeatureClasses fs p)
  /\ (forall damage_class (f : CalculateAccuracy.union_feature),
        let label :=
          CalculateAccuracy.category_of
            ("predicted_" ++ damage_class) ("reference_" ++ damage_class) f in
        let FID_predicted := CalculateAccuracy.FID_predicted f in
        let FID_reference := CalculateAccuracy.FID_reference f in
        (label = Some (Py.Str "TP") <-> FID_predicted = 1 /\ FID_reference = 1)
        /\ (label = Some (Py.Str "FP") <-> FID_predicted = 1 /\ FID_reference = -1)
        /\ (label = Some (Py.Str "FN") <-> FID_predicted = -1 /\ FID_reference = 1)
        /\ (label = Some (Py.Str "None")
            <-> ~ (FID_predicted = 1 /\ FID_reference = 1)
                /\ ~ (FID_predicted = 1 /\ FID_reference = -1)
                /\ ~ (FID_predicted = -1 /\ FID_reference = 1))
        /\ (FID_predicted = 0 \/ FID_predicted > 1
            \/ FID_reference = 0 \/ FID_reference > 1 ->
            label = Some (Py.Str "None")
            /\ forall features category,
                category = "TP" \/ category = "FP" \/ category = "FN" ->
                CalculateAccuracy.pixels_per_category
                  ("predicted_" ++ damage_class) ("reference_" ++ damage_class)
                  (f :: features) category
                = CalculateAccuracy.pixels_per_category
                    ("predicted_" ++ damage_class) ("reference_" ++ damage_class)
                    features category)).
Proof.
  intros Hready Hne. split.
  - rewrite (proj1 (accuracy_main_calculations _ _ _ _ _ _ Hready Hne)).
    apply flat_map_ext. intros f. destruct (CalculateAccuracy.skips fs r i f);
      [reflexivity |].
    apply map_ext. intros damage_class.
    rewrite (proj1 (accuracy_category_texts _ _)), (proj2 (accuracy_category_texts _ _)).
    reflexivity.
  - intros damage_class f label FID_predicted FID_reference.
    assert (E : label
                = Some (Py.Str
                          (if (Z.eqb FID_predicted 1 && Z.eqb FID_reference 1)%bool
                           then "TP"
                           else if (Z.eqb FID_predicted 1 && Z.eqb FID_reference (-1))%bool
                                then "FP"
                                else if (Z.eqb FID_predicted (-1)
                                         && Z.eqb FID_reference 1)%bool
                                     then "FN" else "None")))
      by apply (category_of_value _ _ f (predicted_reference_distinct damage_class)).
    assert (Hcount : label = Some (Py.Str "None") ->
                     forall features category,
                       category = "TP" \/ category = "FP" \/ category = "FN" ->
                       CalculateAccuracy.pixels_per_category
                         ("predicted_" ++ damage_class) ("reference_" ++ damage_class)
                         (f :: features) category
                       = CalculateAccuracy.pixels_per_category
                           ("predicted_" ++ damage_class) ("reference_" ++ damage_class)
                           features category).
    { intros Hnone features category Hc.
      cbn [CalculateAccuracy.pixels_per_category].
      fold label. rewrite Hnone.
      destruct Hc as [-> | [-> | ->]]; reflexivity. }
    clearbody label. subst label.
    destruct (Z.eqb_spec FID_predicted 1), (Z.eqb_spec FID_reference 1),
      (Z.eqb_spec FID_predicted (-1)), (Z.eqb_spec FID_reference (-1));
      cbn [andb] in *;
      (split; [| split; [| split; [| split]]]);
      try (split; [intros H; try discriminate H; try (split; lia)
                  | intros H; try reflexivity; try lia]);
      try (intros H; split; [first [reflexivity | exfalso; lia]
                            | first [apply Hcount; reflexivity | exfalso; lia]]).
    all: try (exfalso; tauto).
    all: try (destruct H as (H1 & H2 & H3); exfalso;
              first [apply H1; split; lia | apply H2; split; lia | apply H3; split; lia]).
    all: try (repeat split; intros [? ?]; lia).
Qed.

Lemma accuracy_category_labels_witness :
  CalculateAccuracy.category_of "predicted_Decking" "reference_Decking"
    {| CalculateAccuracy.FID_predicted := 2;
       CalculateAccuracy.FID_reference := 1;
       CalculateAccuracy.pixels := 40 |}
  = Some (Py.Str "None")
  /\ CalculateAccuracy.pixels_per_category "predicted_Decking" "reference_Decking"
       [{| CalculateAccuracy.FID_predicted := 2;
           CalculateAccuracy.FID_reference := 1;
           CalculateAccuracy.pixels := 40 |};
        {| CalculateAccuracy.FID_predicted := 1;
           CalculateAccuracy.FID_reference := 1;
           CalculateAccuracy.pixels := 7 |}] "TP" = 7.
Proof.
  assert (Hready : CalculateAccuracy.ready Samples.fs "/predicted.gdb" "/reference.gdb"
                     "/images.gdb" "/tables.gdb" "/scratch.gdb")
    by (split; repeat constructor).
  assert (Hne : ListFeatureClasses Samples.fs "/predicted.gdb" <> []) by discriminate.
  destruct (proj2 (proj2 (proj2 (proj2
              (proj2 (accuracy_category_labels Samples.fs "/predicted.gdb"
                        "/reference.gdb" "/images.gdb" "/tables.gdb" "/scratch.gdb"
                        Hready Hne)
                 "Decking"
                 {| CalculateAccuracy.FID_predicted := 2;
                    CalculateAccuracy.FID_reference := 1;
                    CalculateAccuracy.pixels := 40 |}))))
              ltac:(right; left; cbn; lia)) as [Hnone Hcount].
  split; [exact Hnone |].
  rewrite (Hcount _ "TP" ltac:(left; reflexivity)). reflexivity.
Defined.

Lemma ratio_texts :
  Py.render_quotient CalculateAccuracy.precision_ratio
  = CalculateAccuracy.precision_expression
  /\ Py.render_quotient CalculateAccuracy.recall_ratio
     = CalculateAccuracy.recall_expression
  /\ Py.render_quotient CalculateAccuracy.f1_ratio = CalculateAccuracy.f1_expression
  /\ Py.render_quotient CalculateAccuracy.iou_ratio = CalculateAccuracy.iou_expression.
Proof. repeat split; reflexivity. Qed.

Lemma eval_quotient_cases (q : Py.quotient) (num den : Z) (fields : list (string * Z)) :
  Py.eval_quotient fields q
  = (if Z.eqb den 0 then inl Py.ZeroDivisionError else inr (num, den)) ->
  (Py.eval_quotient fields q = inl Py.ZeroDivisionError <-> den = 0)
  /\ (den <> 0 -> Py.eval_quotient fields q = inr (num, den)).
Proof.
  intros ->. destruct (Z.eqb_spec den 0) as [E | E].
  - split; [split; [intros _; exact E | reflexivity] | intros H; contradiction].
  - split; [split; [discriminate | intros H; contradiction] | reflexivity].
Qed.

Lemma calculate_rows_cases (q : Py.quotient) (num den : CalculateAccuracy.row -> Z) :
  (forall r,
      Py.eval_quotient (CalculateAccuracy.row_fields r) q
      = (if Z.eqb (den r) 0 then inl Py.ZeroDivisionError else inr (num r, den r))) ->
  forall table,
    (CalculateAccuracy.calculate_rows q table = inl Py.ZeroDivisionError
     <-> Exists (fun r => den r = 0) table)
    /\ (Forall (fun r => den r <> 0) table ->
        CalculateAccuracy.calculate_rows q table
        = inr (map (fun r => (num r, den r)) table)).
Proof.
  intros Hq table; induction table as [| r rest [IH1 IH2]];
    cbn [CalculateAccuracy.calculate_rows map].
  - split; [split; [discriminate | intros H; inversion H] | reflexivity].
  - rewrite Hq. destruct (Z.eqb_spec (den r) 0) as [E | E].
    + split; [split; [intros _; left; exact E | reflexivity] |].
      intros H; inversion H; contradiction.
    + split.
      * destruct (CalculateAccuracy.calculate_rows q rest) as [e | vs].
        -- split.
           ++ intros H; right; apply IH1. exact H.
           ++ intros H; inversion H as [? ? Hr | ? ? Hrest]; subst;
                [contradiction | apply IH1 in Hrest; exact Hrest].
        -- split; [discriminate |].
           intros H; inversion H as [? ? Hr | ? ? Hrest]; subst;
             [contradiction | apply IH1 in Hrest; discriminate].
      * intros H; inversion H as [| ? ? _ Hrest]; subst.
        rewrite (IH2 Hrest). reflexivity.
Qed.

(** C9. In a run of [calculate_accuracy.main] that passes its checks, the
    calculations of the fields Precision, Recall, F1 and IoU are, for every
    damage class, those on its merged accuracy table, with the four
    expressions the code builds: the texts of the syntax trees
    [precision_ratio], [recall_ratio], [f1_ratio] and [iou_ratio], which
    Python reads as written.  Each is the format of one division with no
    guard: on a row it raises ZeroDivisionError exactly when TP+FP, TP+FN,
    2*TP+FP+FN or TP+FP+FN is zero, and divides TP, or 2*TP, by that sum
    otherwise; the calculation over a table fails exactly when the table
    has such a row.  A row with no predicted and no reference pixels makes
    all four fail. *)
Theorem accuracy_ratios_unguarded fs p r i o s :
  CalculateAccuracy.ready fs p r i o s ->
  ListFeatureClasses fs p <> [] ->
  let precision := CalculateAccuracy.precision_ratio in
  let recall := CalculateAccuracy.recall_ratio in
  let f1 := CalculateAccuracy.f1_ratio in
  let iou := CalculateAccuracy.iou_ratio in
  let TP := CalculateAccuracy.TP in
  let FP := CalculateAccuracy.FP in
  let FN := CalculateAccuracy.FN in
  let on_row := fun row q => Py.eval_quotient (CalculateAccuracy.row_fields row) q in
  CalculateAccuracy.field_calculations ["Precision"; "Recall"; "F1"; "IoU"]
    (gp_calls (trace (CalculateAccuracy.main fs p r i o s)))
  = flat_map
      (fun damage_class =>
         map (fun item =>
                {| CalculateAccuracy.calc_table :=
                     VStr (OsPath.join s ("accuracy_" ++ damage_class));
                   CalculateAccuracy.calc_field := fst item;
                   CalculateAccuracy.calc_expression :=
                     VStr (Py.render_quotient (snd item));
                   CalculateAccuracy.calc_code_block := None |})
           [("Precision", precision); ("Recall", recall); ("F1", f1); ("IoU", iou)])
      CalculateAccuracy.damage_classes
  /\ Forall (fun q => Py.quotient_parses q = true) [precision; recall; f1; iou]
  /\ (forall row,
        (on_row row precision = inl Py.ZeroDivisionError <-> TP row + FP row = 0)
        /\ (TP row + FP row <> 0 ->
            on_row row precision = inr (TP row, TP row + FP row))
        /\ (on_row row recall = inl Py.ZeroDivisionError <-> TP row + FN row = 0)
        /\ (TP row + FN row <> 0 ->
            on_row row recall = inr (TP row, TP row + FN row))
        /\ (on_row row f1 = inl Py.ZeroDivisionError
            <-> 2 * TP row + FP row + FN row = 0)
        /\ (2 * TP row + FP row + FN row <> 0 ->
            on_row row f1 = inr (2 * TP row, 2 * TP row + FP row + FN row))
        /\ (on_row row iou = inl Py.ZeroDivisionError
            <-> TP row + FP row + FN row = 0)
        /\ (TP row + FP row + FN row <> 0 ->
            on_row row iou = inr (TP row, TP row + FP row + FN row)))
  /\ (forall table,
        (CalculateAccuracy.calculate_rows precision table = inl Py.ZeroDivisionError
         <-> Exists (fun row => TP row + FP row = 0) table)
        /\ (CalculateAccuracy.calculate_rows recall table = inl Py.ZeroDivisionError
            <-> Exists (fun row => TP row + FN row = 0) table)
        /\ (CalculateAccuracy.calculate_rows f1 table = inl Py.ZeroDivisionError
            <-> Exists (fun row => 2 * TP row + FP row + FN row = 0) table)
        /\ (CalculateAccuracy.calculate_rows iou table = inl Py.ZeroDivisionError
            <-> Exists (fun row => TP row + FP row + FN row = 0) table))
  /\ (let empty := {| CalculateAccuracy.TP := 0; CalculateAccuracy.FP := 0;
                      CalculateAccuracy.FN := 0 |} in
      on_row empty precision = inl Py.ZeroDivisionError
      /\ on_row empty recall = inl Py.ZeroDivisionError
      /\ on_row empty f1 = inl Py.ZeroDivisionError
      /\ on_row empty iou = inl Py.ZeroDivisionError).
Proof.
  intros Hready Hne precision recall f1 iou TP FP FN on_row.
  assert (Hp : forall row, on_row row precision
                           = if Z.eqb (TP row + FP row) 0 then inl Py.ZeroDivisionError
                             else inr (TP row, TP row + FP row)) by reflexivity.
  assert (Hr : forall row, on_row row recall
                           = if Z.eqb (TP row + FN row) 0 then inl Py.ZeroDivisionError
                             else inr (TP row, TP row + FN row)) by reflexivity.
  assert (Hf : forall row, on_row row f1
                           = if Z.eqb (2 * TP row + FP row + FN row) 0
                             then inl Py.ZeroDivisionError
                             else inr (2 * TP row, 2 * TP row + FP row + FN row))
    by reflexivity.
  assert (Hi : forall row, on_row row iou
                           = if Z.eqb (TP row + FP row + FN row) 0
                             then inl Py.ZeroDivisionError
                             else inr (TP row, TP row + FP row + FN row)) by reflexivity.
  split; [| split; [| split; [| split]]].
  - rewrite (proj1 (proj2 (accuracy_main_calculations _ _ _ _ _ _ Hready Hne))).
    reflexivity.
  - repeat constructor.
  - intros row.
    destruct (eval_quotient_cases _ _ _ _ (Hp row)) as [P1 P2].
    destruct (eval_quotient_cases _ _ _ _ (Hr row)) as [R1 R2].
    destruct (eval_quotient_cases _ _ _ _ (Hf row)) as [F1 F2].
    destruct (eval_quotient_cases _ _ _ _ (Hi row)) as [I1 I2].
    repeat split; first [apply P1 | apply P2 | apply R1 | apply R2
                        | apply F1 | apply F2 | apply I1 | apply I2].
  - intros table. repeat split;
      first [ apply (proj1 (calculate_rows_cases _ _ _ Hp table))
            | apply (proj1 (calculate_rows_cases _ _ _ Hr table))
            | apply (proj1 (calculate_rows_cases _ _ _ Hf table))
            | apply (proj1 (calculate_rows_cases _ _ _ Hi table)) ].
  - repeat split.
Qed.

Lemma accuracy_ratios_unguarded_witness :
  Py.eval_quotient
    (CalculateAccuracy.row_fields
       {| CalculateAccuracy.TP := 3; CalculateAccuracy.FP := 1; CalculateAccuracy.FN := 0 |})
    CalculateAccuracy.precision_ratio
  = inr (3, 4).
Proof.
  assert (Hready : CalculateAccuracy.ready Samples.fs "/predicted.gdb" "/reference.gdb"
                     "/images.gdb" "/tables.gdb" "/scratch.gdb")
    by (split; repeat constructor).
  assert (Hne : ListFeatureClasses Samples.fs "/predicted.gdb" <> []) by discriminate.
  apply (proj1 (proj2 (proj1 (proj2 (proj2
           (accuracy_ratios_unguarded Samples.fs "/predicted.gdb" "/reference.gdb"
              "/images.gdb" "/tables.gdb" "/scratch.gdb" Hready Hne)))
           {| CalculateAccuracy.TP := 3; CalculateAccuracy.FP := 1;
              CalculateAccuracy.FN := 0 |}))).
  cbn. lia.
Defined.

(** ** calculate_accuracy: the final tables *)

Lemma gdb_workspace (workspace : string) :
  get_workspace_extension workspace = ".gdb"%string ->
  workspace <> ""%string /\ OsPath.endswith_sep workspace = false.
Proof.
  intros H. split.
  - intros ->. discriminate H.
  - destruct (OsPath.endswith_sep workspace) eqn:E; [| reflexivity].
    destruct (endswith_sep_split _ E) as [y ->].
    unfold get_workspace_extension in H.
    rewrite <- (append_empty_r (y ++ "/")) in H.
    rewrite (basename_app (y ++ "/") "" (or_intror (endswith_sep_app y)) eq_refl) in H.
    discriminate H.
Qed.

(** X13. Where the final accuracy tables go.  For a workspace path that
    is not empty and does not end with a separator, and a table name
    without separator, splitting the joined path gives back the workspace
    and the name: [improve_field_settings] hands the output geodatabase as
    the output path and the name as the output name.  So in a run of
    [calculate_accuracy.main] that passes its checks the TableToTable calls
    are two: they export the merged accuracy tables of Decking and of Hole
    of the scratch geodatabase to the tables [Accuracy_Decking] and
    [Accuracy_Hole] of the output geodatabase. *)
Theorem final_table_location :
  (forall input_table_path workspace name,
      workspace <> ""%string ->
      OsPath.endswith_sep workspace = false ->
      contains_char OsPath.sep name = false ->
      arg "out_path"
        (CalculateAccuracy.improve_field_settings input_table_path
           (OsPath.join workspace name)) = Some (VStr workspace)
      /\ arg "out_name"
           (CalculateAccuracy.improve_field_settings input_table_path
              (OsPath.join workspace name)) = Some (VStr name))
  /\ (forall fs p r i o s,
        CalculateAccuracy.ready fs p r i o s ->
        ListFeatureClasses fs p <> [] ->
        CalculateAccuracy.table_exports
          (gp_calls (trace (CalculateAccuracy.main fs p r i o s)))
        = [(VStr (OsPath.join s "accuracy_Decking"), VStr o, VStr "Accuracy_Decking");
           (VStr (OsPath.join s "accuracy_Hole"), VStr o, VStr "Accuracy_Hole")]).
Proof.
  split.
  - intros input_table_path workspace name Hw He Hn.
    unfold arg, CalculateAccuracy.improve_field_settings.
    cbn [args lookup_arg String.eqb Ascii.eqb Bool.eqb].
    rewrite (dirname_join _ _ Hw He Hn), (basename_join _ _ Hn). split; reflexivity.
  - intros fs p r i o s Hready Hne.
    rewrite (proj2 (proj2 (accuracy_main_calculations _ _ _ _ _ _ Hready Hne))).
    assert (Ho : get_workspace_extension o = ".gdb"%string).
    { destruct Hready as [_ Hgdb]. unfold CalculateAccuracy.geodatabases,
        CalculateAccuracy.workspaces in Hgdb.
      rewrite List.Forall_forall in Hgdb. apply Hgdb. cbn. tauto. }
    destruct (gdb_workspace _ Ho) as [Hw He].
    cbn [map CalculateAccuracy.damage_classes].
    change ("Accuracy_" ++ "Decking")%string with "Accuracy_Decking"%string.
    change ("Accuracy_" ++ "Hole")%string with "Accuracy_Hole"%string.
    change ("accuracy_" ++ "Decking")%string with "accuracy_Decking"%string.
    change ("accuracy_" ++ "Hole")%string with "accuracy_Hole"%string.
    rewrite (dirname_join o "Accuracy_Decking" Hw He eq_refl),
      (dirname_join o "Accuracy_Hole" Hw He eq_refl),
      (basename_join o "Accuracy_Decking" eq_refl),
      (basename_join o "Accuracy_Hole" eq_refl).
    reflexivity.
Qed.

Lemma final_table_location_witness :
  CalculateAccuracy.table_exports
    (gp_calls (trace (CalculateAccuracy.main Samples.fs "/predicted.gdb" "/reference.gdb"
                        "/images.gdb" "/tables.gdb" "/scratch.gdb")))
  = [(VStr "/scratch.gdb/accuracy_Decking", VStr "/tables.gdb", VStr "Accuracy_Decking");
     (VStr "/scratch.gdb/accuracy_Hole", VStr "/tables.gdb", VStr "Accuracy_Hole")].
Proof.
  apply (proj2 final_table_location Samples.fs "/predicted.gdb" "/reference.gdb"
           "/images.gdb" "/tables.gdb" "/scratch.gdb").
  - split; repeat constructor.
  - discriminate.
Defined.

